(** * oslo/jwt: a shallow embedding of [src/jwt/jwt.ts]

    The development follows the source file: the JavaScript values the
    code inspects (JSON values, numbers, [Date]), the collaborators it
    imports (the base64url codec, the signing primitives, the host's
    [JSON], [TextEncoder] and [TextDecoder]) taken as an interface, then
    [parseJWT], [validateJWT] and [createJWT], the older [createJWT]
    that takes the algorithm and an options bag with the older
    [parseJWT] and [validateJWT], and the builders [createJWTHeader] and
    [createJWTPayload].

    Conventions.
    - A JavaScript string is a [string]; a [Uint8Array] is a [list byte].
    - A JavaScript number is [NaN], an infinity or a decimal ([Dec m e]
      is [m * 10^e]).  A decimal that is no IEEE 754 double stands for
      the double nearest to it, as a numeral does in JSON text.  The
      product [number_mul] is that of doubles: exact, then rounded to
      the nearest double, ties to even.  Zero has no sign: nothing in
      [jwt.ts] tells [-0] from [0].  The quotient by 1000 and the sum
      of [createJWTPayload] are taken exactly: they are applied to the
      clock and to whole seconds, integers below [2^53], on which the
      double operations give the same whole seconds.
    - A synchronous function that can throw returns a [Result]; an
      [async] function is a computation [M] over a [World] that holds
      the clock read by [Date.now()] and the log of the calls made to the
      signing primitives. *)

From Stdlib Require Import String Ascii List ZArith Bool Lia.
From Stdlib.Strings Require Import Byte.
From Stdlib Require Import DecimalString.
Import ListNotations.
Local Open Scope string_scope.
Local Open Scope Z_scope.

(** ** Numbers *)

Inductive number : Type :=
| NaN
| Infinity (negative : bool)
| Dec (m : Z) (e : Z).

Definition number_of_Z (z : Z) : number := Dec z 0.

(** [m1 * 10^e1] and [m2 * 10^e2] brought to the exponent [Z.min e1 e2]. *)
Definition align (m1 e1 m2 e2 : Z) : Z * Z :=
  let e0 := Z.min e1 e2 in
  (m1 * 10 ^ (e1 - e0), m2 * 10 ^ (e2 - e0)).

(** [a < b]; false when either side is [NaN]. *)
Definition number_ltb (a b : number) : bool :=
  match a, b with
  | Dec m1 e1, Dec m2 e2 => let (x, y) := align m1 e1 m2 e2 in x <? y
  | Infinity true, Dec _ _ => true
  | Infinity true, Infinity false => true
  | Dec _ _, Infinity false => true
  | _, _ => false
  end.

(** The decimal [m * 10^e] in the form the model keeps numbers in: an
    integer as [Dec z 0], any other with the least number of digits. *)
Fixpoint reduce (places : nat) (m e : Z) : number :=
  match places with
  | O => Dec m e
  | S places' => if m mod 10 =? 0 then reduce places' (m / 10) (e + 1) else Dec m e
  end.

Definition decimal (m e : Z) : number :=
  if 0 <=? e then Dec (m * 10 ^ e) 0 else reduce (Z.to_nat (- e)) m e.

(** *** Doubles

    A finite IEEE 754 binary64 number is [n * 2^k] with [n] below
    [2^53] in magnitude and [k] from [-1074] to [971].  A real number
    is rounded to the nearest of them, to the one with [n] even when
    two are equally near, and to an infinity when that gives [2^1024]
    or more. *)

(** The integer nearest [num / den], the even one of two that are
    equally near. *)
Definition nearest_even (num den : Z) : Z :=
  let q := num / den in
  match 2 * (num mod den) ?= den with
  | Lt => q
  | Gt => q + 1
  | Eq => if Z.even q then q else q + 1
  end.

(** The [e] with [2^e <= num / den < 2^(e+1)], for positive [num] and
    [den]. *)
Definition binade (num den : Z) : Z :=
  let l := Z.log2 num - Z.log2 den in
  if (if 0 <=? l then num <? den * 2 ^ l else num * 2 ^ (- l) <? den) then l - 1 else l.

Definition signed (negative : bool) (v : Z) : Z := if negative then - v else v.

(** The double nearest [num / den], for positive [num] and [den], with
    the sign given: the nearest multiple of [2^k], where [2^k] is the
    unit in the last of the 53 bits of [num / den], and [2^-1074] at
    least. *)
Definition binary64 (negative : bool) (num den : Z) : number :=
  let k := Z.max (binade num den - 52) (-1074) in
  let n := if 0 <=? k then nearest_even num (den * 2 ^ k)
           else nearest_even (num * 2 ^ (- k)) den in
  if 0 <=? k then
    if 2 ^ 1024 <=? n * 2 ^ k then Infinity negative
    else Dec (signed negative n * 2 ^ k) 0
  else decimal (signed negative n * 5 ^ (- k)) k.

(** The double a number stands for. *)
Definition double (a : number) : number :=
  match a with
  | Dec m e =>
      if m =? 0 then Dec 0 0
      else if 0 <=? e then binary64 (m <? 0) (Z.abs m * 10 ^ e) 1
      else binary64 (m <? 0) (Z.abs m) (10 ^ (- e))
  | _ => a
  end.

(** [a * b]: the exact product of the two doubles, rounded. *)
Definition number_mul (a b : number) : number :=
  match double a, double b with
  | Dec m1 e1, Dec m2 e2 => double (Dec (m1 * m2) (e1 + e2))
  | Infinity s, Dec m _ | Dec m _, Infinity s =>
      if m =? 0 then NaN else Infinity (xorb s (m <? 0))
  | Infinity s1, Infinity s2 => Infinity (xorb s1 s2)
  | _, _ => NaN
  end.

(** [a + b], exact on decimals. *)
Definition number_add (a b : number) : number :=
  match a, b with
  | Dec m1 e1, Dec m2 e2 =>
      let (x, y) := align m1 e1 m2 e2 in Dec (x + y) (Z.min e1 e2)
  | Infinity s1, Infinity s2 => if Bool.eqb s1 s2 then Infinity s1 else NaN
  | Infinity s, Dec _ _ | Dec _ _, Infinity s => Infinity s
  | _, _ => NaN
  end.

(** [a / 1000], exact on decimals. *)
Definition number_div1000 (a : number) : number :=
  match a with
  | Dec m e => Dec m (e - 3)
  | _ => a
  end.

Definition number_abs (a : number) : number :=
  match a with
  | Dec m e => Dec (Z.abs m) e
  | Infinity _ => Infinity false
  | NaN => NaN
  end.

(** [Math.floor] *)
Definition Math_floor (a : number) : number :=
  match a with
  | Dec m e => number_of_Z (if 0 <=? e then m * 10 ^ e else m / 10 ^ (- e))
  | _ => a
  end.

(** The integer part, rounding towards zero (ECMAScript's
    ToIntegerOrInfinity on a finite number). *)
Definition number_trunc (m e : Z) : Z :=
  if 0 <=? e then m * 10 ^ e else Z.quot m (10 ^ (- e)).

(** ** Dates

    A [Date] holds a time value: an integral number of milliseconds
    since the epoch within [-8.64e15, 8.64e15], or [NaN] (an "Invalid
    Date").  [new Date(value)] applies ECMAScript's TimeClip. *)

Record Date : Type := mkDate { getTime : number }.

Definition maxTime : Z := 8640000000000000.

Definition TimeClip (t : number) : number :=
  match t with
  | Dec m e =>
      if number_ltb (number_of_Z maxTime) (number_abs t) then NaN
      else number_of_Z (number_trunc m e)
  | _ => NaN
  end.

Definition new_Date (value : number) : Date := mkDate (TimeClip value).

(** ** JSON values, as [JSON.parse] returns them

    An object keeps its properties in order; a property read that finds
    nothing gives [undefined], modelled as [None]. *)

#[warnings="-register-all"]
Inductive json : Type :=
| JNull
| JBool (b : bool)
| JNumber (n : number)
| JString (s : string)
| JArray (items : list json)
| JObject (props : list (string * json)).

Fixpoint assoc (key : string) (props : list (string * json)) : option json :=
  match props with
  | [] => None
  | (k, v) :: rest => if String.eqb k key then Some v else assoc key rest
  end.

(** [a === b] on strings *)
Infix "===" := String.eqb (at level 70, no associativity).

(** *** Property keys

    The keys of an ordinary object come in the order of
    OrdinaryOwnPropertyKeys: array indices in ascending order, then the
    other keys in the order they were created. *)

Definition digit (c : ascii) : option Z :=
  let n := N_of_ascii c in
  if ((48 <=? n) && (n <=? 57))%N then Some (Z.of_N n - 48) else None.

(** The longest run of digits at the head of [s], and what follows. *)
Fixpoint digits (s : string) : list Z * string :=
  match s with
  | String c rest =>
      match digit c with
      | Some d => let (ds, rest') := digits rest in (d :: ds, rest')
      | None => ([], s)
      end
  | EmptyString => ([], s)
  end.

(** The value of a digit sequence, most significant first. *)
Definition of_digits (ds : list Z) : Z :=
  fold_left (fun acc d => 10 * acc + d) ds 0.

(** An array index as a property key: a decimal numeral without
    leading zeros, below [2^32 - 1]. *)
Definition array_index (key : string) : option Z :=
  match digits key with
  | (d :: ds, EmptyString) =>
      let i := of_digits (d :: ds) in
      if ((d =? 0) && negb (Nat.eqb (length ds) 0)) || (4294967295 <=? i) then None
      else Some i
  | _ => None
  end.

(** [key in v], for [v] an object or an array, on own properties: the
    own keys of an array are its indices and ["length"].  (The keys
    [jwt.ts] tests with [in] are not properties of [Object.prototype]
    or [Array.prototype].) *)
Definition has_property (key : string) (v : json) : bool :=
  match v with
  | JObject props => match assoc key props with Some _ => true | None => false end
  | JArray items =>
      (key === "length")
      || match array_index key with
         | Some i => Nat.ltb (Z.to_nat i) (length items)
         | None => false
         end
  | _ => false
  end.

(** [v.key] *)
Definition get_property (key : string) (v : json) : option json :=
  match v with
  | JObject props => assoc key props
  | JArray items =>
      if key === "length" then Some (JNumber (number_of_Z (Z.of_nat (length items))))
      else match array_index key with
           | Some i => nth_error items (Z.to_nat i)
           | None => None
           end
  | _ => None
  end.

Fixpoint replace (key : string) (v : json) (props : list (string * json))
  : list (string * json) :=
  match props with
  | [] => []
  | (k, x) :: rest =>
      if String.eqb k key then (k, v) :: rest else (k, x) :: replace key v rest
  end.

(** Where a new key goes: an array index after the smaller indices
    and before everything else, any other key last. *)
Fixpoint insert (key : string) (v : json) (props : list (string * json))
  : list (string * json) :=
  match props with
  | [] => [(key, v)]
  | (k, x) :: rest =>
      match array_index key, array_index k with
      | Some i, Some j =>
          if i <? j then (key, v) :: props else (k, x) :: insert key v rest
      | Some _, None => (key, v) :: props
      | None, _ => (k, x) :: insert key v rest
      end
  end.

(** [object[key] = v] on an ordinary object. *)
Definition set_property (key : string) (v : json) (props : list (string * json))
  : list (string * json) :=
  match assoc key props with
  | Some _ => replace key v props
  | None => insert key v props
  end.

(** [typeof v] *)
Definition typeof (v : option json) : string :=
  match v with
  | None => "undefined"
  | Some JNull => "object"
  | Some (JBool _) => "boolean"
  | Some (JNumber _) => "number"
  | Some (JString _) => "string"
  | Some (JArray _) => "object"
  | Some (JObject _) => "object"
  end.

(** ** Exceptions and results *)

(** What is thrown: [new Error(message)], a [TypeError], or the
    [SyntaxError] of [JSON.parse], whose message is the engine's. *)
Inductive Exception : Type :=
| Error (message : string)
| TypeError (message : string)
| SyntaxError.

Inductive Result (A : Type) : Type :=
| Return (a : A)
| Throw (e : Exception).

Arguments Return {A} a.
Arguments Throw {A} e.

Definition bindR {A B : Type} (r : Result A) (k : A -> Result B) : Result B :=
  match r with
  | Return a => k a
  | Throw e => Throw e
  end.

Declare Scope result_scope.
Delimit Scope result_scope with result.
Notation "x <- r ;; k" := (bindR r (fun x => k))
  (at level 61, r at next level, right associativity) : result_scope.

(** ** Strings *)

Definition bytes : Type := list byte.

(** [s.split(".")]: the pieces of [s] between the dots; never empty. *)
Fixpoint split_dot (s : string) : list string :=
  match s with
  | EmptyString => [EmptyString]
  | String c rest =>
      if Ascii.eqb c "."%char then EmptyString :: split_dot rest
      else match split_dot rest with
           | piece :: pieces => String c piece :: pieces
           | [] => [String c EmptyString]
           end
  end.

(** [pieces.join(".")] *)
Fixpoint join_dot (pieces : list string) : string :=
  match pieces with
  | [] => EmptyString
  | [piece] => piece
  | piece :: rest => piece ++ "." ++ join_dot rest
  end.

(** ** The collaborators

    [jwt.ts] imports the base64url codec ([../encoding]), the signing
    primitives ([../crypto]) and uses the host's [JSON], [TextEncoder]
    and [TextDecoder].  None of them is part of the file; the functions
    below are written against their interfaces. *)

(** [base64url.encode(data, { includePadding: false })] and
    [base64url.decode(data, { strict: false })]. *)
Class Base64url : Type := {
  base64url_encode : bytes -> string;
  base64url_decode : string -> Result bytes
}.

(** [JSON.parse] throws on text that is not JSON. *)
Class Host : Type := {
  JSON_parse : string -> Result json;
  JSON_stringify : json -> string;
  TextEncoder_encode : string -> bytes;
  TextDecoder_decode : bytes -> string
}.

(** The objects [getAlgorithm] constructs: [new ECDSA(hash, curve)],
    [new HMAC(hash)], [new RSASSAPKCS1v1_5(hash)], [new RSASSAPSS(hash)]. *)
Inductive SigningAlgorithm : Type :=
| ECDSA (hash curve : string)
| HMAC (hash : string)
| RSASSAPKCS1v1_5 (hash : string)
| RSASSAPSS (hash : string).

(** [alg.sign(key, data)] and [alg.verify(key, signature, data)]. *)
Class Crypto : Type := {
  sign : SigningAlgorithm -> bytes -> bytes -> Result bytes;
  verify : SigningAlgorithm -> bytes -> bytes -> bytes -> Result bool
}.

(** ** Asynchronous computations

    The world of an [async] call: what [Date.now()] returns at each
    read, how many reads were made, and the calls made so far to the
    signing primitives, oldest first. *)

Inductive Event : Type :=
| CallSign (alg : SigningAlgorithm) (key data : bytes)
| CallVerify (alg : SigningAlgorithm) (key signature data : bytes).

Record World : Type := mkWorld {
  clock : nat -> Z;
  reads : nat;
  calls : list Event
}.

Definition M (A : Type) : Type := World -> Result A * World.

Definition ret {A : Type} (a : A) : M A := fun w => (Return a, w).

Definition throw {A : Type} (e : Exception) : M A := fun w => (Throw e, w).

Definition bind {A B : Type} (c : M A) (k : A -> M B) : M B :=
  fun w => match c w with
           | (Return a, w') => k a w'
           | (Throw e, w') => (Throw e, w')
           end.

Definition lift {A : Type} (r : Result A) : M A := fun w => (r, w).

Declare Scope async_scope.
Delimit Scope async_scope with async.
Notation "x <- c ;; k" := (bind c (fun x => k))
  (at level 61, c at next level, right associativity) : async_scope.

(** The current time, and the world after one more read of the clock. *)
Definition now (w : World) : number := number_of_Z (clock w (reads w)).

Definition tick (w : World) : World := mkWorld (clock w) (S (reads w)) (calls w).

(** [Date.now()] *)
Definition Date_now : M number := fun w => (Return (now w), tick w).

Definition logged (ev : Event) (w : World) : World :=
  mkWorld (clock w) (reads w) (calls w ++ [ev]).

(** [await alg.sign(key, data)] *)
Definition await_sign `{Crypto} (alg : SigningAlgorithm) (key data : bytes) : M bytes :=
  fun w => (sign alg key data, logged (CallSign alg key data) w).

(** [await alg.verify(key, signature, data)] *)
Definition await_verify `{Crypto} (alg : SigningAlgorithm) (key signature data : bytes) : M bool :=
  fun w => (verify alg key signature data, logged (CallVerify alg key signature data) w).

(** [isWithinExpirationDate] is imported from [../index.js], which is
    not among the sources. *)
Class Index : Type := {
  isWithinExpirationDate : Date -> M bool
}.

(** ** [jwt.ts] *)

(** [interface JWT] *)
Record JWT : Type := mkJWT {
  value : string;
  header : json;
  payload : json;
  parts : string * string * string;
  algorithm : string;
  expiresAt : option Date;
  issuer : option string;
  subject : option string;
  audiences : option (list string);
  notBefore : option Date;
  issuedAt : option Date;
  jwtId : option string
}.

(** The assignments [jwt.field = v] of [parseJWT]. *)
Definition set_expiresAt (v : option Date) (j : JWT) : JWT :=
  mkJWT (value j) (header j) (payload j) (parts j) (algorithm j)
        v (issuer j) (subject j) (audiences j) (notBefore j) (issuedAt j) (jwtId j).

Definition set_issuer (v : option string) (j : JWT) : JWT :=
  mkJWT (value j) (header j) (payload j) (parts j) (algorithm j)
        (expiresAt j) v (subject j) (audiences j) (notBefore j) (issuedAt j) (jwtId j).

Definition set_subject (v : option string) (j : JWT) : JWT :=
  mkJWT (value j) (header j) (payload j) (parts j) (algorithm j)
        (expiresAt j) (issuer j) v (audiences j) (notBefore j) (issuedAt j) (jwtId j).

Definition set_audiences (v : option (list string)) (j : JWT) : JWT :=
  mkJWT (value j) (header j) (payload j) (parts j) (algorithm j)
        (expiresAt j) (issuer j) (subject j) v (notBefore j) (issuedAt j) (jwtId j).

Definition set_notBefore (v : option Date) (j : JWT) : JWT :=
  mkJWT (value j) (header j) (payload j) (parts j) (algorithm j)
        (expiresAt j) (issuer j) (subject j) (audiences j) v (issuedAt j) (jwtId j).

Definition set_issuedAt (v : option Date) (j : JWT) : JWT :=
  mkJWT (value j) (header j) (payload j) (parts j) (algorithm j)
        (expiresAt j) (issuer j) (subject j) (audiences j) (notBefore j) v (jwtId j).

Definition set_jwtId (v : option string) (j : JWT) : JWT :=
  mkJWT (value j) (header j) (payload j) (parts j) (algorithm j)
        (expiresAt j) (issuer j) (subject j) (audiences j) (notBefore j) (issuedAt j) v.

(** The twelve tags of [type JWTAlgorithm], in the order
    [isValidAlgorithm] lists them. *)
Definition JWTAlgorithms : list string :=
  ["HS256"; "HS384"; "HS512"; "RS256"; "RS384"; "RS512";
   "ES256"; "ES384"; "ES512"; "PS256"; "PS384"; "PS512"].

Definition isValidAlgorithm (maybeValidAlgorithm : option json) : bool :=
  match maybeValidAlgorithm with
  | Some (JString s) => existsb (String.eqb s) JWTAlgorithms
  | _ => false
  end.

Record ecdsaParams : Type := { hash : string; curve : string }.

Definition ecdsaDictionary : list (string * ecdsaParams) :=
  [("ES256", {| hash := "SHA-256"; curve := "P-256" |});
   ("ES384", {| hash := "SHA-384"; curve := "P-384" |});
   ("ES512", {| hash := "SHA-512"; curve := "P-521" |})].

Definition hmacDictionary : list (string * string) :=
  [("HS256", "SHA-256"); ("HS384", "SHA-384"); ("HS512", "SHA-512")].

Definition rsassapkcs1v1_5Dictionary : list (string * string) :=
  [("RS256", "SHA-256"); ("RS384", "SHA-384"); ("RS512", "SHA-512")].

Definition rsassapssDictionary : list (string * string) :=
  [("PS256", "SHA-256"); ("PS384", "SHA-384"); ("PS512", "SHA-512")].

(** [dictionary[key]] *)
Fixpoint lookup {A : Type} (key : string) (dictionary : list (string * A)) : option A :=
  match dictionary with
  | [] => None
  | (k, v) :: rest => if String.eqb k key then Some v else lookup key rest
  end.

Definition unreachable {A : Type} : Result A :=
  Throw (TypeError "Cannot read properties of undefined").

Definition getAlgorithm (algorithm : string) : Result SigningAlgorithm :=
  if (algorithm === "ES256") || (algorithm === "ES384") || (algorithm === "ES512") then
    match lookup algorithm ecdsaDictionary with
    | Some d => Return (ECDSA (hash d) (curve d))
    | None => unreachable
    end
  else if (algorithm === "HS256") || (algorithm === "HS384") || (algorithm === "HS512") then
    match lookup algorithm hmacDictionary with
    | Some h => Return (HMAC h)
    | None => unreachable
    end
  else if (algorithm === "RS256") || (algorithm === "RS384") || (algorithm === "RS512") then
    match lookup algorithm rsassapkcs1v1_5Dictionary with
    | Some h => Return (RSASSAPKCS1v1_5 h)
    | None => unreachable
    end
  else if (algorithm === "PS256") || (algorithm === "PS384") || (algorithm === "PS512") then
    match lookup algorithm rsassapssDictionary with
    | Some h => Return (RSASSAPSS h)
    | None => unreachable
    end
  else Throw (TypeError "Invalid algorithm").

Definition is_null (v : json) : bool :=
  match v with JNull => true | _ => false end.

(** [v !== s] for a string literal [s] *)
Definition differs_from (v : option json) (s : string) : bool :=
  match v with
  | Some (JString x) => negb (x === s)
  | _ => true
  end.

(** The loop of [parseJWT] over [payload.aud]: the items when each is
    a string, [None] at the first that is not. *)
Fixpoint strings_of (items : list json) : option (list string) :=
  match items with
  | [] => Some []
  | JString s :: rest =>
      match strings_of rest with
      | Some l => Some (s :: l)
      | None => None
      end
  | _ :: _ => None
  end.

(** The seven claim blocks of [parseJWT], each from a payload and the
    token built so far to the token with the claim set, or [None] where
    the block returns [null]. *)
Definition claim_exp (payload : json) (jwt : JWT) : option JWT :=
  if has_property "exp" payload then
    match get_property "exp" payload with
    | Some (JNumber exp) =>
        Some (set_expiresAt (Some (new_Date (number_mul exp (number_of_Z 1000)))) jwt)
    | _ => None
    end
  else Some jwt.

Definition claim_iss (payload : json) (jwt : JWT) : option JWT :=
  if has_property "iss" payload then
    match get_property "iss" payload with
    | Some (JString iss) => Some (set_issuer (Some iss) jwt)
    | _ => None
    end
  else Some jwt.

Definition claim_sub (payload : json) (jwt : JWT) : option JWT :=
  if has_property "sub" payload then
    match get_property "sub" payload with
    | Some (JString sub) => Some (set_subject (Some sub) jwt)
    | _ => None
    end
  else Some jwt.

Definition claim_aud (payload : json) (jwt : JWT) : option JWT :=
  if has_property "aud" payload then
    match get_property "aud" payload with
    | Some (JArray items) =>
        match strings_of items with
        | Some aud => Some (set_audiences (Some aud) jwt)
        | None => None
        end
    | Some (JString aud) => Some (set_audiences (Some [aud]) jwt)
    | _ => None
    end
  else Some jwt.

Definition claim_nbf (payload : json) (jwt : JWT) : option JWT :=
  if has_property "nbf" payload then
    match get_property "nbf" payload with
    | Some (JNumber nbf) =>
        Some (set_notBefore (Some (new_Date (number_mul nbf (number_of_Z 1000)))) jwt)
    | _ => None
    end
  else Some jwt.

Definition claim_iat (payload : json) (jwt : JWT) : option JWT :=
  if has_property "iat" payload then
    match get_property "iat" payload with
    | Some (JNumber iat) =>
        Some (set_issuedAt (Some (new_Date (number_mul iat (number_of_Z 1000)))) jwt)
    | _ => None
    end
  else Some jwt.

Definition claim_jti (payload : json) (jwt : JWT) : option JWT :=
  if has_property "jti" payload then
    match get_property "jti" payload with
    | Some (JString jti) => Some (set_jwtId (Some jti) jwt)
    | _ => None
    end
  else Some jwt.

Definition and_then {A B : Type} (o : option A) (k : A -> option B) : option B :=
  match o with
  | Some a => k a
  | None => None
  end.

Definition claims (payload : json) (jwt : JWT) : option JWT :=
  and_then (claim_exp payload jwt) (fun jwt =>
  and_then (claim_iss payload jwt) (fun jwt =>
  and_then (claim_sub payload jwt) (fun jwt =>
  and_then (claim_aud payload jwt) (fun jwt =>
  and_then (claim_nbf payload jwt) (fun jwt =>
  and_then (claim_iat payload jwt) (fun jwt =>
  claim_jti payload jwt)))))).

Section jwt.
Context {codec : Base64url} {host : Host} {crypto : Crypto} {index : Index}.

(** [parseJWT]: [Return None] is [null]. *)
Definition parseJWT (token : string) : Result (option JWT) :=
  match split_dot token with
  | [part0; part1; part2] =>
    (rawHeader <- base64url_decode part0 ;;
     rawPayload <- base64url_decode part1 ;;
     header <- JSON_parse (TextDecoder_decode rawHeader) ;;
     if negb (typeof (Some header) === "object") || is_null header then Return None
     else if negb (has_property "alg" header)
             || negb (isValidAlgorithm (get_property "alg" header)) then Return None
     else if has_property "typ" header
             && differs_from (get_property "typ" header) "JWT" then Return None
     else
       payload <- JSON_parse (TextDecoder_decode rawPayload) ;;
       if negb (typeof (Some payload) === "object") || is_null payload then Return None
       else
         (* [header.alg] is a string here: [isValidAlgorithm] said so. *)
         match get_property "alg" header with
         | Some (JString alg) =>
             Return (claims payload
               (mkJWT token header payload (part0, part1, part2) alg
                      None None None None None None None))
         | _ => Return None
         end)%result
  | _ => Return None
  end.

(** [validateJWT]; its parameter [algorithm] is [algorithm0] here, the
    name being that of the token's field. *)
Definition validateJWT (algorithm0 : string) (key : bytes) (jwt : string) : M JWT :=
  (parsed <- lift (parseJWT jwt) ;;
   match parsed with
   | None => throw (Error "Invalid JWT")
   | Some parsedJWT =>
     if negb (algorithm parsedJWT === algorithm0) then throw (Error "Invalid algorithm")
     else
       expired <- match expiresAt parsedJWT with
                  | Some date => within <- isWithinExpirationDate date ;; ret (negb within)
                  | None => ret false
                  end ;;
       if expired : bool then throw (Error "Expired JWT")
       else
         inactive <- match notBefore parsedJWT with
                     | Some date => t <- Date_now ;; ret (number_ltb t (getTime date))
                     | None => ret false
                     end ;;
         if inactive : bool then throw (Error "Inactive JWT")
         else
           let '(part0, part1, part2) := parts parsedJWT in
           signature <- lift (base64url_decode part2) ;;
           let data := TextEncoder_encode (part0 ++ "." ++ part1) in
           alg <- lift (getAlgorithm (algorithm parsedJWT)) ;;
           validSignature <- await_verify alg key signature data ;;
           if negb validSignature then throw (Error "Invalid signature")
           else ret parsedJWT
   end)%async.

(** [createJWT]: [header.alg] is read from the header object. *)
Definition createJWT (key : bytes) (header payload : json) : M string :=
  (let headerPart := base64url_encode (TextEncoder_encode (JSON_stringify header)) in
   let payloadPart := base64url_encode (TextEncoder_encode (JSON_stringify payload)) in
   let data := TextEncoder_encode (join_dot [headerPart; payloadPart]) in
   alg <- lift (match get_property "alg" header with
                | Some (JString alg) => getAlgorithm alg
                | _ => Throw (TypeError "Invalid algorithm")
                end) ;;
   signature <- await_sign alg key data ;;
   let signaturePart := base64url_encode signature in
   ret (join_dot [headerPart; payloadPart; signaturePart]))%async.

End jwt.

(** ** A base64url codec

    The codec of [../encoding] is not among the sources.  The spec's
    wire format is base64url text, "unpadded on output, decoded in
    non-strict (padding-optional) mode on input", where "malformed
    padding alone does not reject a token" and "alphabet violations do
    fail".  The model below is RFC 4648's: six bits per character, most
    significant first, three bytes to four characters. *)

Module base64url.

Definition alphabet : string :=
  "ABCDEFGHIJKLMNOPQRSTUVWXYZabcdefghijklmnopqrstuvwxyz0123456789-_".

Definition sextet : Type := bool * bool * bool * bool * bool * bool.

Definition index (s : sextet) : nat :=
  let '(b5, b4, b3, b2, b1, b0) := s in
  (32 * Nat.b2n b5 + 16 * Nat.b2n b4 + 8 * Nat.b2n b3
   + 4 * Nat.b2n b2 + 2 * Nat.b2n b1 + Nat.b2n b0)%nat.

Definition encodeChar (s : sextet) : ascii :=
  match String.get (index s) alphabet with
  | Some c => c
  | None => "A"%char
  end.

Definition sextets : list sextet :=
  let bit := [false; true] in
  flat_map (fun b5 => flat_map (fun b4 => flat_map (fun b3 =>
  flat_map (fun b2 => flat_map (fun b1 => map (fun b0 =>
    (b5, b4, b3, b2, b1, b0)) bit) bit) bit) bit) bit) bit.

(** The decoding map: the inverse of the alphabet. *)
Definition decodeChar (c : ascii) : option sextet :=
  find (fun s => Ascii.eqb (encodeChar s) c) sextets.

Definition zero : sextet := (false, false, false, false, false, false).

Definition pack (s0 s1 s2 s3 : sextet) : byte * byte * byte :=
  let '(a5, a4, a3, a2, a1, a0) := s0 in
  let '(b5, b4, b3, b2, b1, b0) := s1 in
  let '(c5, c4, c3, c2, c1, c0) := s2 in
  let '(d5, d4, d3, d2, d1, d0) := s3 in
  (Byte.of_bits (b4, (b5, (a0, (a1, (a2, (a3, (a4, a5))))))),
   Byte.of_bits (c2, (c3, (c4, (c5, (b0, (b1, (b2, b3))))))),
   Byte.of_bits (d0, (d1, (d2, (d3, (d4, (d5, (c0, c1)))))))).

(** Modelled from the spec: [encode(data, { includePadding: false })],
    "unpadded base64url text". *)
Fixpoint encode (data : bytes) : string :=
  match data with
  | [] => EmptyString
  | [x] =>
      let '(x0, (x1, (x2, (x3, (x4, (x5, (x6, x7))))))) := Byte.to_bits x in
      String (encodeChar (x7, x6, x5, x4, x3, x2))
        (String (encodeChar (x1, x0, false, false, false, false)) EmptyString)
  | [x; y] =>
      let '(x0, (x1, (x2, (x3, (x4, (x5, (x6, x7))))))) := Byte.to_bits x in
      let '(y0, (y1, (y2, (y3, (y4, (y5, (y6, y7))))))) := Byte.to_bits y in
      String (encodeChar (x7, x6, x5, x4, x3, x2))
        (String (encodeChar (x1, x0, y7, y6, y5, y4))
          (String (encodeChar (y3, y2, y1, y0, false, false)) EmptyString))
  | x :: y :: z :: rest =>
      let '(x0, (x1, (x2, (x3, (x4, (x5, (x6, x7))))))) := Byte.to_bits x in
      let '(y0, (y1, (y2, (y3, (y4, (y5, (y6, y7))))))) := Byte.to_bits y in
      let '(z0, (z1, (z2, (z3, (z4, (z5, (z6, z7))))))) := Byte.to_bits z in
      String (encodeChar (x7, x6, x5, x4, x3, x2))
        (String (encodeChar (x1, x0, y7, y6, y5, y4))
          (String (encodeChar (y3, y2, y1, y0, z7, z6))
            (String (encodeChar (z5, z4, z3, z2, z1, z0)) (encode rest))))
  end.

(** One position of a chunk of four: the six bits of a character of
    the alphabet, or padding.  In non-strict mode a missing character
    counts as padding; ["="] is padding in the last chunk only. *)
Definition slot (last : bool) (c : option ascii) : Result (option sextet) :=
  match c with
  | None => Return None
  | Some c =>
      if Ascii.eqb c "="%char then
        if last then Return None else Throw (Error "Invalid character")
      else
        match decodeChar c with
        | Some s => Return (Some s)
        | None => Throw (Error "Invalid character")
        end
  end.

Definition padCount (slots : list (option sextet)) : nat :=
  length (filter (fun s => match s with None => true | Some _ => false end) slots).

Definition bits (s : option sextet) : sextet :=
  match s with Some s => s | None => zero end.

(** The bytes of one chunk: three, or fewer by the padding. *)
Definition chunk (last : bool) (c0 c1 c2 c3 : option ascii) : Result bytes :=
  (s0 <- slot last c0 ;;
   s1 <- slot last c1 ;;
   s2 <- slot last c2 ;;
   s3 <- slot last c3 ;;
   let pad := padCount [s0; s1; s2; s3] in
   let '(x, y, z) := pack (bits s0) (bits s1) (bits s2) (bits s3) in
   Return (x :: (if Nat.ltb pad 2 then [y] else [])
              ++ (if Nat.ltb pad 1 then [z] else []))%list)%result.

(** Modelled from the spec: [decode(data, { strict: false })], chunk by
    chunk; padding is optional, a character outside the alphabet
    throws. *)
Fixpoint decode (data : string) : Result bytes :=
  match data with
  | EmptyString => Return []
  | String c0 EmptyString => chunk true (Some c0) None None None
  | String c0 (String c1 EmptyString) => chunk true (Some c0) (Some c1) None None
  | String c0 (String c1 (String c2 EmptyString)) =>
      chunk true (Some c0) (Some c1) (Some c2) None
  | String c0 (String c1 (String c2 (String c3 rest))) =>
      match rest with
      | EmptyString => chunk true (Some c0) (Some c1) (Some c2) (Some c3)
      | _ =>
        (head <- chunk false (Some c0) (Some c1) (Some c2) (Some c3) ;;
         tail <- decode rest ;;
         Return (head ++ tail)%list)%result
      end
  end.

End base64url.

#[export] Instance base64url_codec : Base64url := {
  base64url_encode := base64url.encode;
  base64url_decode := base64url.decode
}.


(** ** The host's text codecs

    A string of the model holds the UTF-8 bytes of the JavaScript
    string (a lone surrogate has no such bytes and is not modelled), so
    [TextEncoder.encode] gives the bytes of the string, and
    [TextDecoder.decode] keeps well-formed sequences, replaces each
    ill-formed one by U+FFFD and drops a leading byte order mark, as
    the WHATWG decoder does. *)

Module utf8.

Definition replacement : string :=
  String "239" (String "191" (String "189" EmptyString)).

(** The decoder's state inside a sequence: the bytes read so far,
    how many continuation bytes are still needed, and the bounds of
    the next one. *)
Record pending : Type := {
  seen : string;
  needed : nat;
  lower : N;
  upper : N
}.

Inductive step : Type :=
| Emit (out : string)
| Open (p : pending)
| Invalid.

(** A byte read outside a sequence. *)
Definition lead (b : ascii) : step :=
  let n := N_of_ascii b in
  let one := String b EmptyString in
  if (n <=? 127)%N then Emit one
  else if ((194 <=? n) && (n <=? 223))%N then Open {| seen := one; needed := 1; lower := 128; upper := 191 |}
  else if ((224 <=? n) && (n <=? 239))%N then
    Open {| seen := one; needed := 2;
            lower := if (n =? 224)%N then 160 else 128;
            upper := if (n =? 237)%N then 159 else 191 |}%N
  else if ((240 <=? n) && (n <=? 244))%N then
    Open {| seen := one; needed := 3;
            lower := if (n =? 240)%N then 144 else 128;
            upper := if (n =? 244)%N then 143 else 191 |}%N
  else Invalid.

Fixpoint decode_from (st : option pending) (data : string) : string :=
  match data with
  | EmptyString => match st with Some _ => replacement | None => EmptyString end
  | String b rest =>
      let fresh :=
        match lead b with
        | Emit out => out ++ decode_from None rest
        | Open p => decode_from (Some p) rest
        | Invalid => replacement ++ decode_from None rest
        end in
      match st with
      | None => fresh
      | Some p =>
          let n := N_of_ascii b in
          if ((lower p <=? n) && (n <=? upper p))%N then
            match needed p with
            | 1%nat | 0%nat => seen p ++ String b (decode_from None rest)
            | S k => decode_from (Some {| seen := seen p ++ String b EmptyString;
                                          needed := k; lower := 128; upper := 191 |}) rest
            end
          else replacement ++ fresh
      end
  end.

Definition strip_BOM (s : string) : string :=
  match s with
  | String "239" (String "187" (String "191" rest)) => rest
  | _ => s
  end.

(** [new TextDecoder().decode(data)] *)
Definition decode (data : bytes) : string :=
  decode_from None (strip_BOM (string_of_list_byte data)).

(** [new TextEncoder().encode(text)] *)
Definition encode (text : string) : bytes := list_byte_of_string text.

(** The UTF-8 bytes of a code point. *)
Definition of_code_point (cp : N) : string :=
  let byte (n : N) := ascii_of_N n in
  let cont (n : N) := byte (128 + N.land n 63)%N in
  if (cp <? 128)%N then String (byte cp) EmptyString
  else if (cp <? 2048)%N then
    String (byte (192 + N.shiftr cp 6)%N) (String (cont cp) EmptyString)
  else if (cp <? 65536)%N then
    String (byte (224 + N.shiftr cp 12)%N)
      (String (cont (N.shiftr cp 6)) (String (cont cp) EmptyString))
  else
    String (byte (240 + N.shiftr cp 18)%N)
      (String (cont (N.shiftr cp 12))
        (String (cont (N.shiftr cp 6)) (String (cont cp) EmptyString))).

End utf8.

(** ** The host's [JSON] *)

Module JSON.

Definition quote : ascii := "034".
Definition backslash : ascii := "092".

Definition is_whitespace (c : ascii) : bool :=
  Ascii.eqb c " " || Ascii.eqb c "009" || Ascii.eqb c "010" || Ascii.eqb c "013".

Fixpoint skip (s : string) : string :=
  match s with
  | String c rest => if is_whitespace c then skip rest else s
  | EmptyString => s
  end.

Definition hex (c : ascii) : option N :=
  let n := N_of_ascii c in
  if ((48 <=? n) && (n <=? 57))%N then Some (n - 48)%N
  else if ((65 <=? n) && (n <=? 70))%N then Some (n - 55)%N
  else if ((97 <=? n) && (n <=? 102))%N then Some (n - 87)%N
  else None.

(** [-? int frac? exp?]: the numeral is kept as the decimal it spells,
    which stands for the double nearest to it. *)
Definition number_literal (s : string) : option (number * string) :=
  let (negative, s) :=
    match s with
    | String "-" rest => (true, rest)
    | _ => (false, s)
    end in
  let (int, s) := digits s in
  match int with
  | [] => None
  | 0 :: _ :: _ => None
  | _ =>
    let frac :=
      match s with
      | String "." rest =>
          match digits rest with
          | ([], _) => None
          | (ds, rest') => Some (ds, rest')
          end
      | _ => Some ([], s)
      end in
    match frac with
    | None => None
    | Some (frac, s) =>
      let exponent :=
        match s with
        | String c rest =>
            if Ascii.eqb c "e" || Ascii.eqb c "E" then
              let (minus, rest) :=
                match rest with
                | String "-" r => (true, r)
                | String "+" r => (false, r)
                | _ => (false, rest)
                end in
              match digits rest with
              | ([], _) => None
              | (ds, rest') =>
                  Some (if minus then - of_digits ds else of_digits ds, rest')
              end
            else Some (0, s)
        | EmptyString => Some (0, s)
        end in
      match exponent with
      | None => None
      | Some (e, s) =>
          let m := of_digits (int ++ frac)%list in
          Some (decimal (if negative then - m else m) (e - Z.of_nat (length frac)), s)
      end
    end
  end.

Definition hex4 (h1 h2 h3 h4 : ascii) : option N :=
  match hex h1, hex h2, hex h3, hex h4 with
  | Some a, Some b, Some c, Some d => Some (4096 * a + 256 * b + 16 * c + d)%N
  | _, _, _, _ => None
  end.

Definition is_high (u : N) : bool := ((55296 <=? u) && (u <=? 56319))%N.
Definition is_low (u : N) : bool := ((56320 <=? u) && (u <=? 57343))%N.

(** The characters of a string literal after its opening quote, and
    what follows the closing one.  An escaped surrogate pair is one
    code point; a surrogate on its own is read as U+FFFD. *)
Fixpoint string_literal (s : string) : option (string * string) :=
  match s with
  | EmptyString => None
  | String c rest =>
    if Ascii.eqb c quote then Some (EmptyString, rest)
    else if Ascii.eqb c backslash then
      match rest with
      | String "u" (String h1 (String h2 (String h3 (String h4 rest4)))) =>
        match hex4 h1 h2 h3 h4 with
        | None => None
        | Some u =>
          let single :=
            match string_literal rest4 with
            | Some (text, after) =>
                Some ((if is_high u || is_low u then utf8.replacement
                       else utf8.of_code_point u) ++ text, after)
            | None => None
            end in
          if is_high u then
            match rest4 with
            | String b (String "u" (String l1 (String l2 (String l3 (String l4 rest10))))) =>
              match (if Ascii.eqb b backslash then hex4 l1 l2 l3 l4 else None) with
              | Some v =>
                  if is_low v then
                    match string_literal rest10 with
                    | Some (text, after) =>
                        Some (utf8.of_code_point
                                (65536 + 1024 * (u - 55296) + (v - 56320))%N ++ text, after)
                    | None => None
                    end
                  else single
              | None => single
              end
            | _ => single
            end
          else single
        end
      | String e rest1 =>
        let plain (c : ascii) :=
          match string_literal rest1 with
          | Some (text, after) => Some (String c text, after)
          | None => None
          end in
        if Ascii.eqb e quote then plain quote
        else if Ascii.eqb e backslash then plain backslash
        else if Ascii.eqb e "/" then plain "/"%char
        else if Ascii.eqb e "b" then plain "008"%char
        else if Ascii.eqb e "f" then plain "012"%char
        else if Ascii.eqb e "n" then plain "010"%char
        else if Ascii.eqb e "r" then plain "013"%char
        else if Ascii.eqb e "t" then plain "009"%char
        else None
      | EmptyString => None
      end
    else if (N_of_ascii c <? 32)%N then None
    else
      match string_literal rest with
      | Some (text, after) => Some (String c text, after)
      | None => None
      end
  end.

Definition literal (word : string) (v : json) (s : string) : option (json * string) :=
  if String.prefix word s
  then Some (v, String.substring (String.length word)
                  (String.length s - String.length word) s)
  else None.

(** One JSON value at the head of [s], and what follows it. *)
Fixpoint value (fuel : nat) (s : string) {struct fuel} : option (json * string) :=
  match fuel with
  | O => None
  | S fuel =>
    match skip s with
    | EmptyString => None
    | String c rest =>
      if Ascii.eqb c "{" then
        match skip rest with
        | String "}" after => Some (JObject [], after)
        | _ => members fuel rest []
        end
      else if Ascii.eqb c "[" then
        match skip rest with
        | String "]" after => Some (JArray [], after)
        | _ => elements fuel rest []
        end
      else if Ascii.eqb c quote then
        match string_literal rest with
        | Some (text, after) => Some (JString text, after)
        | None => None
        end
      else if Ascii.eqb c "t" then literal "true" (JBool true) (String c rest)
      else if Ascii.eqb c "f" then literal "false" (JBool false) (String c rest)
      else if Ascii.eqb c "n" then literal "null" JNull (String c rest)
      else
        match number_literal (String c rest) with
        | Some (n, after) => Some (JNumber n, after)
        | None => None
        end
    end
  end
with elements (fuel : nat) (s : string) (done : list json) {struct fuel}
  : option (json * string) :=
  match fuel with
  | O => None
  | S fuel =>
    match value fuel s with
    | None => None
    | Some (v, after) =>
      match skip after with
      | String "," rest => elements fuel rest (done ++ [v])%list
      | String "]" rest => Some (JArray (done ++ [v])%list, rest)
      | _ => None
      end
    end
  end
with members (fuel : nat) (s : string) (done : list (string * json)) {struct fuel}
  : option (json * string) :=
  match fuel with
  | O => None
  | S fuel =>
    match skip s with
    | String c rest =>
      if Ascii.eqb c quote then
        match string_literal rest with
        | None => None
        | Some (key, after) =>
          match skip after with
          | String ":" rest =>
            match value fuel rest with
            | None => None
            | Some (v, after) =>
              match skip after with
              | String "," rest => members fuel rest (set_property key v done)
              | String "}" rest => Some (JObject (set_property key v done), rest)
              | _ => None
              end
            end
          | _ => None
          end
        end
      else None
    | EmptyString => None
    end
  end.

(** [JSON.parse(text)] *)
Definition parse (text : string) : Result json :=
  match value (2 * String.length text + 2) text with
  | Some (v, after) =>
      match skip after with
      | EmptyString => Return v
      | _ => Throw SyntaxError
      end
  | None => Throw SyntaxError
  end.

(** The decimal numeral of a natural number. *)
Definition numeral (z : Z) : string :=
  NilZero.string_of_uint (N.to_uint (Z.to_N z)).

(** A numeral without its trailing zeros, and their count. *)
Fixpoint strip (s : string) : string * Z :=
  match s with
  | EmptyString => (EmptyString, 0)
  | String c rest =>
      match strip rest with
      | (EmptyString, zeros) =>
          if Ascii.eqb c "0" then (EmptyString, zeros + 1)
          else (String c EmptyString, zeros)
      | (rest', zeros) => (String c rest', zeros)
      end
  end.

Definition zeros (n : Z) : string :=
  string_of_list_ascii (repeat "0"%char (Z.to_nat n)).

(** ECMAScript's Number::toString: with [k] significant digits and
    the decimal point after the [n]-th. *)
Definition number_text (x : number) : string :=
  match x with
  | NaN => "NaN"
  | Infinity negative => if negative then "-Infinity" else "Infinity"
  | Dec m e =>
    if m =? 0 then "0"
    else
      let (ds, z) := strip (numeral (Z.abs m)) in
      let k := Z.of_nat (String.length ds) in
      let n := k + e + z in
      let first (i : Z) := String.substring 0 (Z.to_nat i) ds in
      let from (i : Z) := String.substring (Z.to_nat i) (Z.to_nat (k - i)) ds in
      let exponent :=
        "e" ++ (if n - 1 <? 0 then "-" else "+") ++ numeral (Z.abs (n - 1)) in
      (if m <? 0 then "-" else "") ++
      (if (k <=? n) && (n <=? 21) then ds ++ zeros (n - k)
       else if (0 <? n) && (n <=? 21) then first n ++ "." ++ from n
       else if (-6 <? n) && (n <=? 0) then "0." ++ zeros (- n) ++ ds
       else if k =? 1 then ds ++ exponent
       else first 1 ++ "." ++ from 1 ++ exponent)
  end.

Definition hex_digit (n : N) : ascii :=
  if (n <? 10)%N then ascii_of_N (48 + n) else ascii_of_N (87 + n).

(** ECMAScript's QuoteJSONString, without the quotes. *)
Fixpoint escape (s : string) : string :=
  match s with
  | EmptyString => EmptyString
  | String c rest =>
      let n := N_of_ascii c in
      (if Ascii.eqb c quote then String backslash (String quote EmptyString)
       else if Ascii.eqb c backslash then String backslash (String backslash EmptyString)
       else if Ascii.eqb c "008" then String backslash "b"
       else if Ascii.eqb c "009" then String backslash "t"
       else if Ascii.eqb c "010" then String backslash "n"
       else if Ascii.eqb c "012" then String backslash "f"
       else if Ascii.eqb c "013" then String backslash "r"
       else if (n <? 32)%N then
         String backslash ("u00" ++ String (hex_digit (n / 16)) (String (hex_digit (n mod 16)) EmptyString))
       else String c EmptyString) ++ escape rest
  end.

Definition quoted (s : string) : string :=
  String quote (escape s ++ String quote EmptyString).

(** [JSON.stringify(v)] *)
Fixpoint stringify (v : json) : string :=
  match v with
  | JNull => "null"
  | JBool true => "true"
  | JBool false => "false"
  | JNumber NaN => "null"
  | JNumber (Infinity _) => "null"
  | JNumber n => number_text n
  | JString s => quoted s
  | JArray items =>
      "[" ++ (fix list (items : list json) : string :=
                match items with
                | [] => EmptyString
                | [x] => stringify x
                | x :: rest => stringify x ++ "," ++ list rest
                end) items ++ "]"
  | JObject props =>
      "{" ++ (fix list (props : list (string * json)) : string :=
                match props with
                | [] => EmptyString
                | [(k, x)] => quoted k ++ ":" ++ stringify x
                | (k, x) :: rest => quoted k ++ ":" ++ stringify x ++ "," ++ list rest
                end) props ++ "}"
  end.

End JSON.

#[export] Instance host_JSON : Host := {
  JSON_parse := JSON.parse;
  JSON_stringify := JSON.stringify;
  TextEncoder_encode := utf8.encode;
  TextDecoder_decode := utf8.decode
}.


(** ** A stand-in for the signing primitives

    The primitives are a collaborator of [jwt.ts]; to run the functions
    on concrete tokens, a keyed checksum takes their place: four bytes
    computed from the primitive's name, the key and the data. *)

Module standin.

Definition name (alg : SigningAlgorithm) : string :=
  match alg with
  | ECDSA hash curve => "ECDSA " ++ hash ++ " " ++ curve
  | HMAC hash => "HMAC " ++ hash
  | RSASSAPKCS1v1_5 hash => "RSASSA-PKCS1-v1_5 " ++ hash
  | RSASSAPSS hash => "RSASSA-PSS " ++ hash
  end.

Definition checksum (data : bytes) : N :=
  fold_left (fun acc b => (acc * 31 + Byte.to_N b) mod 4294967296)%N data 0%N.

Definition byte_of (n : N) : byte :=
  match Byte.of_N (n mod 256) with
  | Some b => b
  | None => "000"%byte
  end.

Definition tag (alg : SigningAlgorithm) (key data : bytes) : bytes :=
  let sum := checksum (list_byte_of_string (name alg) ++ key ++ data)%list in
  [byte_of (N.shiftr sum 24); byte_of (N.shiftr sum 16);
   byte_of (N.shiftr sum 8); byte_of sum].

Fixpoint equal (a b : bytes) : bool :=
  match a, b with
  | [], [] => true
  | x :: a', y :: b' => Byte.eqb x y && equal a' b'
  | _, _ => false
  end.

End standin.

#[export] Instance standin_crypto : Crypto := {
  sign alg key data := Return (standin.tag alg key data);
  verify alg key signature data := Return (standin.equal signature (standin.tag alg key data))
}.

(** ** The older [createJWT]

    The file [part_003] holds the earlier form of the module, whose
    [createJWT] takes the algorithm and an options bag and assembles the
    header and the payload itself.  Its [getAlgorithm] and
    [isValidAlgorithm] read as those of [jwt.ts]; its [parseJWT] and
    [validateJWT] follow the module. *)

Module part_003.

Section createJWT.
Context {codec : Base64url} {host : Host} {crypto : Crypto}.

(** [TimeSpan] comes from [../index.js]; [createJWT] only calls its
    [seconds()]. *)
Variable TimeSpan : Type.
Variable seconds : TimeSpan -> number.

Record Options : Type := {
  headers : option (list (string * json));
  expiresIn : option TimeSpan;
  issuer : option string;
  subject : option string;
  audiences : option (list string);
  notBefore : option Date;
  includeIssuedTimestamp : option bool;
  jwtId : option string
}.

(** [options?.field] *)
Definition optional {A : Type} (options : option Options)
  (field : Options -> option A) : option A :=
  match options with
  | Some o => field o
  | None => None
  end.

(** [{ ...target, ...source }]: the properties of [source]
    assigned onto [target], in order. *)
Definition spread (source target : list (string * json)) : list (string * json) :=
  fold_left (fun object '(k, v) => set_property k v object) source target.

(** [if (field !== undefined) { payload.key = v; }] *)
Definition assign {A : Type} (field : option A) (key : string) (v : A -> json)
  (object : list (string * json)) : list (string * json) :=
  match field with
  | Some x => set_property key (v x) object
  | None => object
  end.

Definition createJWT (algorithm : string) (key : bytes)
  (payloadClaims : list (string * json)) (options : option Options) : M string :=
  (let header :=
     spread (match optional options headers with Some h => h | None => [] end)
            [("alg", JString algorithm); ("typ", JString "JWT")] in
   let payload := spread payloadClaims [] in
   let payload := assign (optional options audiences) "aud"
                    (fun aud => JArray (map JString aud)) payload in
   let payload := assign (optional options subject) "sub" JString payload in
   let payload := assign (optional options issuer) "iss" JString payload in
   let payload := assign (optional options jwtId) "jti" JString payload in
   payload <- match optional options expiresIn with
              | Some span =>
                  t <- Date_now ;;
                  ret (set_property "exp"
                         (JNumber (number_add (Math_floor (number_div1000 t))
                                              (seconds span))) payload)
              | None => ret payload
              end ;;
   let payload := assign (optional options notBefore) "nbf"
                    (fun date => JNumber (Math_floor (number_div1000 (getTime date))))
                    payload in
   payload <- match optional options includeIssuedTimestamp with
              | Some true =>
                  t <- Date_now ;;
                  ret (set_property "iat"
                         (JNumber (Math_floor (number_div1000 t))) payload)
              | _ => ret payload
              end ;;
   let headerPart :=
     base64url_encode (TextEncoder_encode (JSON_stringify (JObject header))) in
   let payloadPart :=
     base64url_encode (TextEncoder_encode (JSON_stringify (JObject payload))) in
   let data := TextEncoder_encode (join_dot [headerPart; payloadPart]) in
   alg <- lift (getAlgorithm algorithm) ;;
   signature <- await_sign alg key data ;;
   let signaturePart := base64url_encode signature in
   ret (join_dot [headerPart; payloadPart; signaturePart]))%async.

End createJWT.

End part_003.

(** ** The older [parseJWT] and [validateJWT]

    [part_003] splits the token in [getJWTParts], collects the claims
    in an object [properties] and returns copies of the header and of
    the payload: the header with [typ] and [alg] set, the payload
    spread into a new object. *)

Module part_003_parse.

Definition getJWTParts (jwt : string) : option (string * string * string) :=
  match split_dot jwt with
  | [part0; part1; part2] => Some (part0, part1, part2)
  | _ => None
  end.

(** The key of the [i]-th item of an array. *)
Definition index_key (i : nat) : string :=
  NilZero.string_of_uint (Nat.to_uint i).

Fixpoint indexed (i : nat) (items : list json) : list (string * json) :=
  match items with
  | [] => []
  | x :: rest => (index_key i, x) :: indexed (S i) rest
  end.

(** The own enumerable properties, which [{ ...v }] copies: those of
    an object; the items of an array under their indices (its
    [length] is not enumerable); none for a primitive other than a
    string. *)
Definition own_enumerable (v : json) : list (string * json) :=
  match v with
  | JObject props => props
  | JArray items => indexed 0 items
  | _ => []
  end.

(** The claim blocks, each giving the value of its field of
    [properties], or [None] where the block returns [null]. *)
Definition date_block (key : string) (payload : json) : option (option Date) :=
  if has_property key payload then
    match get_property key payload with
    | Some (JNumber n) => Some (Some (new_Date (number_mul n (number_of_Z 1000))))
    | _ => None
    end
  else Some None.

Definition string_block (key : string) (payload : json) : option (option string) :=
  if has_property key payload then
    match get_property key payload with
    | Some (JString s) => Some (Some s)
    | _ => None
    end
  else Some None.

Definition aud_block (payload : json) : option (option (list string)) :=
  if has_property "aud" payload then
    match get_property "aud" payload with
    | Some (JArray items) =>
        match strings_of items with
        | Some aud => Some (Some aud)
        | None => None
        end
    | Some (JString aud) => Some (Some [aud])
    | _ => None
    end
  else Some None.

Section parseJWT.
Context {codec : Base64url} {host : Host} {crypto : Crypto} {index : Index}.

Definition parseJWT (jwt : string) : Result (option JWT) :=
  match getJWTParts jwt with
  | None => Return None
  | Some (part0, part1, part2) =>
    (rawHeader <- base64url_decode part0 ;;
     rawPayload <- base64url_decode part1 ;;
     header <- JSON_parse (TextDecoder_decode rawHeader) ;;
     if negb (typeof (Some header) === "object") || is_null header then Return None
     else if negb (has_property "alg" header)
             || negb (isValidAlgorithm (get_property "alg" header)) then Return None
     else if has_property "typ" header
             && differs_from (get_property "typ" header) "JWT" then Return None
     else
       payload <- JSON_parse (TextDecoder_decode rawPayload) ;;
       if negb (typeof (Some payload) === "object") || is_null payload then Return None
       else
         match get_property "alg" header with
         | Some (JString alg) =>
             Return
               (and_then (date_block "exp" payload) (fun expiresAt =>
                and_then (string_block "iss" payload) (fun issuer =>
                and_then (string_block "sub" payload) (fun subject =>
                and_then (aud_block payload) (fun audiences =>
                and_then (date_block "nbf" payload) (fun notBefore =>
                and_then (date_block "iat" payload) (fun issuedAt =>
                and_then (string_block "jti" payload) (fun jwtId =>
                Some (mkJWT jwt
                        (JObject (set_property "alg" (JString alg)
                                   (set_property "typ" (JString "JWT")
                                      (part_003.spread (own_enumerable header) []))))
                        (JObject (part_003.spread (own_enumerable payload) []))
                        (part0, part1, part2) alg
                        expiresAt issuer subject audiences notBefore issuedAt
                        jwtId)))))))))
         | _ => Return None
         end)%result
  end.

Definition validateJWT (algorithm0 : string) (key : bytes) (jwt : string) : M JWT :=
  (parsed <- lift (parseJWT jwt) ;;
   match parsed with
   | None => throw (Error "Invalid JWT")
   | Some parsedJWT =>
     if negb (algorithm parsedJWT === algorithm0) then throw (Error "Invalid algorithm")
     else
       expired <- match expiresAt parsedJWT with
                  | Some date => within <- isWithinExpirationDate date ;; ret (negb within)
                  | None => ret false
                  end ;;
       if expired : bool then throw (Error "Expired JWT")
       else
         inactive <- match notBefore parsedJWT with
                     | Some date => t <- Date_now ;; ret (number_ltb t (getTime date))
                     | None => ret false
                     end ;;
         if inactive : bool then throw (Error "Inactive JWT")
         else
           let '(part0, part1, part2) := parts parsedJWT in
           signature <- lift (base64url_decode part2) ;;
           let data := TextEncoder_encode (part0 ++ "." ++ part1) in
           alg <- lift (getAlgorithm (algorithm parsedJWT)) ;;
           validSignature <- await_verify alg key signature data ;;
           if negb validSignature then throw (Error "Invalid signature")
           else ret parsedJWT
   end)%async.

End parseJWT.

End part_003_parse.

(** ** [createJWTHeader] and [createJWTPayload] *)

Definition createJWTHeader (algorithm : string) : json :=
  JObject [("alg", JString algorithm); ("typ", JString "JWT")].

(** The options of [createJWTPayload]; a field that is [undefined] is
    [None]. *)
Module payload_options.

Record Options (TimeSpan : Type) : Type := {
  expiresIn : option TimeSpan;
  issuer : option string;
  subject : option string;
  audiences : option (list string);
  notBefore : option Date;
  includeIssuedTimestamp : option bool;
  jwtId : option string
}.

Arguments expiresIn {TimeSpan} _.
Arguments issuer {TimeSpan} _.
Arguments subject {TimeSpan} _.
Arguments audiences {TimeSpan} _.
Arguments notBefore {TimeSpan} _.
Arguments includeIssuedTimestamp {TimeSpan} _.
Arguments jwtId {TimeSpan} _.

End payload_options.

Section createJWTPayload.

(** [TimeSpan] comes from [../index.js]; [createJWTPayload] only calls
    its [seconds()]. *)
Variable TimeSpan : Type.
Variable seconds : TimeSpan -> number.

(** [options?.field] *)
Definition optional {A : Type} (options : option (payload_options.Options TimeSpan))
  (field : payload_options.Options TimeSpan -> option A) : option A :=
  match options with
  | Some o => field o
  | None => None
  end.

(** It reads the clock, so it is a computation over the world, though
    it is not [async]. *)
Definition createJWTPayload (options : option (payload_options.Options TimeSpan))
  : M json :=
  (let payload := [] in
   let payload := match optional options payload_options.audiences with
                  | Some audiences =>
                      set_property "aud" (JArray (map JString audiences)) payload
                  | None => payload
                  end in
   let payload := match optional options payload_options.subject with
                  | Some subject => set_property "sub" (JString subject) payload
                  | None => payload
                  end in
   let payload := match optional options payload_options.issuer with
                  | Some issuer => set_property "iss" (JString issuer) payload
                  | None => payload
                  end in
   let payload := match optional options payload_options.jwtId with
                  | Some jwtId => set_property "jti" (JString jwtId) payload
                  | None => payload
                  end in
   payload <- match optional options payload_options.expiresIn with
              | Some expiresIn =>
                  t <- Date_now ;;
                  ret (set_property "exp"
                         (JNumber (number_add (Math_floor (number_div1000 t))
                                              (seconds expiresIn))) payload)
              | None => ret payload
              end ;;
   let payload := match optional options payload_options.notBefore with
                  | Some notBefore =>
                      set_property "nbf"
                        (JNumber (Math_floor (number_div1000 (getTime notBefore))))
                        payload
                  | None => payload
                  end in
   payload <- match optional options payload_options.includeIssuedTimestamp with
              | Some true =>
                  t <- Date_now ;;
                  ret (set_property "iat"
                         (JNumber (Math_floor (number_div1000 t))) payload)
              | _ => ret payload
              end ;;
   ret (JObject payload))%async.

End createJWTPayload.

(** ** The clock helper *)

(** Modelled from the spec: [isWithinExpirationDate] of [../index.js]
    is not among the sources.  The spec's expiration check reads "if
    [exp] present, it must be in the future relative to current time,
    else [Expired]": the date is within its expiration when the current
    time is before it. *)
Definition within_expiration (date : Date) : M bool :=
  (t <- Date_now ;; ret (number_ltb t (getTime date)))%async.

#[export] Instance index_model : Index := {
  isWithinExpirationDate := within_expiration
}.

(** * The vocabulary of the theorems *)

(** ** Claims *)

(** What each claim block leaves in its field: the claim read from the
    payload when it has the expected type, the field as it was
    otherwise. *)
Definition date_claim (key : string) (p : json) (was : option Date) : option Date :=
  match get_property key p with
  | Some (JNumber n) => Some (new_Date (number_mul n (number_of_Z 1000)))
  | _ => was
  end.

Definition string_claim (key : string) (p : json) (was : option string) : option string :=
  match get_property key p with
  | Some (JString s) => Some s
  | _ => was
  end.

Definition aud_claim (p : json) (was : option (list string)) : option (list string) :=
  match get_property "aud" p with
  | Some (JString s) => Some [s]
  | Some (JArray items) =>
      match strings_of items with
      | Some l => Some l
      | None => was
      end
  | _ => was
  end.

(** ** The claim types of [interface JWTPayload] *)

Definition is_number (v : json) : bool :=
  match v with JNumber _ => true | _ => false end.

Definition is_string (v : json) : bool :=
  match v with JString _ => true | _ => false end.

(** [string[] | string] *)
Definition is_audience (v : json) : bool :=
  match v with
  | JString _ => true
  | JArray items => match strings_of items with Some _ => true | None => false end
  | _ => false
  end.

(** [key?: T]: absent, or of type [T]. *)
Definition typed (ok : json -> bool) (key : string) (p : json) : bool :=
  match get_property key p with
  | Some v => ok v
  | None => true
  end.

Definition JWTPayload_typed (p : json) : bool :=
  typed is_number "exp" p && typed is_string "iss" p && typed is_audience "aud" p
  && typed is_string "jti" p && typed is_number "nbf" p && typed is_string "sub" p
  && typed is_number "iat" p.

(** ** Integers, segments, worlds *)

(** [denotes n z]: the number [n] is the integer [z]. *)
Definition denotes (n : number) (z : Z) : Prop :=
  match n with
  | Dec m e => if 0 <=? e then z = m * 10 ^ e else m = z * 10 ^ (- e)
  | _ => False
  end.

(** [large x]: [x] is an integer of magnitude [2^53] or more, or an
    infinity. *)
Definition large (x : number) : Prop :=
  match x with
  | Infinity _ => True
  | Dec m e => e = 0 /\ 2 ^ 53 <= Z.abs m
  | NaN => False
  end.

(** A segment without a dot. *)
Definition dotless (s : string) : Prop := split_dot s = [s].

Section collaborators.
Context {codec : Base64url} {host : Host} {crypto : Crypto} {index : Index}.

(** The helper does what the spec says of the expiration check: it
  reads the clock once and answers whether the current time is
  before the date. *)
Definition within_spec : Prop :=
forall (date : Date) (w : World),
  isWithinExpirationDate date w
  = (Return (number_ltb (now w) (getTime date)), tick w).

(** The world after each time check of [validateJWT]. *)
Definition after_exp (t : JWT) (w : World) : World :=
match expiresAt t with Some _ => tick w | None => w end.

Definition after_nbf (t : JWT) (w : World) : World :=
match notBefore t with Some _ => tick w | None => w end.

(** The codec decodes what it encodes, and encodes without dots. *)
Definition codec_round_trips : Prop :=
forall data : bytes,
  base64url_decode (base64url_encode data) = Return data
  /\ dotless (base64url_encode data).

(** The value survives [JSON.stringify], the text codecs and
  [JSON.parse]. *)
Definition serializes (v : json) : Prop :=
JSON_parse (TextDecoder_decode (TextEncoder_encode (JSON_stringify v))) = Return v.

(** [verify(key, sign(key, data), data)] is [true]. *)
Definition signatures_verify : Prop :=
forall (alg : SigningAlgorithm) (key data : bytes),
  exists signature,
    sign alg key data = Return signature
    /\ verify alg key signature data = Return true.

End collaborators.

(** ** Verification, copies, built payloads *)

(** [verification key t valid call]: the signature segment of [t]
    decodes, the algorithm of [t] has its primitive, and [call] is the
    call of that primitive's [verify] on the key, the decoded signature
    and the first two segments, which answers [valid]. *)
Definition verification `{Base64url} `{Host} `{Crypto}
  (key : bytes) (t : JWT) (valid : bool) (call : Event) : Prop :=
  let '(part0, part1, part2) := parts t in
  exists (signature : bytes) (alg : SigningAlgorithm),
    base64url_decode part2 = Return signature
    /\ getAlgorithm (algorithm t) = Return alg
    /\ verify alg key signature (TextEncoder_encode (part0 ++ "." ++ part1))
       = Return valid
    /\ call = CallVerify alg key signature (TextEncoder_encode (part0 ++ "." ++ part1)).

(** The token [t] with [s] for signature segment. *)
Definition with_signature (s : string) (t : JWT) : JWT :=
  let '(part0, part1, _) := parts t in
  mkJWT (join_dot [part0; part1; s]) (header t) (payload t) (part0, part1, s)
        (algorithm t) (expiresAt t) (issuer t) (subject t) (audiences t)
        (notBefore t) (issuedAt t) (jwtId t).

(** The token as [part_003] returns it: the header copied with [typ]
    and [alg] set, the payload copied. *)
Definition as_part_003 (t : JWT) : JWT :=
  mkJWT (value t)
        (JObject (set_property "alg" (JString (algorithm t))
                   (set_property "typ" (JString "JWT")
                      (part_003.spread (part_003_parse.own_enumerable (header t)) []))))
        (JObject (part_003.spread (part_003_parse.own_enumerable (payload t)) []))
        (parts t) (algorithm t) (expiresAt t) (issuer t) (subject t) (audiences t)
        (notBefore t) (issuedAt t) (jwtId t).

(** The property an option gives the payload: none when the option is
    [undefined]. *)
Definition entry {A : Type} (key : string) (v : A -> json) (field : option A)
  : list (string * json) :=
  match field with
  | Some x => [(key, v x)]
  | None => []
  end.

(** [flag === true] *)
Definition when_true (flag : option bool) : option unit :=
  match flag with
  | Some true => Some tt
  | _ => None
  end.

(** One for an option that is set. *)
Definition count {A : Type} (field : option A) : nat :=
  match field with Some _ => 1 | None => 0 end.

(** The world after [k] more reads of the clock. *)
Fixpoint ticks (k : nat) (w : World) : World :=
  match k with
  | O => w
  | S k' => ticks k' (tick w)
  end.

(** Whole seconds: [Math.floor(t / 1000)] for a time [t] in
    milliseconds. *)
Definition whole_seconds (t : number) : number := Math_floor (number_div1000 t).

(** The payload [createJWTPayload] builds, property by property: the
    options' claims in the order of the assignments, [exp] from the
    clock as read in [w], [iat] from the read after it. *)
Definition payload_entries {TimeSpan : Type} (seconds : TimeSpan -> number)
  (options : option (payload_options.Options TimeSpan)) (w : World)
  : list (string * json) :=
  let exp := optional TimeSpan options payload_options.expiresIn in
  (entry "aud" (fun aud => JArray (map JString aud))
         (optional TimeSpan options payload_options.audiences)
   ++ entry "sub" JString (optional TimeSpan options payload_options.subject)
   ++ entry "iss" JString (optional TimeSpan options payload_options.issuer)
   ++ entry "jti" JString (optional TimeSpan options payload_options.jwtId)
   ++ entry "exp"
        (fun span => JNumber (number_add (whole_seconds (now w)) (seconds span))) exp
   ++ entry "nbf" (fun date => JNumber (whole_seconds (getTime date)))
        (optional TimeSpan options payload_options.notBefore)
   ++ entry "iat" (fun _ => JNumber (whole_seconds (now (ticks (count exp) w))))
        (when_true (optional TimeSpan options
                      payload_options.includeIssuedTimestamp)))%list.

(** The options of the older [createJWT] without its custom headers:
    the options of [createJWTPayload]. *)
Definition without_headers {TimeSpan : Type} (o : part_003.Options TimeSpan)
  : payload_options.Options TimeSpan :=
  payload_options.Build_Options TimeSpan
    (part_003.expiresIn TimeSpan o) (part_003.issuer TimeSpan o)
    (part_003.subject TimeSpan o) (part_003.audiences TimeSpan o)
    (part_003.notBefore TimeSpan o) (part_003.includeIssuedTimestamp TimeSpan o)
    (part_003.jwtId TimeSpan o).

(** [options?.headers], or no header. *)
Definition custom_headers {TimeSpan : Type} (options : option (part_003.Options TimeSpan))
  : list (string * json) :=
  match part_003.optional TimeSpan options (part_003.headers TimeSpan) with
  | Some headers => headers
  | None => []
  end.

(** * Example tokens *)

Module example.

Definition key : bytes := list_byte_of_string "secret".

(** A clock that stands at 2023-11-14T22:13:20Z, and nothing called yet. *)
Definition world : World := mkWorld (fun _ => 1700000000000) 0 [].

Definition HS256 : json := JObject [("alg", JString "HS256"); ("typ", JString "JWT")].

Definition segment (v : json) : string :=
  base64url.encode (utf8.encode (JSON.stringify v)).

(** The token [parseJWT] returns for header [h], payload [p] and the
    signature segment [s], before the claim blocks. *)
Definition parsed (h p : json) (s alg : string) : JWT :=
  mkJWT (join_dot [segment h; segment p; s]) h p (segment h, segment p, s) alg
        None None None None None None None.

(** [{}] signed with HS256. *)
Definition empty : string := "eyJhbGciOiJIUzI1NiIsInR5cCI6IkpXVCJ9.e30.ew8zIA".

(** [{ exp: 1699999999 }]: one second before the clock. *)
Definition past : string :=
  "eyJhbGciOiJIUzI1NiIsInR5cCI6IkpXVCJ9.eyJleHAiOjE2OTk5OTk5OTl9.uQLkGw".

(** [{ exp: 1700003600 }]: an hour after the clock. *)
Definition future : string :=
  "eyJhbGciOiJIUzI1NiIsInR5cCI6IkpXVCJ9.eyJleHAiOjE3MDAwMDM2MDB9.HeyiIw".

(** [{ exp: 10000000000000 }]: the year 318857. *)
Definition far : string :=
  "eyJhbGciOiJIUzI1NiIsInR5cCI6IkpXVCJ9.eyJleHAiOjEwMDAwMDAwMDAwMDAwfQ.P5uLLw".

(** [{ exp: 1700003600, nbf: 1699990000, iat: 1700000000 }] *)
Definition dated : string :=
  "eyJhbGciOiJIUzI1NiIsInR5cCI6IkpXVCJ9.eyJleHAiOjE3MDAwMDM2MDAsIm5iZiI6MTY5OTk5MDAwMCwiaWF0IjoxNzAwMDAwMDAwfQ.Eczeag".

Definition dates : json :=
  JObject [("exp", JNumber (Dec 1700003600 0)); ("nbf", JNumber (Dec 1699990000 0));
           ("iat", JNumber (Dec 1700000000 0))].

Definition no_typ : string := "eyJhbGciOiJIUzI1NiJ9.e30.c2ln".

(** [{ aud: "svc-a" }], [{ aud: ["svc-a", "svc-b"] }], [{ aud: 5 }] *)
Definition aud_string : string :=
  "eyJhbGciOiJIUzI1NiIsInR5cCI6IkpXVCJ9.eyJhdWQiOiJzdmMtYSJ9.c2ln".
Definition aud_array : string :=
  "eyJhbGciOiJIUzI1NiIsInR5cCI6IkpXVCJ9.eyJhdWQiOlsic3ZjLWEiLCJzdmMtYiJdfQ.c2ln".
Definition aud_number : string :=
  "eyJhbGciOiJIUzI1NiIsInR5cCI6IkpXVCJ9.eyJhdWQiOjV9.c2ln".

(** The header segment is the text "not json"; the payload segment is. *)
Definition header_not_JSON : string := "bm90IGpzb24.e30.c2ln".
Definition payload_not_JSON : string := "eyJhbGciOiJIUzI1NiJ9.bm90IGpzb24.c2ln".

(** The payload segment is the text "[]". *)
Definition payload_array : string := "eyJhbGciOiJIUzI1NiJ9.W10.c2ln".

(** [createJWT("HS256", key, {}, { headers: { alg: "HS512" } })] *)
Definition override : option (part_003.Options number) :=
  Some (part_003.Build_Options number (Some [("alg", JString "HS512")])
          None None None None None None None).

Definition dated_JWT : JWT :=
  set_issuedAt (Some (mkDate (number_of_Z 1700000000000)))
    (set_notBefore (Some (mkDate (number_of_Z 1699990000000)))
      (set_expiresAt (Some (mkDate (number_of_Z 1700003600000)))
        (example.parsed example.HS256 example.dates "Eczeag" "HS256"))).
Definition past_JWT : JWT :=
  set_expiresAt (Some (mkDate (number_of_Z 1699999999000)))
    (example.parsed example.HS256 (JObject [("exp", JNumber (Dec 1699999999 0))])
       "uQLkGw" "HS256").
Definition future_JWT : JWT :=
  set_expiresAt (Some (mkDate (number_of_Z 1700003600000)))
    (example.parsed example.HS256 (JObject [("exp", JNumber (Dec 1700003600 0))])
       "HeyiIw" "HS256").
(** [{ nbf: 1700003600 }]: active an hour after the clock. *)
Definition inactive : string :=
  "eyJhbGciOiJIUzI1NiIsInR5cCI6IkpXVCJ9.eyJuYmYiOjE3MDAwMDM2MDB9.2wSLBQ".

Definition inactive_JWT : JWT :=
  set_notBefore (Some (mkDate (number_of_Z 1700003600000)))
    (parsed HS256 (JObject [("nbf", JNumber (Dec 1700003600 0))]) "2wSLBQ" "HS256").

(** Header [{ alg: "none" }]. *)
Definition alg_none : string := "eyJhbGciOiJub25lIn0.e30.c2ln".

Definition claim_set : list (string * json) :=
  [("sub", JString "alice"); ("exp", JNumber (Dec 1700003600 0));
   ("aud", JString "svc-a")].


(** [{ iss: "auth", sub: "alice", jti: "id-1" }], and [{ iss: 7 }]. *)
Definition named : string :=
  "eyJhbGciOiJIUzI1NiIsInR5cCI6IkpXVCJ9.eyJpc3MiOiJhdXRoIiwic3ViIjoiYWxpY2UiLCJqdGkiOiJpZC0xIn0.c2ln".

Definition names : json :=
  JObject [("iss", JString "auth"); ("sub", JString "alice"); ("jti", JString "id-1")].

Definition named_JWT : JWT :=
  set_jwtId (Some "id-1")
    (set_subject (Some "alice")
      (set_issuer (Some "auth") (parsed HS256 names "c2ln" "HS256"))).

Definition iss_number : string :=
  "eyJhbGciOiJIUzI1NiIsInR5cCI6IkpXVCJ9.eyJpc3MiOjd9.c2ln".

(** [claim_set], signed with HS256. *)
Definition signed : string :=
  "eyJhbGciOiJIUzI1NiIsInR5cCI6IkpXVCJ9.eyJzdWIiOiJhbGljZSIsImV4cCI6MTcwMDAwMzYwMCwiYXVkIjoic3ZjLWEifQ.1T6OKg".

(** [{ nbf: 10000000000000 }], signed with HS256: not before the year
    318857. *)
Definition far_nbf : string :=
  "eyJhbGciOiJIUzI1NiIsInR5cCI6IkpXVCJ9.eyJuYmYiOjEwMDAwMDAwMDAwMDAwfQ.6GXCkQ".

Definition far_nbf_JWT : JWT :=
  set_notBefore (Some (mkDate NaN))
    (parsed HS256 (JObject [("nbf", JNumber (Dec 10000000000000 0))]) "6GXCkQ" "HS256").

(** The token [empty] with the signature segment "c2ln", and with one
    that is not base64url. *)
Definition forged : string := "eyJhbGciOiJIUzI1NiIsInR5cCI6IkpXVCJ9.e30.c2ln".
Definition garbled : string := "eyJhbGciOiJIUzI1NiIsInR5cCI6IkpXVCJ9.e30.!!".

(** The header segment is the text "[]". *)
Definition header_array : string := "W10.e30.c2ln".

(** The payload segment is the text "[1,2]". *)
Definition payload_pair : string := "eyJhbGciOiJIUzI1NiJ9.WzEsMl0.c2ln".

(** [createJWTPayload({ expiresIn: new TimeSpan(1, "h"), issuer: "auth",
    subject: "alice", audiences: ["svc-a"], includeIssuedTimestamp:
    true, jwtId: "id-1" })], a [TimeSpan] being given by its seconds;
    the payload it builds when the clock stands as in [world]; and the
    token [createJWT] makes of it with [createJWTHeader("HS256")]. *)
Definition options : option (payload_options.Options number) :=
  Some (payload_options.Build_Options number (Some (Dec 3600 0)) (Some "auth")
          (Some "alice") (Some ["svc-a"]) None (Some true) (Some "id-1")).

Definition built : json :=
  JObject [("aud", JArray [JString "svc-a"]); ("sub", JString "alice");
           ("iss", JString "auth"); ("jti", JString "id-1");
           ("exp", JNumber (Dec 1700003600 0)); ("iat", JNumber (Dec 1700000000 0))].

Definition issued : string :=
  "eyJhbGciOiJIUzI1NiIsInR5cCI6IkpXVCJ9.eyJhdWQiOlsic3ZjLWEiXSwic3ViIjoiYWxpY2UiLCJpc3MiOiJhdXRoIiwianRpIjoiaWQtMSIsImV4cCI6MTcwMDAwMzYwMCwiaWF0IjoxNzAwMDAwMDAwfQ.SqDBvQ".

(** [createJWTPayload({ notBefore: new Date(1699999999500) })] *)
Definition scheduled : option (payload_options.Options number) :=
  Some (payload_options.Build_Options number None None None None
          (Some (mkDate (number_of_Z 1699999999500))) None None).

(** The token [createJWT] makes of that payload, [{ nbf: 1699999999 }],
    with [createJWTHeader("HS256")]. *)
Definition scheduled_token : string :=
  "eyJhbGciOiJIUzI1NiIsInR5cCI6IkpXVCJ9.eyJuYmYiOjE2OTk5OTk5OTl9.dhrM_Q".

(** The header segment is not base64url. *)
Definition header_garbled : string := "!!.e30.c2ln".

(** [createJWT("HS256", key, { iss: "other", role: "admin" },
    { headers: { kid: "k1" }, issuer: "auth" })] of [part_003]. *)
Definition legacy : option (part_003.Options number) :=
  Some (part_003.Build_Options number (Some [("kid", JString "k1")])
          None (Some "auth") None None None None None).

Definition legacy_claims : list (string * json) :=
  [("iss", JString "other"); ("role", JString "admin")].

Definition legacy_token : string :=
  "eyJhbGciOiJIUzI1NiIsInR5cCI6IkpXVCIsImtpZCI6ImsxIn0.eyJpc3MiOiJhdXRoIiwicm9sZSI6ImFkbWluIn0.Nu9Q8A".

(** [{ exp: 1.001 }] *)
Definition fraction : string :=
  "eyJhbGciOiJIUzI1NiIsInR5cCI6IkpXVCJ9.eyJleHAiOjEuMDAxfQ.c2ln".

(** [{ exp: 1700000000.0005 }]: half a millisecond after the clock. *)
Definition same_millisecond : string :=
  "eyJhbGciOiJIUzI1NiIsInR5cCI6IkpXVCJ9.eyJleHAiOjE3MDAwMDAwMDAuMDAwNX0.c2ln".

(** [{ exp: 1700003600.5 }], signed with HS256. *)
Definition half_past : string :=
  "eyJhbGciOiJIUzI1NiIsInR5cCI6IkpXVCJ9.eyJleHAiOjE3MDAwMDM2MDAuNX0.VFZlZg".

Definition half_past_JWT : JWT :=
  set_expiresAt (Some (mkDate (number_of_Z 1700003600500)))
    (parsed HS256 (JObject [("exp", JNumber (Dec 17000036005 (-1)))]) "VFZlZg" "HS256").

Definition far_JWT : JWT :=
  set_expiresAt (Some (mkDate NaN))
    (parsed HS256 (JObject [("exp", JNumber (Dec 10000000000000 0))]) "P5uLLw" "HS256").


(** The header segment is the text "not json", the payload is
    [{ aud: 5 }]. *)
Definition aud_number_header_not_JSON : string := "bm90IGpzb24.eyJhdWQiOjV9.c2ln".

(** [{ aud: "svc-a", iss: 7 }] *)
Definition aud_string_iss_number : string :=
  "eyJhbGciOiJIUzI1NiIsInR5cCI6IkpXVCJ9.eyJhdWQiOiJzdmMtYSIsImlzcyI6N30.c2ln".

(** Header [{ alg: "none" }], payload [{ aud: "svc-a" }]. *)
Definition aud_string_alg_none : string :=
  "eyJhbGciOiJub25lIn0.eyJhdWQiOiJzdmMtYSJ9.c2ln".

End example.

(** * Properties *)

(** ** Splitting and joining *)

Lemma split_dot_nonempty (s : string) : split_dot s <> [].
Proof.
  destruct s as [|c s]; simpl; [discriminate|].
  destruct (Ascii.eqb c "."); [discriminate|].
  destruct (split_dot s); discriminate.
Qed.

Lemma join_dot_cons (piece : string) (pieces : list string) :
  pieces <> [] -> join_dot (piece :: pieces) = piece ++ "." ++ join_dot pieces.
Proof. destruct pieces; [congruence | reflexivity]. Qed.

(** Joining the pieces of a string with dots gives the string back. *)
Lemma join_split_dot (s : string) : join_dot (split_dot s) = s.
Proof.
  induction s as [|c s IH]; [reflexivity|].
  simpl split_dot. destruct (Ascii.eqb_spec c ".") as [->|Hc].
  - rewrite join_dot_cons by apply split_dot_nonempty.
    simpl. now rewrite IH.
  - pose proof (split_dot_nonempty s) as Hne.
    destruct (split_dot s) as [|piece pieces]; [congruence|].
    destruct pieces as [|p ps]; simpl in *; now rewrite <- IH.
Qed.

(** ** Reading properties *)

(** A property that reads as a value is in the object. *)
Lemma get_property_has (key : string) (p v : json) :
  get_property key p = Some v -> has_property key p = true.
Proof.
  destruct p as [| | | |items|props]; simpl; try discriminate.
  - destruct (key === "length"); [reflexivity|]. simpl.
    destruct (array_index key) as [i|]; [|discriminate].
    intros H. apply Nat.ltb_lt. apply nth_error_Some. congruence.
  - now intros ->.
Qed.

(** A property that is in the object reads as a value. *)
Lemma has_property_get (key : string) (p : json) :
  has_property key p = true -> exists v, get_property key p = Some v.
Proof.
  destruct p as [| | | |items|props]; simpl; try discriminate.
  - destruct (key === "length"); [eauto|]. simpl.
    destruct (array_index key) as [i|]; [|discriminate].
    intros H. apply Nat.ltb_lt in H. apply nth_error_Some in H.
    destruct (nth_error items (Z.to_nat i)) as [v|]; [eauto | congruence].
  - destruct (assoc key props) as [v|]; [eauto | discriminate].
Qed.

Ltac claim_block H key p :=
  let Hhas := fresh "Hhas" in
  let Hget := fresh "Hget" in
  destruct (has_property key p) eqn:Hhas;
  [ destruct (get_property key p) as [[]|] eqn:Hget;
    try discriminate H
  | destruct (get_property key p) eqn:Hget;
    [ apply get_property_has in Hget; congruence | ] ];
  try (injection H as <-).

Lemma claim_exp_result (p : json) (j t : JWT) :
  claim_exp p j = Some t -> t = set_expiresAt (date_claim "exp" p (expiresAt j)) j.
Proof.
  unfold claim_exp, date_claim. intros H. claim_block H "exp" p; now destruct j.
Qed.

Lemma claim_iss_result (p : json) (j t : JWT) :
  claim_iss p j = Some t -> t = set_issuer (string_claim "iss" p (issuer j)) j.
Proof.
  unfold claim_iss, string_claim. intros H. claim_block H "iss" p; now destruct j.
Qed.

Lemma claim_sub_result (p : json) (j t : JWT) :
  claim_sub p j = Some t -> t = set_subject (string_claim "sub" p (subject j)) j.
Proof.
  unfold claim_sub, string_claim. intros H. claim_block H "sub" p; now destruct j.
Qed.

Lemma claim_aud_result (p : json) (j t : JWT) :
  claim_aud p j = Some t -> t = set_audiences (aud_claim p (audiences j)) j.
Proof.
  unfold claim_aud, aud_claim. intros H. claim_block H "aud" p; try now destruct j.
  destruct (strings_of items); [injection H as <-; reflexivity | discriminate].
Qed.

Lemma claim_nbf_result (p : json) (j t : JWT) :
  claim_nbf p j = Some t -> t = set_notBefore (date_claim "nbf" p (notBefore j)) j.
Proof.
  unfold claim_nbf, date_claim. intros H. claim_block H "nbf" p; now destruct j.
Qed.

Lemma claim_iat_result (p : json) (j t : JWT) :
  claim_iat p j = Some t -> t = set_issuedAt (date_claim "iat" p (issuedAt j)) j.
Proof.
  unfold claim_iat, date_claim. intros H. claim_block H "iat" p; now destruct j.
Qed.

Lemma claim_jti_result (p : json) (j t : JWT) :
  claim_jti p j = Some t -> t = set_jwtId (string_claim "jti" p (jwtId j)) j.
Proof.
  unfold claim_jti, string_claim. intros H. claim_block H "jti" p; now destruct j.
Qed.

(** The token [parseJWT] returns, field by field. *)
Lemma claims_result (p : json) (j t : JWT) :
  claims p j = Some t ->
  t = mkJWT (value j) (header j) (payload j) (parts j) (algorithm j)
        (date_claim "exp" p (expiresAt j)) (string_claim "iss" p (issuer j))
        (string_claim "sub" p (subject j)) (aud_claim p (audiences j))
        (date_claim "nbf" p (notBefore j)) (date_claim "iat" p (issuedAt j))
        (string_claim "jti" p (jwtId j)).
Proof.
  unfold claims, and_then. intros H.
  destruct (claim_exp p j) as [j1|] eqn:E1; [|discriminate].
  destruct (claim_iss p j1) as [j2|] eqn:E2; [|discriminate].
  destruct (claim_sub p j2) as [j3|] eqn:E3; [|discriminate].
  destruct (claim_aud p j3) as [j4|] eqn:E4; [|discriminate].
  destruct (claim_nbf p j4) as [j5|] eqn:E5; [|discriminate].
  destruct (claim_iat p j5) as [j6|] eqn:E6; [|discriminate].
  apply claim_exp_result in E1. apply claim_iss_result in E2.
  apply claim_sub_result in E3. apply claim_aud_result in E4.
  apply claim_nbf_result in E5. apply claim_iat_result in E6.
  apply claim_jti_result in H. subst. reflexivity.
Qed.

Lemma existsb_eqb_In (s : string) (l : list string) :
  existsb (String.eqb s) l = true -> In s l.
Proof.
  intros H. apply existsb_exists in H as (x & Hin & Heq).
  apply String.eqb_eq in Heq. now subst.
Qed.

(** ** Numbers and dates *)

Lemma pow10_pos (k : Z) : 0 <= k -> 0 < 10 ^ k.
Proof. intros. apply Z.pow_pos_nonneg; lia. Qed.

Lemma pow2_pos (k : Z) : 0 <= k -> 0 < 2 ^ k.
Proof. intros. apply Z.pow_pos_nonneg; lia. Qed.

Lemma pow2_le (a b : Z) : 0 <= a <= b -> 2 ^ a <= 2 ^ b.
Proof. intros. apply Z.pow_le_mono_r; lia. Qed.

(** *** Rounding to a double *)

Lemma nearest_even_exact (q den : Z) : 0 < den -> nearest_even (q * den) den = q.
Proof.
  intros Hden. unfold nearest_even.
  rewrite Z.div_mul, Z.mod_mul by lia.
  change (2 * 0) with 0. now apply Z.compare_lt_iff in Hden as ->.
Qed.

Lemma nearest_even_floor (num den : Z) : num / den <= nearest_even num den.
Proof.
  unfold nearest_even.
  destruct (2 * (num mod den) ?= den); [destruct (Z.even (num / den))| |]; lia.
Qed.

(** [nearest_even] is within a half of the quotient, and even when at
    a half. *)
Lemma nearest_even_spec (num den : Z) :
  0 < den ->
  let n := nearest_even num den in
  2 * Z.abs (num - n * den) <= den
  /\ (2 * Z.abs (num - n * den) = den -> Z.even n = true).
Proof.
  intros Hden. unfold nearest_even.
  pose proof (Z.div_mod num den ltac:(lia)) as Hdm.
  pose proof (Z.mod_pos_bound num den Hden) as Hr.
  set (q := num / den) in *. set (r := num mod den) in *.
  destruct (Z.compare_spec (2 * r) den) as [Heq|Hlt|Hgt]; cbv zeta.
  - destruct (Z.even q) eqn:Heven.
    + split; [lia|]. intros _. exact Heven.
    + split; [lia|]. intros _.
      replace (q + 1) with (Z.succ q) by lia.
      now rewrite Z.even_succ, <- Z.negb_even, Heven.
  - split; lia.
  - split; lia.
Qed.

(** [num / den] is at least [2 ^ binade] and less than twice that. *)
Lemma binade_spec (num den : Z) :
  0 < num -> 0 < den ->
  let e := binade num den in
  (0 <= e -> den * 2 ^ e <= num < den * 2 ^ (e + 1))
  /\ (e < 0 -> den <= num * 2 ^ (- e) /\ num * 2 ^ (- e - 1) < den).
Proof.
  intros Hnum Hden. unfold binade.
  pose proof (Z.log2_spec num Hnum) as (Ha1 & Ha2).
  pose proof (Z.log2_spec den Hden) as (Hb1 & Hb2).
  pose proof (Z.log2_nonneg num) as Ha0.
  pose proof (Z.log2_nonneg den) as Hb0.
  set (a := Z.log2 num) in *. set (b := Z.log2 den) in *.
  rewrite Z.pow_succ_r in Ha2, Hb2 by lia.
  pose proof (pow2_pos a Ha0) as Hpa. pose proof (pow2_pos b Hb0) as Hpb.
  destruct (Z.leb_spec 0 (a - b)) as [Hl|Hl].
  - assert (Hab : 2 ^ a = 2 ^ b * 2 ^ (a - b)).
    { rewrite <- Z.pow_add_r by lia. f_equal. lia. }
    pose proof (pow2_pos (a - b) Hl) as Hpl.
    destruct (Z.ltb_spec num (den * 2 ^ (a - b))) as [Hc|Hc]; cbv zeta.
    + split.
      * intros He.
        replace (a - b - 1 + 1) with (a - b) by lia.
        split; [|exact Hc].
        assert (Hs : 2 ^ (a - b) = 2 * 2 ^ (a - b - 1)).
        { rewrite <- Z.pow_succ_r by lia. f_equal. lia. }
        nia.
      * intros He. assert (a - b = 0) as Hz by lia. rewrite Hz in *.
        change (2 ^ 0) with 1 in *.
        replace (- (0 - 1)) with 1 by lia. replace (- (0 - 1) - 1) with 0 by lia.
        change (2 ^ 1) with 2. change (2 ^ 0) with 1. nia.
    + split; [|lia]. intros _. split; [lia|].
      rewrite Z.pow_add_r by lia. change (2 ^ 1) with 2. nia.
  - assert (Hab : 2 ^ b = 2 ^ a * 2 ^ (- (a - b))).
    { rewrite <- Z.pow_add_r by lia. f_equal. lia. }
    pose proof (pow2_pos (- (a - b)) ltac:(lia)) as Hpl.
    destruct (Z.ltb_spec (num * 2 ^ (- (a - b))) den) as [Hc|Hc]; cbv zeta.
    + split; [lia|]. intros _.
      replace (- (a - b - 1) - 1) with (- (a - b)) by lia.
      split; [|exact Hc].
      replace (- (a - b - 1)) with (Z.succ (- (a - b))) by lia.
      rewrite Z.pow_succ_r by lia. nia.
    + split; [lia|]. intros _. split; [lia|].
      assert (Hs : 2 ^ (- (a - b)) = 2 * 2 ^ (- (a - b) - 1)).
      { rewrite <- Z.pow_succ_r by lia. f_equal. lia. }
      nia.
Qed.

Lemma binade_below (num den : Z) :
  0 < num -> 0 < den -> num < den * 2 ^ 53 -> binade num den <= 52.
Proof.
  intros Hnum Hden Hlt.
  destruct (binade_spec num den Hnum Hden) as (Hpos & _).
  destruct (Z.le_gt_cases (binade num den) 52) as [|Hbig]; [assumption|].
  destruct (Hpos ltac:(lia)) as (Hlow & _).
  pose proof (pow2_le 53 (binade num den) ltac:(lia)). nia.
Qed.

Lemma binade_above (num den : Z) :
  0 < num -> 0 < den -> den * 2 ^ 53 <= num ->
  53 <= binade num den /\ den * 2 ^ binade num den <= num.
Proof.
  intros Hnum Hden Hge.
  destruct (binade_spec num den Hnum Hden) as (Hpos & Hneg).
  destruct (Z.le_gt_cases 0 (binade num den)) as [H0|H0].
  - destruct (Hpos H0) as (Hlow & Hhigh). split; [|exact Hlow].
    destruct (Z.le_gt_cases 53 (binade num den)) as [|Hsmall]; [assumption|].
    pose proof (pow2_le (binade num den + 1) 53 ltac:(lia)). nia.
  - destruct (Hneg H0) as (_ & Hhigh).
    pose proof (pow2_pos (- binade num den - 1) ltac:(lia)).
    assert (1 <= 2 ^ 53) by (apply (pow2_le 0 53); lia). nia.
Qed.

(** The integer [binary64] keeps has at most 53 bits, or is [2^53]. *)
Lemma binary64_mantissa (num den : Z) :
  0 < num -> 0 < den ->
  let k := Z.max (binade num den - 52) (-1074) in
  let n := if 0 <=? k then nearest_even num (den * 2 ^ k)
           else nearest_even (num * 2 ^ (- k)) den in
  0 <= n <= 2 ^ 53.
Proof.
  intros Hnum Hden k n.
  assert (Hp : 0 < 2 ^ 53) by (apply pow2_pos; lia).
  destruct (binade_spec num den Hnum Hden) as (Hpos & Hneg).
  set (b := binade num den) in *.
  assert (Hbound : forall x y, 0 <= x -> 0 < y -> x < y * 2 ^ 53 ->
                     0 <= nearest_even x y <= 2 ^ 53).
  { intros x y Hx Hy Hxy.
    pose proof (nearest_even_spec x y Hy) as (Hnear & _). cbv zeta in Hnear.
    pose proof (nearest_even_floor x y).
    pose proof (Z.div_pos x y Hx Hy). split; [lia|].
    destruct (Z.le_gt_cases (nearest_even x y) (2 ^ 53)) as [|Hbig]; [assumption|]. nia. }
  subst n. destruct (Z.leb_spec 0 k) as [Hk|Hk].
  - pose proof (pow2_pos k Hk).
    apply Hbound; [lia | nia |].
    destruct (Hpos ltac:(lia)) as (_ & Hhigh).
    assert (Hle : 2 ^ (b + 1) <= 2 ^ k * 2 ^ 53).
    { rewrite <- Z.pow_add_r by lia. apply pow2_le. lia. }
    nia.
  - pose proof (pow2_pos (- k) ltac:(lia)).
    apply Hbound; [nia | lia |].
    destruct (Z.le_gt_cases 0 b) as [Hb|Hb].
    + destruct (Hpos Hb) as (_ & Hhigh).
      assert (Hle : 2 ^ (b + 1) * 2 ^ (- k) <= 2 ^ 53).
      { rewrite <- Z.pow_add_r by lia. apply pow2_le. lia. }
      nia.
    + destruct (Hneg Hb) as (_ & Hhigh).
      assert (Hle : 2 ^ (- k) <= 2 ^ (- b - 1) * 2 ^ 53).
      { rewrite <- Z.pow_add_r by lia. apply pow2_le. lia. }
      pose proof (pow2_pos (- b - 1) ltac:(lia)). nia.
Qed.

Lemma reduce_pow10 (j : nat) (x : Z) :
  reduce j (x * 10 ^ Z.of_nat j) (- Z.of_nat j) = Dec x 0.
Proof.
  induction j as [|j IH].
  - simpl. now rewrite Z.mul_1_r.
  - cbn [reduce]. rewrite Nat2Z.inj_succ, Z.pow_succ_r by lia.
    replace (x * (10 * 10 ^ Z.of_nat j)) with (x * 10 ^ Z.of_nat j * 10) by lia.
    rewrite Z.mod_mul, Z.div_mul by lia. cbn [Z.eqb].
    replace (- Z.succ (Z.of_nat j) + 1) with (- Z.of_nat j) by lia. exact IH.
Qed.

Lemma decimal_pow10 (x k : Z) : k < 0 -> decimal (x * 10 ^ (- k)) k = Dec x 0.
Proof.
  intros Hk. unfold decimal. destruct (Z.leb_spec 0 k); [lia|].
  pose proof (reduce_pow10 (Z.to_nat (- k)) x) as Hred.
  rewrite Z2Nat.id in Hred by lia. now rewrite Z.opp_involutive in Hred.
Qed.

Lemma signed_abs (z : Z) : signed (z <? 0) (Z.abs z) = z.
Proof. unfold signed. destruct (Z.ltb_spec z 0); lia. Qed.

(** The quotient that is an integer below [2^53] is rounded to itself. *)
Lemma binary64_integer (negative : bool) (v den : Z) :
  0 < v < 2 ^ 53 -> 0 < den ->
  binary64 negative (v * den) den = Dec (signed negative v) 0.
Proof.
  intros Hv Hden. unfold binary64.
  pose proof (binade_below (v * den) den ltac:(nia) Hden ltac:(nia)) as Hb.
  set (k := Z.max (binade (v * den) den - 52) (-1074)).
  assert (Hk : k <= 0) by lia.
  destruct (Z.leb_spec 0 k) as [H0|H0].
  - assert (k = 0) as -> by lia. change (2 ^ 0) with 1.
    rewrite !Z.mul_1_r, nearest_even_exact by assumption.
    destruct (Z.leb_spec (2 ^ 1024) v) as [Hover|_]; [|reflexivity].
    assert (2 ^ 53 <= 2 ^ 1024) by (apply pow2_le; lia). lia.
  - pose proof (pow2_pos (- k) ltac:(lia)).
    replace (v * den * 2 ^ (- k)) with (v * 2 ^ (- k) * den) by lia.
    rewrite nearest_even_exact by assumption.
    replace (signed negative (v * 2 ^ (- k)) * 5 ^ (- k))
      with (signed negative v * 10 ^ (- k)).
    2:{ change 10 with (2 * 5). rewrite Z.pow_mul_l. unfold signed.
        destruct negative; lia. }
    now apply decimal_pow10.
Qed.

(** A quotient of [2^53] or more is rounded to an integer of [2^53] or
    more, or to an infinity. *)
Lemma binary64_large (negative : bool) (num den : Z) :
  0 < den -> den * 2 ^ 53 <= num -> large (binary64 negative num den).
Proof.
  intros Hden Hge.
  assert (Hp : 0 < 2 ^ 53) by (apply pow2_pos; lia).
  destruct (binade_above num den ltac:(nia) Hden Hge) as (Hb & Hlow).
  unfold binary64.
  set (b := binade num den) in *.
  replace (Z.max (b - 52) (-1074)) with (b - 52) by lia.
  destruct (Z.leb_spec 0 (b - 52)) as [_|]; [|lia].
  set (n := nearest_even num (den * 2 ^ (b - 52))).
  destruct (2 ^ 1024 <=? n * 2 ^ (b - 52)); [exact I|].
  cbn [large]. split; [reflexivity|].
  pose proof (pow2_pos (b - 52) ltac:(lia)) as Hpk.
  assert (Hn : 2 ^ 52 <= n).
  { pose proof (nearest_even_floor num (den * 2 ^ (b - 52))) as Hfloor.
    fold n in Hfloor.
    assert (2 ^ 52 <= num / (den * 2 ^ (b - 52))); [|lia].
    apply Z.div_le_lower_bound; [nia|].
    replace (den * 2 ^ (b - 52) * 2 ^ 52) with (den * 2 ^ b); [exact Hlow|].
    rewrite <- Z.mul_assoc, <- Z.pow_add_r by lia. do 2 f_equal. lia. }
  assert (Hk : 2 <= 2 ^ (b - 52)).
  { change 2 with (2 ^ 1) at 1. apply pow2_le. lia. }
  assert (H53 : 2 ^ 53 = 2 ^ 52 * 2) by reflexivity.
  assert (0 < 2 ^ 52) by (apply pow2_pos; lia).
  unfold signed.
  destruct negative; rewrite Z.abs_mul, ?Z.abs_opp, !Z.abs_eq by lia; nia.
Qed.

(** A number that is the integer [z], as a fraction of positive
    integers. *)
Lemma denotes_fraction (n : number) (z : Z) :
  denotes n z ->
  exists m e, n = Dec m e
    /\ (m = 0 <-> z = 0)
    /\ (m <? 0) = (z <? 0)
    /\ (0 <= e -> Z.abs m * 10 ^ e = Z.abs z * 1)
    /\ (e < 0 -> Z.abs m = Z.abs z * 10 ^ (- e)).
Proof.
  destruct n as [|s|m e]; cbn [denotes]; try tauto. intros H.
  exists m, e. split; [reflexivity|].
  destruct (Z.leb_spec 0 e) as [He|He].
  - pose proof (pow10_pos e He). subst z.
    split; [nia|]. split; [|split; [|lia]].
    + destruct (Z.ltb_spec m 0), (Z.ltb_spec (m * 10 ^ e) 0); try reflexivity; nia.
    + intros _. rewrite Z.abs_mul, (Z.abs_eq (10 ^ e)); lia.
  - pose proof (pow10_pos (- e) ltac:(lia)). subst m.
    split; [nia|]. split; [|split; [lia|]].
    + destruct (Z.ltb_spec (z * 10 ^ (- e)) 0), (Z.ltb_spec z 0); try reflexivity; nia.
    + intros _. rewrite Z.abs_mul, (Z.abs_eq (10 ^ (- e))); lia.
Qed.

(** An integer below [2^53] in magnitude is a double. *)
Lemma double_integer (n : number) (z : Z) :
  denotes n z -> Z.abs z < 2 ^ 53 -> double n = number_of_Z z.
Proof.
  intros Hn Hz.
  destruct (denotes_fraction n z Hn) as (m & e & -> & Hzero & Hsign & Hpos & Hneg).
  unfold double, number_of_Z.
  destruct (Z.eqb_spec m 0) as [Hm|Hm].
  - apply Hzero in Hm. now subst z.
  - assert (z <> 0) by tauto. rewrite Hsign.
    destruct (Z.leb_spec 0 e) as [He|He].
    + rewrite (Hpos He), binary64_integer by lia. now rewrite signed_abs.
    + rewrite (Hneg He), binary64_integer; [now rewrite signed_abs | lia |].
      apply pow10_pos. lia.
Qed.

Lemma double_large (n : number) (z : Z) :
  denotes n z -> 2 ^ 53 <= Z.abs z -> large (double n).
Proof.
  intros Hn Hz.
  assert (Hp : 0 < 2 ^ 53) by (apply pow2_pos; lia).
  destruct (denotes_fraction n z Hn) as (m & e & -> & Hzero & Hsign & Hpos & Hneg).
  unfold double.
  destruct (Z.eqb_spec m 0) as [Hm|Hm].
  - apply Hzero in Hm. subst z. simpl in Hz. lia.
  - destruct (Z.leb_spec 0 e) as [He|He].
    + apply binary64_large; [lia|]. rewrite (Hpos He). lia.
    + apply binary64_large; [apply pow10_pos; lia|]. rewrite (Hneg He). nia.
Qed.

(** Some products, as an engine gives them: [0.1 * 3], [1.001 * 1000],
    an overflow either way, an infinity times zero; and two roundings,
    at a tie and past the greatest double. *)
Lemma number_mul_examples :
  number_mul (Dec 1 (-1)) (Dec 3 0)
  = Dec 3000000000000000444089209850062616169452667236328125 (-52)
  /\ number_mul (Dec 1001 (-3)) (Dec 1000 0)
     = Dec 10009999999999998863131622783839702606201171875 (-43)
  /\ number_mul (Dec 1 308) (Dec 10 0) = Infinity false
  /\ number_mul (Dec (-1) 308) (Dec 10 0) = Infinity true
  /\ number_mul (Infinity false) (Dec 0 0) = NaN
  /\ double (Dec 9007199254740993 0) = Dec 9007199254740992 0
  /\ double (Dec 17976931348623159 292) = Infinity false.
Proof. repeat split; vm_compute; reflexivity. Qed.

(** *** Seconds to milliseconds *)

Lemma maxTime_double : maxTime < 2 ^ 53.
Proof. reflexivity. Qed.

(** Seconds that are an integer and whose milliseconds a [Date] can
    hold: the product is exact. *)
Lemma number_mul_seconds (n : number) (z : Z) :
  denotes n z ->
  Z.abs (z * 1000) <= maxTime ->
  number_mul n (number_of_Z 1000) = number_of_Z (z * 1000).
Proof.
  intros Hn Hrange. pose proof maxTime_double as Hmax.
  unfold number_mul.
  rewrite (double_integer n z Hn) by lia.
  rewrite (double_integer (number_of_Z 1000) 1000) by (cbn; lia).
  unfold number_of_Z. apply double_integer; [|lia].
  cbn. lia.
Qed.

Lemma large_out_of_range (x : number) :
  large x -> number_ltb (number_of_Z maxTime) (number_abs x) = true.
Proof.
  destruct x as [|s|m e]; cbn [large]; [tauto|reflexivity|].
  intros (-> & Hm). pose proof maxTime_double.
  unfold number_abs, number_ltb, number_of_Z, align.
  rewrite Z.min_id, Z.sub_diag. change (10 ^ 0) with 1.
  apply Z.ltb_lt. lia.
Qed.

(** Beyond that range the product is beyond it too, or infinite. *)
Lemma number_mul_out_of_range (n : number) (z : Z) :
  denotes n z ->
  maxTime < Z.abs (z * 1000) ->
  number_ltb (number_of_Z maxTime) (number_abs (number_mul n (number_of_Z 1000))) = true.
Proof.
  intros Hn Hrange. pose proof maxTime_double as Hmax.
  assert (Hp : 0 < 2 ^ 53) by (apply pow2_pos; lia).
  destruct (Z.lt_ge_cases (Z.abs z) (2 ^ 53)) as [Hz|Hz].
  - unfold number_mul.
    rewrite (double_integer n z Hn Hz).
    rewrite (double_integer (number_of_Z 1000) 1000) by (cbn; lia).
    unfold number_of_Z.
    destruct (Z.lt_ge_cases (Z.abs (z * 1000)) (2 ^ 53)) as [Hsmall|Hbig].
    + rewrite (double_integer (Dec (z * 1000) (0 + 0)) (z * 1000)) by (cbn; lia).
      unfold number_abs, number_ltb, number_of_Z, align.
      rewrite Z.min_id, Z.sub_diag. change (10 ^ 0) with 1.
      apply Z.ltb_lt. lia.
    + apply large_out_of_range.
      apply (double_large _ (z * 1000)); [cbn; lia | exact Hbig].
  - apply large_out_of_range.
    pose proof (double_large n z Hn Hz) as Hd.
    unfold number_mul.
    rewrite (double_integer (number_of_Z 1000) 1000) by (cbn; lia).
    destruct (double n) as [|s'|m' e']; cbn [large] in Hd; [tauto|exact I|].
    destruct Hd as (-> & Hm'). unfold number_of_Z.
    apply (double_large _ (m' * 1000)); [cbn; lia|].
    rewrite Z.abs_mul. cbn [Z.abs]. lia.
Qed.

(** *** Dates *)

Lemma number_ltb_of_Z (a b : Z) :
  number_ltb (number_of_Z a) (number_of_Z b) = (a <? b).
Proof.
  unfold number_ltb, number_of_Z, align.
  rewrite Z.min_id, Z.sub_diag. simpl (10 ^ 0). now rewrite !Z.mul_1_r.
Qed.

Lemma TimeClip_of_Z (z : Z) :
  Z.abs z <= maxTime -> TimeClip (number_of_Z z) = number_of_Z z.
Proof.
  intros Hz. unfold TimeClip, number_of_Z, number_abs, number_ltb, align, number_trunc.
  rewrite Z.min_id, Z.sub_diag. change (10 ^ 0) with 1. rewrite !Z.mul_1_r.
  destruct (Z.ltb_spec maxTime (Z.abs z)); [lia|]. reflexivity.
Qed.

Lemma TimeClip_out_of_range (x : number) :
  number_ltb (number_of_Z maxTime) (number_abs x) = true -> TimeClip x = NaN.
Proof.
  destruct x as [|s|m e]; try reflexivity.
  unfold TimeClip. now intros ->.
Qed.

(** Seconds that are an integer and whose milliseconds a [Date] can
    hold give the date at exactly that many milliseconds. *)
Lemma new_Date_seconds (n : number) (z : Z) :
  denotes n z ->
  Z.abs (z * 1000) <= maxTime ->
  new_Date (number_mul n (number_of_Z 1000)) = mkDate (number_of_Z (z * 1000)).
Proof.
  intros Hz Hrange. unfold new_Date.
  now rewrite (number_mul_seconds n z Hz Hrange), TimeClip_of_Z.
Qed.

(** Beyond that range the date is invalid. *)
Lemma new_Date_out_of_range (n : number) (z : Z) :
  denotes n z ->
  maxTime < Z.abs (z * 1000) ->
  new_Date (number_mul n (number_of_Z 1000)) = mkDate NaN.
Proof.
  intros Hz Hrange. unfold new_Date.
  now rewrite (TimeClip_out_of_range _ (number_mul_out_of_range n z Hz Hrange)).
Qed.

(** A time that is before [t] is not after the date made from it:
    clipping gives [NaN], and truncation moves towards zero by less
    than one. *)
Lemma TimeClip_not_after (x : number) (t : Z) :
  number_ltb x (number_of_Z t) = true ->
  number_ltb (number_of_Z t) (TimeClip x) = false.
Proof.
  destruct x as [|s|m e]; [discriminate|reflexivity|].
  unfold TimeClip. destruct (number_ltb _ (number_abs _)); [reflexivity|].
  unfold number_ltb, number_of_Z, align, number_trunc.
  rewrite Z.min_id, Z.sub_diag. simpl (10 ^ 0). rewrite !Z.mul_1_r.
  intros H. apply Z.ltb_lt in H. apply Z.ltb_ge.
  destruct (Z.leb_spec 0 e) as [He|He].
  - rewrite Z.min_r, Z.sub_diag, Z.sub_0_r in H by lia. simpl (10 ^ 0) in H. lia.
  - rewrite Z.min_l, Z.sub_diag in H by lia. simpl (10 ^ 0) in H.
    replace (0 - e) with (- e) in H by lia.
    pose proof (pow10_pos (- e) ltac:(lia)) as Hpos.
    set (P := 10 ^ (- e)) in *.
    pose proof (Z.quot_rem' m P) as Hqr.
    destruct (Z.le_gt_cases 0 m) as [Hm|Hm].
    + pose proof (Z.rem_bound_pos m P Hm Hpos). nia.
    + pose proof (Z.rem_bound_pos_neg m P ltac:(lia) ltac:(lia)). nia.
Qed.

Lemma date_claim_stored (key : string) (p : json) (n : number) :
  get_property key p = Some (JNumber n) ->
  date_claim key p None = Some (new_Date (number_mul n (number_of_Z 1000)))
  /\ forall z : Z,
       denotes n z ->
       (Z.abs (z * 1000) <= maxTime ->
        date_claim key p None = Some (mkDate (number_of_Z (z * 1000))))
       /\ (maxTime < Z.abs (z * 1000) ->
           date_claim key p None = Some (mkDate NaN)).
Proof.
  intros Hn. unfold date_claim. rewrite Hn. split; [reflexivity|].
  intros z Hz. split; intros Hrange; f_equal.
  - now apply (new_Date_seconds n z).
  - now apply (new_Date_out_of_range n z).
Qed.

Ltac typed_block Hty key p :=
  let v := fresh "v" in
  let Hhas := fresh "Hhas" in
  let Hget := fresh "Hget" in
  unfold typed in Hty;
  destruct (has_property key p) eqn:Hhas; [|eauto];
  destruct (has_property_get key p Hhas) as (v & Hget);
  rewrite Hget in *; destruct v; try discriminate Hty; eauto.

(** On a payload typed as [JWTPayload] declares, every claim block goes
    through. *)
Lemma claims_typed (p : json) (j : JWT) :
  JWTPayload_typed p = true -> exists t, claims p j = Some t.
Proof.
  unfold JWTPayload_typed. rewrite !andb_true_iff.
  intros ((((((Hexp & Hiss) & Haud) & Hjti) & Hnbf) & Hsub) & Hiat).
  unfold claims, and_then.
  assert (E1 : exists j1, claim_exp p j = Some j1)
    by (unfold claim_exp; typed_block Hexp "exp" p).
  destruct E1 as (j1 & ->).
  assert (E2 : exists j2, claim_iss p j1 = Some j2)
    by (unfold claim_iss; typed_block Hiss "iss" p).
  destruct E2 as (j2 & ->).
  assert (E3 : exists j3, claim_sub p j2 = Some j3)
    by (unfold claim_sub; typed_block Hsub "sub" p).
  destruct E3 as (j3 & ->).
  assert (E4 : exists j4, claim_aud p j3 = Some j4).
  { unfold claim_aud. typed_block Haud "aud" p.
    simpl in Haud. destruct (strings_of items); [eauto | discriminate]. }
  destruct E4 as (j4 & ->).
  assert (E5 : exists j5, claim_nbf p j4 = Some j5)
    by (unfold claim_nbf; typed_block Hnbf "nbf" p).
  destruct E5 as (j5 & ->).
  assert (E6 : exists j6, claim_iat p j5 = Some j6)
    by (unfold claim_iat; typed_block Hiat "iat" p).
  destruct E6 as (j6 & ->).
  unfold claim_jti; typed_block Hjti "jti" p.
Qed.

(** ** Segments without dots *)

Lemma split_dot_segment (a rest : string) :
  dotless a -> split_dot (a ++ "." ++ rest) = a :: split_dot rest.
Proof.
  unfold dotless. change ("." ++ rest) with (String "." rest).
  induction a as [|c a IH]; simpl; intros H.
  - reflexivity.
  - destruct (Ascii.eqb c "."); [discriminate|].
    destruct (split_dot a) as [|piece pieces] eqn:E.
    + now destruct (split_dot_nonempty a).
    + injection H as -> ->. now rewrite IH.
Qed.

Lemma split_dot_three (a b c : string) :
  dotless a -> dotless b -> dotless c ->
  split_dot (join_dot [a; b; c]) = [a; b; c].
Proof.
  intros Ha Hb Hc. cbn [join_dot].
  now rewrite !split_dot_segment, Hc.
Qed.

Lemma date_claim_Some (key : string) (p : json) (date : Date) :
  date_claim key p None = Some date ->
  exists n, get_property key p = Some (JNumber n)
            /\ date = new_Date (number_mul n (number_of_Z 1000)).
Proof.
  unfold date_claim.
  destruct (get_property key p) as [[| |n| | |]|]; try discriminate.
  intros H. injection H as <-. now exists n.
Qed.

(** ** The algorithm table *)

Lemma getAlgorithm_supported (alg : string) :
  In alg JWTAlgorithms -> exists a, getAlgorithm alg = Return a.
Proof.
  unfold JWTAlgorithms. simpl.
  intros H; repeat destruct H as [<-|H]; try contradiction;
    eexists; reflexivity.
Qed.

(** ** Arrays of strings *)

Lemma strings_of_map (l : list string) : strings_of (map JString l) = Some l.
Proof. induction l as [|s l IH]; simpl; [reflexivity | now rewrite IH]. Qed.

Lemma strings_of_Some (items : list json) (l : list string) :
  strings_of items = Some l -> items = map JString l.
Proof.
  revert l. induction items as [|x items IH]; simpl; intros l H.
  - now injection H as <-.
  - destruct x; try discriminate.
    destruct (strings_of items) as [l'|]; [|discriminate].
    injection H as <-. simpl. now rewrite (IH l' eq_refl).
Qed.

(** A payload whose [aud] is neither a string nor an array of strings
    stops the claim blocks. *)
Lemma claims_aud_ill_typed (p v : json) (j : JWT) :
  get_property "aud" p = Some v ->
  (forall s, v <> JString s) ->
  (forall l, v <> JArray (map JString l)) ->
  claims p j = None.
Proof.
  intros Hget Hstr Harr. unfold claims, and_then.
  destruct (claim_exp p j) as [j1|]; [|reflexivity].
  destruct (claim_iss p j1) as [j2|]; [|reflexivity].
  destruct (claim_sub p j2) as [j3|]; [|reflexivity].
  assert (Haud : claim_aud p j3 = None).
  { unfold claim_aud. rewrite (get_property_has _ _ _ Hget), Hget.
    destruct v as [| | |s|items|]; try reflexivity.
    - now destruct (Hstr s).
    - destruct (strings_of items) as [l|] eqn:E; [|reflexivity].
      apply strings_of_Some in E. subst items. now destruct (Harr l). }
  now rewrite Haud.
Qed.

(** ** The base64url codec round-trips *)

Module base64url_facts.
Import base64url.

Ltac each_sextet s :=
  destruct s as [[[[[[] []] []] []] []] []].

Lemma decodeChar_encodeChar (s : sextet) : decodeChar (encodeChar s) = Some s.
Proof. each_sextet s; reflexivity. Qed.

Lemma encodeChar_not_padding (s : sextet) : Ascii.eqb (encodeChar s) "=" = false.
Proof. each_sextet s; reflexivity. Qed.

Lemma encodeChar_not_dot (s : sextet) : Ascii.eqb (encodeChar s) "." = false.
Proof. each_sextet s; reflexivity. Qed.

Lemma slot_encodeChar (last : bool) (s : sextet) :
  slot last (Some (encodeChar s)) = Return (Some s).
Proof.
  unfold slot. now rewrite encodeChar_not_padding, decodeChar_encodeChar.
Qed.

Lemma bytes_ind3 (P : bytes -> Prop) :
  P [] -> (forall x, P [x]) -> (forall x y, P [x; y]) ->
  (forall x y z rest, P rest -> P (x :: y :: z :: rest)) ->
  forall data, P data.
Proof.
  intros H0 H1 H2 H3 data.
  enough (H : P data /\ (forall x, P (x :: data)) /\ (forall x y, P (x :: y :: data)))
    by apply H.
  induction data as [|z data (IH0 & IH1 & IH2)]; auto.
Qed.

Ltac open_byte x :=
  let E := fresh "E" in
  destruct (Byte.to_bits x) as (? & ? & ? & ? & ? & ? & ? & ?) eqn:E.

Ltac close_byte x :=
  match goal with
  | E : Byte.to_bits x = _ |- _ => rewrite <- E, Byte.of_bits_to_bits
  end.

Lemma encode_empty (data : bytes) : encode data = EmptyString -> data = [].
Proof.
  destruct data as [|x [|y [|z rest]]]; [reflexivity| | |]; simpl;
    open_byte x; try open_byte y; try open_byte z; discriminate.
Qed.

(** [decode(encode(data))] is [data]. *)
Lemma decode_encode (data : bytes) : decode (encode data) = Return data.
Proof.
  induction data as [|x|x y|x y z rest IH] using bytes_ind3.
  - reflexivity.
  - simpl. open_byte x. cbn [decode]. unfold chunk.
    rewrite !slot_encodeChar. cbn -[Byte.of_bits]. now close_byte x.
  - simpl. open_byte x. open_byte y. cbn [decode]. unfold chunk.
    rewrite !slot_encodeChar. cbn -[Byte.of_bits]. close_byte x. now close_byte y.
  - cbn [encode]. open_byte x. open_byte y. open_byte z. cbn [decode].
    assert (Hchunk : forall last,
              chunk last (Some (encodeChar (b6, b5, b4, b3, b2, b1)))
                         (Some (encodeChar (b0, b, b14, b13, b12, b11)))
                         (Some (encodeChar (b10, b9, b8, b7, b22, b21)))
                         (Some (encodeChar (b20, b19, b18, b17, b16, b15)))
              = Return [x; y; z]).
    { intros last. unfold chunk. rewrite !slot_encodeChar. cbn -[Byte.of_bits].
      close_byte x. close_byte y. now close_byte z. }
    destruct (encode rest) eqn:Erest.
    + apply encode_empty in Erest. subst rest. apply Hchunk.
    + rewrite Hchunk, IH. reflexivity.
Qed.

Lemma dotless_String (c : ascii) (s : string) :
  Ascii.eqb c "." = false -> dotless s -> dotless (String c s).
Proof. unfold dotless. simpl. now intros -> ->. Qed.

(** The encoding has no dot. *)
Lemma encode_dotless (data : bytes) : dotless (encode data).
Proof.
  induction data as [|x|x y|x y z rest IH] using bytes_ind3;
    [reflexivity| | |]; cbn [encode];
    open_byte x; try open_byte y; try open_byte z;
    repeat (apply dotless_String; [apply encodeChar_not_dot|]);
    first [exact IH | reflexivity].
Qed.

End base64url_facts.

Section properties.
Context {codec : Base64url} {host : Host} {crypto : Crypto} {index : Index}.

(** What a successful [parseJWT] went through. *)
Lemma parseJWT_Some (token : string) (t : JWT) :
  parseJWT token = Return (Some t) ->
  exists part0 part1 part2 rawHeader rawPayload h p alg,
    split_dot token = [part0; part1; part2]
    /\ base64url_decode part0 = Return rawHeader
    /\ base64url_decode part1 = Return rawPayload
    /\ JSON_parse (TextDecoder_decode rawHeader) = Return h
    /\ JSON_parse (TextDecoder_decode rawPayload) = Return p
    /\ get_property "alg" h = Some (JString alg)
    /\ In alg JWTAlgorithms
    /\ claims p (mkJWT token h p (part0, part1, part2) alg
                       None None None None None None None) = Some t.
Proof.
  unfold parseJWT. intros H.
  destruct (split_dot token) as [|part0 [|part1 [|part2 [|]]]] eqn:Hsplit;
    try discriminate.
  destruct (base64url_decode part0) as [rawHeader|] eqn:H0; [|discriminate].
  destruct (base64url_decode part1) as [rawPayload|] eqn:H1; [|discriminate].
  cbn [bindR] in H.
  destruct (JSON_parse (TextDecoder_decode rawHeader)) as [h|] eqn:Hh; [|discriminate].
  cbn [bindR] in H.
  destruct (negb (typeof (Some h) === "object") || is_null h); [discriminate|].
  destruct (has_property "alg" h); [|discriminate].
  destruct (isValidAlgorithm (get_property "alg" h)) eqn:Hvalid; [|discriminate].
  cbn [negb orb] in H.
  destruct (has_property "typ" h && differs_from (get_property "typ" h) "JWT");
    [discriminate|].
  destruct (JSON_parse (TextDecoder_decode rawPayload)) as [p|] eqn:Hp; [|discriminate].
  cbn [bindR] in H.
  destruct (negb (typeof (Some p) === "object") || is_null p); [discriminate|].
  destruct (get_property "alg" h) as [[| | |alg| |]|] eqn:Halg; try discriminate.
  injection H as H.
  exists part0, part1, part2, rawHeader, rawPayload, h, p, alg.
  repeat split; auto. now apply existsb_eqb_In.
Qed.

(** The claim fields of a returned token are the claims of its payload. *)
Lemma parseJWT_fields (token : string) (t : JWT) :
  parseJWT token = Return (Some t) ->
  expiresAt t = date_claim "exp" (payload t) None
  /\ issuer t = string_claim "iss" (payload t) None
  /\ subject t = string_claim "sub" (payload t) None
  /\ audiences t = aud_claim (payload t) None
  /\ notBefore t = date_claim "nbf" (payload t) None
  /\ issuedAt t = date_claim "iat" (payload t) None
  /\ jwtId t = string_claim "jti" (payload t) None.
Proof.
  intros H.
  apply parseJWT_Some in H
    as (part0 & part1 & part2 & rawH & rawP & h & p & alg
        & _ & _ & _ & _ & _ & _ & _ & Hclaims).
  apply claims_result in Hclaims. subst t. cbn. tauto.
Qed.

(** C1. When the token parses and its algorithm is not the one the
    caller expects, [validateJWT] throws "Invalid algorithm" and
    leaves the world as it was: the clock is not read and no call to
    a signing primitive is made. *)
Theorem validateJWT_algorithm_mismatch
  (algorithm0 : string) (key : bytes) (jwt : string) (t : JWT) (w : World) :
  parseJWT jwt = Return (Some t) ->
  algorithm t <> algorithm0 ->
  validateJWT algorithm0 key jwt w = (Throw (Error "Invalid algorithm"), w).
Proof.
  intros Hparse Hneq. unfold validateJWT, bind, lift. rewrite Hparse.
  apply String.eqb_neq in Hneq. now rewrite Hneq.
Qed.

(** C10. A token that [parseJWT] returns carries one of the twelve
    algorithm tags, the one its header has under [alg]; its [value]
    is the input; and its three parts joined with dots are the input. *)
Theorem parseJWT_invariants (token : string) (t : JWT) :
  parseJWT token = Return (Some t) ->
  In (algorithm t) JWTAlgorithms
  /\ get_property "alg" (header t) = Some (JString (algorithm t))
  /\ value t = token
  /\ (let '(part0, part1, part2) := parts t in
      join_dot [part0; part1; part2] = token).
Proof.
  intros H.
  apply parseJWT_Some in H
    as (part0 & part1 & part2 & rawH & rawP & h & p & alg
        & Hsplit & _ & _ & _ & _ & Halg & Hin & Hclaims).
  apply claims_result in Hclaims. subst t. cbn -[join_dot].
  repeat split; auto.
  rewrite <- Hsplit. apply join_split_dot.
Qed.

(** With both segments decoded and both texts parsed, [parseJWT]
    returns: a token, or [null]. *)
Lemma parseJWT_returns
  (token part0 part1 part2 : string) (rawHeader rawPayload : bytes) (h p : json) :
  split_dot token = [part0; part1; part2] ->
  base64url_decode part0 = Return rawHeader ->
  base64url_decode part1 = Return rawPayload ->
  JSON_parse (TextDecoder_decode rawHeader) = Return h ->
  JSON_parse (TextDecoder_decode rawPayload) = Return p ->
  parseJWT token = Return None
  \/ exists alg,
       get_property "alg" h = Some (JString alg)
       /\ parseJWT token
          = Return (claims p (mkJWT token h p (part0, part1, part2) alg
                                    None None None None None None None)).
Proof.
  intros Hsplit H0 H1 Hh Hp. unfold parseJWT.
  rewrite Hsplit, H0, H1. cbn [bindR]. rewrite Hh. cbn [bindR].
  destruct (negb (typeof (Some h) === "object") || is_null h); [now left|].
  destruct (negb (has_property "alg" h)
            || negb (isValidAlgorithm (get_property "alg" h))); [now left|].
  destruct (has_property "typ" h && differs_from (get_property "typ" h) "JWT");
    [now left|].
  rewrite Hp. cbn [bindR].
  destruct (negb (typeof (Some p) === "object") || is_null p); [now left|].
  destruct (get_property "alg" h) as [[| | |alg| |]|]; try now left.
  right. now exists alg.
Qed.


(** With both segments decoded, a header that passes the guards and a
    payload object, [parseJWT] returns what the claim blocks give. *)
Lemma parseJWT_claims
  (token part0 part1 part2 : string) (rawHeader rawPayload : bytes)
  (h : json) (props : list (string * json)) (alg : string) :
  split_dot token = [part0; part1; part2] ->
  base64url_decode part0 = Return rawHeader ->
  base64url_decode part1 = Return rawPayload ->
  JSON_parse (TextDecoder_decode rawHeader) = Return h ->
  JSON_parse (TextDecoder_decode rawPayload) = Return (JObject props) ->
  get_property "alg" h = Some (JString alg) ->
  In alg JWTAlgorithms ->
  has_property "typ" h = false \/ get_property "typ" h = Some (JString "JWT") ->
  parseJWT token
  = Return (claims (JObject props)
              (mkJWT token h (JObject props) (part0, part1, part2) alg
                     None None None None None None None)).
Proof.
  intros Hsplit H0 H1 Hh Hp Halg Hin Htyp. unfold parseJWT.
  rewrite Hsplit, H0, H1. cbn [bindR]. rewrite Hh. cbn [bindR].
  rewrite (get_property_has _ _ _ Halg), Halg, Hp. cbn [bindR].
  assert (Hvalid : isValidAlgorithm (Some (JString alg)) = true).
  { apply existsb_exists. exists alg. split; [exact Hin | apply String.eqb_refl]. }
  rewrite Hvalid.
  assert (Hpass : has_property "typ" h && differs_from (get_property "typ" h) "JWT"
                  = false).
  { destruct Htyp as [-> | ->]; [reflexivity|].
    cbn [differs_from]. now rewrite String.eqb_refl, andb_false_r. }
  rewrite Hpass.
  destruct h; try discriminate Halg; reflexivity.
Qed.

(** A value that has an [aud] is an object. *)
Lemma has_aud_object (p v : json) :
  get_property "aud" p = Some v -> exists props, p = JObject props.
Proof.
  destruct p as [| | | |items|props]; try discriminate. now exists props.
Qed.

(** C7. For a token whose two segments decode and parse.  When the
    header passes the guards of [parseJWT] and the payload is typed as
    [JWTPayload] declares: with [aud] a string [s], [parseJWT] returns
    a token that has audiences [[s]]; with [aud] an array of strings,
    a token that has that array.  Whatever the header and the other
    claims: with [aud] anything else, [parseJWT] returns [null]. *)
Theorem parseJWT_aud
  (token part0 part1 part2 : string) (rawHeader rawPayload : bytes) (h p : json) :
  split_dot token = [part0; part1; part2] ->
  base64url_decode part0 = Return rawHeader ->
  base64url_decode part1 = Return rawPayload ->
  JSON_parse (TextDecoder_decode rawHeader) = Return h ->
  JSON_parse (TextDecoder_decode rawPayload) = Return p ->
  (forall alg : string,
     get_property "alg" h = Some (JString alg) ->
     In alg JWTAlgorithms ->
     has_property "typ" h = false \/ get_property "typ" h = Some (JString "JWT") ->
     JWTPayload_typed p = true ->
     (forall s : string,
        get_property "aud" p = Some (JString s) ->
        exists t, parseJWT token = Return (Some t) /\ audiences t = Some [s])
     /\ (forall l : list string,
           get_property "aud" p = Some (JArray (map JString l)) ->
           exists t, parseJWT token = Return (Some t) /\ audiences t = Some l))
  /\ (forall v : json,
        get_property "aud" p = Some v ->
        (forall s, v <> JString s) ->
        (forall l, v <> JArray (map JString l)) ->
        parseJWT token = Return None).
Proof.
  intros Hsplit H0 H1 Hh Hp. split.
  - intros alg Halg Hin Htyp Htyped.
    assert (Hparse : forall v,
              get_property "aud" p = Some v ->
              exists t, parseJWT token = Return (Some t)
                        /\ audiences t = aud_claim p None).
    { intros v Hv. destruct (has_aud_object p v Hv) as (props & ->).
      destruct (claims_typed (JObject props)
                  (mkJWT token h (JObject props) (part0, part1, part2) alg
                         None None None None None None None) Htyped)
        as (t & Hclaims).
      exists t. split.
      - rewrite (parseJWT_claims token part0 part1 part2 rawHeader rawPayload h props alg)
          by assumption.
        now rewrite Hclaims.
      - now rewrite (claims_result _ _ _ Hclaims). }
    split.
    + intros s Haud. destruct (Hparse _ Haud) as (t & Ht & Hfield).
      exists t. split; [exact Ht|]. rewrite Hfield. unfold aud_claim. now rewrite Haud.
    + intros l Haud. destruct (Hparse _ Haud) as (t & Ht & Hfield).
      exists t. split; [exact Ht|]. rewrite Hfield. unfold aud_claim.
      now rewrite Haud, strings_of_map.
  - intros v Haud Hstr Harr.
    destruct (parseJWT_returns _ _ _ _ _ _ _ _ Hsplit H0 H1 Hh Hp)
      as [Hnull | (alg & Halg & Hparse)]; [exact Hnull|].
    now rewrite Hparse, (claims_aud_ill_typed _ _ _ Haud Hstr Harr).
Qed.

(** C9. For a token that [parseJWT] returns, an [exp], [nbf] or [iat]
    that is a number [n] is stored as [new Date(n * 1000)], the
    product being that of doubles.  When [n] is an integer whose
    milliseconds a [Date] can hold, that is the instant [n * 1000];
    beyond [8.64e15] milliseconds the date is invalid. *)
Theorem parseJWT_dates (token : string) (t : JWT) :
  parseJWT token = Return (Some t) ->
  let stored (key : string) (field : option Date) :=
    forall n : number,
      get_property key (payload t) = Some (JNumber n) ->
      field = Some (new_Date (number_mul n (number_of_Z 1000)))
      /\ forall z : Z,
           denotes n z ->
           (Z.abs (z * 1000) <= maxTime ->
            field = Some (mkDate (number_of_Z (z * 1000))))
           /\ (maxTime < Z.abs (z * 1000) ->
               field = Some (mkDate NaN)) in
  stored "exp" (expiresAt t)
  /\ stored "nbf" (notBefore t)
  /\ stored "iat" (issuedAt t).
Proof.
  intros H.
  destruct (parseJWT_fields token t H) as (Hexp & _ & _ & _ & Hnbf & Hiat & _).
  rewrite Hexp, Hnbf, Hiat.
  split; [|split]; intros n Hn; now apply date_claim_stored.
Qed.

(** A parsed token of the expected algorithm, inside its time window
    and with a signature that verifies, is returned; the one call
    made is the verification. *)
Lemma validateJWT_accepts
  (algorithm0 : string) (key : bytes) (jwt : string) (t : JWT) (w : World)
  (part0 part1 part2 : string) (signature : bytes) (alg : SigningAlgorithm) :
  within_spec ->
  parseJWT jwt = Return (Some t) ->
  algorithm t = algorithm0 ->
  (forall date, expiresAt t = Some date ->
                number_ltb (now w) (getTime date) = true) ->
  (forall date, notBefore t = Some date ->
                number_ltb (now (after_exp t w)) (getTime date) = false) ->
  parts t = (part0, part1, part2) ->
  base64url_decode part2 = Return signature ->
  getAlgorithm (algorithm t) = Return alg ->
  verify alg key signature (TextEncoder_encode (part0 ++ "." ++ part1)) = Return true ->
  validateJWT algorithm0 key jwt w
  = (Return t,
     logged (CallVerify alg key signature (TextEncoder_encode (part0 ++ "." ++ part1)))
            (after_nbf t (after_exp t w))).
Proof.
  intros Hwithin Hparse Halg Hexp Hnbf Hparts Hsig Hget Hverify.
  unfold validateJWT, bind, lift, ret, throw, Date_now, await_verify,
    after_nbf, after_exp in *.
  rewrite Hparse. subst algorithm0. rewrite String.eqb_refl. cbv beta iota.
  cbn [negb].
  destruct (expiresAt t) as [date|].
  - rewrite Hwithin, (Hexp date eq_refl). cbn [negb].
    destruct (notBefore t) as [date'|].
    + rewrite (Hnbf date' eq_refl), Hparts, Hsig, Hget, Hverify. reflexivity.
    + rewrite Hparts, Hsig, Hget, Hverify. reflexivity.
  - destruct (notBefore t) as [date'|].
    + rewrite (Hnbf date' eq_refl), Hparts, Hsig, Hget, Hverify. reflexivity.
    + rewrite Hparts, Hsig, Hget, Hverify. reflexivity.
Qed.

(** A parsed token of the expected algorithm whose [expiresAt] the
    clock is not before is refused as expired: the clock was read
    once, nothing else was done. *)
Lemma validateJWT_expired
  (algorithm0 : string) (key : bytes) (jwt : string) (t : JWT) (date : Date)
  (w : World) :
  within_spec ->
  parseJWT jwt = Return (Some t) ->
  algorithm t = algorithm0 ->
  expiresAt t = Some date ->
  number_ltb (now w) (getTime date) = false ->
  validateJWT algorithm0 key jwt w = (Throw (Error "Expired JWT"), tick w).
Proof.
  intros Hwithin Hparse Halg Hdate Hnot.
  unfold validateJWT, bind, lift. rewrite Hparse. subst algorithm0.
  rewrite String.eqb_refl. cbn [negb]. now rewrite Hdate, Hwithin, Hnot.
Qed.

(** A parsed token of the expected algorithm that has not expired and
    whose [notBefore] is after the clock is refused as inactive. *)
Lemma validateJWT_inactive
  (algorithm0 : string) (key : bytes) (jwt : string) (t : JWT) (date : Date)
  (w : World) :
  within_spec ->
  parseJWT jwt = Return (Some t) ->
  algorithm t = algorithm0 ->
  (forall d, expiresAt t = Some d -> number_ltb (now w) (getTime d) = true) ->
  notBefore t = Some date ->
  number_ltb (now (after_exp t w)) (getTime date) = true ->
  validateJWT algorithm0 key jwt w
  = (Throw (Error "Inactive JWT"), tick (after_exp t w)).
Proof.
  intros Hwithin Hparse Halg Hexp Hnbf Hfuture.
  unfold validateJWT, bind, lift, ret, throw, Date_now, after_exp in *.
  rewrite Hparse. subst algorithm0. rewrite String.eqb_refl. cbv beta iota.
  cbn [negb]. rewrite Hnbf.
  destruct (expiresAt t) as [d|].
  - rewrite Hwithin, (Hexp d eq_refl). cbn [negb]. now rewrite Hfuture.
  - now rewrite Hfuture.
Qed.

(** C6. For a parsed token of the expected algorithm whose [exp] is a
    number [n], stored as [new Date(n * 1000)].  When [n * 1000] is
    before the current time, or is beyond the range of [Date] (the
    date is then invalid), or when its whole milliseconds are not
    after the current time, [validateJWT] throws "Expired JWT" having
    read the clock once and called no signing primitive.  When its
    whole milliseconds are after the current time, the expiration
    check passes, and the token is returned if it is active and its
    signature verifies.  For [n] an integer, [n * 1000] is exact
    within the range of [Date], and beyond it otherwise. *)
Theorem validateJWT_expiration
  (algorithm0 : string) (key : bytes) (jwt : string) (t : JWT) (n : number)
  (w : World) :
  within_spec ->
  parseJWT jwt = Return (Some t) ->
  algorithm t = algorithm0 ->
  get_property "exp" (payload t) = Some (JNumber n) ->
  let product := number_mul n (number_of_Z 1000) in
  let expired :=
    validateJWT algorithm0 key jwt w = (Throw (Error "Expired JWT"), tick w)
    /\ calls (tick w) = calls w in
  expiresAt t = Some (new_Date product)
  /\ (number_ltb product (now w) = true -> expired)
  /\ (number_ltb (number_of_Z maxTime) (number_abs product) = true ->
      expiresAt t = Some (mkDate NaN) /\ expired)
  /\ (forall ms : Z,
        TimeClip product = number_of_Z ms ->
        (ms <= clock w (reads w) -> expired)
        /\ (clock w (reads w) < ms ->
            isWithinExpirationDate (new_Date product) w = (Return true, tick w)
            /\ forall (part0 part1 part2 : string) (signature : bytes)
                      (alg : SigningAlgorithm),
                 (forall date, notBefore t = Some date ->
                               number_ltb (now (tick w)) (getTime date) = false) ->
                 parts t = (part0, part1, part2) ->
                 base64url_decode part2 = Return signature ->
                 getAlgorithm (algorithm t) = Return alg ->
                 verify alg key signature (TextEncoder_encode (part0 ++ "." ++ part1))
                 = Return true ->
                 exists w', validateJWT algorithm0 key jwt w = (Return t, w')))
  /\ (forall z : Z,
        denotes n z ->
        (Z.abs (z * 1000) <= maxTime -> TimeClip product = number_of_Z (z * 1000))
        /\ (maxTime < Z.abs (z * 1000) ->
            number_ltb (number_of_Z maxTime) (number_abs product) = true)).
Proof.
  intros Hwithin Hparse Halg Hexp product expired.
  assert (Hdate : expiresAt t = Some (new_Date product)).
  { destruct (parseJWT_fields jwt t Hparse) as (Hfield & _).
    rewrite Hfield. unfold date_claim. now rewrite Hexp. }
  assert (Hexpired : number_ltb (now w) (TimeClip product) = false -> expired).
  { intros Hnot. split; [|reflexivity].
    now apply (validateJWT_expired algorithm0 key jwt t (new_Date product)). }
  split; [exact Hdate|]. split; [|split; [|split]].
  - intros Hpast. apply Hexpired. unfold now in *.
    now apply TimeClip_not_after.
  - intros Hrange. pose proof (TimeClip_out_of_range _ Hrange) as Hclip.
    split.
    + rewrite Hdate. unfold new_Date. now rewrite Hclip.
    + apply Hexpired. now rewrite Hclip.
  - intros ms Hclip. split.
    + intros Hreached. apply Hexpired. rewrite Hclip. unfold now.
      rewrite number_ltb_of_Z. apply Z.ltb_ge. lia.
    + intros Hfuture.
      assert (Hwhen : number_ltb (now w) (getTime (new_Date product)) = true).
      { cbn [getTime new_Date]. rewrite Hclip. unfold now.
        rewrite number_ltb_of_Z. now apply Z.ltb_lt. }
      split; [now rewrite Hwithin, Hwhen|].
      intros part0 part1 part2 signature alg Hnbf Hparts Hsig Hget Hverify.
      eexists. eapply validateJWT_accepts; eauto.
      * intros date Hd. rewrite Hdate in Hd. now injection Hd as <-.
      * intros date Hd. apply Hnbf in Hd. unfold after_exp. now rewrite Hdate.
  - intros z Hz. split; intros Hrange.
    + unfold product. rewrite (number_mul_seconds n z Hz Hrange).
      now apply TimeClip_of_Z.
    + now apply (number_mul_out_of_range n z).
Qed.

(** The token [createJWT] returns, and the call it makes. *)
Lemma createJWT_returns
  (key : bytes) (header payload : json) (alg : string) (a : SigningAlgorithm)
  (signature : bytes) (w : World) :
  get_property "alg" header = Some (JString alg) ->
  getAlgorithm alg = Return a ->
  let headerPart := base64url_encode (TextEncoder_encode (JSON_stringify header)) in
  let payloadPart := base64url_encode (TextEncoder_encode (JSON_stringify payload)) in
  let data := TextEncoder_encode (headerPart ++ "." ++ payloadPart) in
  sign a key data = Return signature ->
  createJWT key header payload w
  = (Return (join_dot [headerPart; payloadPart; base64url_encode signature]),
     logged (CallSign a key data) w).
Proof.
  intros Halg Hget headerPart payloadPart data Hsign.
  unfold createJWT, bind, lift, ret, await_sign.
  rewrite Halg, Hget. cbn [join_dot].
  fold headerPart payloadPart. fold data. now rewrite Hsign.
Qed.

(** On a payload typed as [JWTPayload] declares, the date of a claim
    is there exactly when the payload has the claim. *)
Lemma date_claim_typed (key : string) (p : json) :
  typed is_number key p = true ->
  date_claim key p None
  = match get_property key p with
    | Some (JNumber n) => Some (new_Date (number_mul n (number_of_Z 1000)))
    | _ => None
    end
  /\ forall A (x y : A),
       match date_claim key p None with Some _ => x | None => y end
       = match get_property key p with Some _ => x | None => y end.
Proof.
  unfold typed, date_claim.
  destruct (get_property key p) as [[| |n| | |]|]; try discriminate; auto.
Qed.

(** C2. A token built by [createJWT] and validated with the same key
    and the algorithm of its header, when the header names a supported
    algorithm and no [typ] other than "JWT", the payload is an object
    typed as
    [JWTPayload] declares, header and payload survive serialization,
    the codec round-trips and signatures verify.  When the clock is
    before the date stored for the payload's [exp] and not before the
    date stored for its [nbf], [validateJWT] returns a token with the
    header and the payload that were given.  When the clock is not
    before the date stored for [exp], it throws "Expired JWT"; when
    the token has not expired and the clock is before the date stored
    for [nbf], it throws "Inactive JWT". *)
Theorem createJWT_validateJWT
  (alg : string) (key : bytes) (h : json) (props : list (string * json))
  (w : World) :
  within_spec ->
  codec_round_trips ->
  signatures_verify ->
  serializes h ->
  serializes (JObject props) ->
  get_property "alg" h = Some (JString alg) ->
  In alg JWTAlgorithms ->
  has_property "typ" h = false \/ get_property "typ" h = Some (JString "JWT") ->
  JWTPayload_typed (JObject props) = true ->
  let p := JObject props in
  let stored (n : number) := getTime (new_Date (number_mul n (number_of_Z 1000))) in
  exists (token : string) (w1 : World),
    createJWT key h p w = (Return token, w1)
    /\ let unexpired :=
         forall n, get_property "exp" p = Some (JNumber n) ->
                   number_ltb (now w1) (stored n) = true in
       let w_nbf := match get_property "exp" p with Some _ => tick w1 | None => w1 end in
       (unexpired ->
        (forall n, get_property "nbf" p = Some (JNumber n) ->
                   number_ltb (now w_nbf) (stored n) = false) ->
        exists (t : JWT) (w2 : World),
          validateJWT alg key token w1 = (Return t, w2)
          /\ header t = h
          /\ payload t = p
          /\ value t = token)
       /\ (forall n, get_property "exp" p = Some (JNumber n) ->
                     number_ltb (now w1) (stored n) = false ->
                     validateJWT alg key token w1
                     = (Throw (Error "Expired JWT"), tick w1))
       /\ (unexpired ->
           forall n, get_property "nbf" p = Some (JNumber n) ->
                     number_ltb (now w_nbf) (stored n) = true ->
                     validateJWT alg key token w1
                     = (Throw (Error "Inactive JWT"), tick w_nbf)).
Proof.
  intros Hwithin Hcodec Hsigns Hheader Hpayload Halg Hin Htyp Htyped p stored.
  destruct (getAlgorithm_supported alg Hin) as (a & Hget).
  set (headerPart := base64url_encode (TextEncoder_encode (JSON_stringify h))).
  set (payloadPart := base64url_encode (TextEncoder_encode (JSON_stringify p))).
  set (data := TextEncoder_encode (headerPart ++ "." ++ payloadPart)).
  destruct (Hsigns a key data) as (signature & Hsign & Hverify).
  set (token := join_dot [headerPart; payloadPart; base64url_encode signature]).
  set (w1 := logged (CallSign a key data) w).
  destruct (claims_typed p
              (mkJWT token h p
                     (headerPart, payloadPart, base64url_encode signature) alg
                     None None None None None None None) Htyped) as (t & Hclaims).
  assert (Hparse : parseJWT token = Return (Some t)).
  { rewrite (parseJWT_claims token headerPart payloadPart (base64url_encode signature)
               (TextEncoder_encode (JSON_stringify h))
               (TextEncoder_encode (JSON_stringify p)) h props alg);
      auto; try apply Hcodec.
    - exact (f_equal Return Hclaims).
    - apply split_dot_three; apply Hcodec. }
  pose proof (claims_result _ _ _ Hclaims) as Ht. cbn in Ht.
  assert (Hfields : algorithm t = alg
                    /\ expiresAt t = date_claim "exp" p None
                    /\ notBefore t = date_claim "nbf" p None)
    by (subst t; cbn; auto).
  destruct Hfields as (Htag & Hexp & Hnbf).
  unfold JWTPayload_typed in Htyped. rewrite !andb_true_iff in Htyped.
  destruct Htyped as ((((((Hexp_typed & _) & _) & _) & Hnbf_typed) & _) & _).
  destruct (date_claim_typed "exp" p Hexp_typed) as (Hexp_date & Hexp_world).
  destruct (date_claim_typed "nbf" p Hnbf_typed) as (Hnbf_date & _).
  assert (Hafter : after_exp t w1
                   = match get_property "exp" p with Some _ => tick w1 | None => w1 end).
  { unfold after_exp. rewrite Hexp. apply Hexp_world. }
  assert (Hunexpired :
            (forall n, get_property "exp" p = Some (JNumber n) ->
                       number_ltb (now w1) (stored n) = true) ->
            forall d, expiresAt t = Some d -> number_ltb (now w1) (getTime d) = true).
  { intros Hok d Hd. rewrite Hexp, Hexp_date in Hd.
    destruct (get_property "exp" p) as [[| |n| | |]|]; try discriminate Hd.
    injection Hd as <-. now apply Hok. }
  exists token, w1. split.
  { exact (createJWT_returns key h p alg a signature w Halg Hget Hsign). }
  cbv zeta. rewrite <- Hafter. split; [|split].
  - intros Hok Hactive. exists t. eexists.
    split; [|subst t; cbn; auto].
    eapply validateJWT_accepts with (alg := a); eauto.
    + intros d Hd. rewrite Hnbf, Hnbf_date in Hd.
      destruct (get_property "nbf" p) as [[| |n| | |]|]; try discriminate Hd.
      injection Hd as <-. now apply Hactive.
    + subst t. reflexivity.
    + apply Hcodec.
    + now rewrite Htag.
  - intros n Hn Hnot.
    apply (validateJWT_expired alg key token t
             (new_Date (number_mul n (number_of_Z 1000)))); auto.
    now rewrite Hexp, Hexp_date, Hn.
  - intros Hok n Hn Hfuture.
    apply (validateJWT_inactive alg key token t
             (new_Date (number_mul n (number_of_Z 1000)))); auto.
    now rewrite Hnbf, Hnbf_date, Hn.
Qed.

(** ** What the guards of [parseJWT] let through *)

(** No claim key is a key of an array. *)
Lemma claims_array (items : list json) (j : JWT) : claims (JArray items) j = Some j.
Proof. reflexivity. Qed.

(** A payload that is [null], a boolean, a number or a string makes
    [parseJWT] return [null]. *)
Lemma parseJWT_rejects_primitive_payload
  (token part0 part1 part2 : string) (rawHeader rawPayload : bytes) (h p : json) :
  split_dot token = [part0; part1; part2] ->
  base64url_decode part0 = Return rawHeader ->
  base64url_decode part1 = Return rawPayload ->
  JSON_parse (TextDecoder_decode rawHeader) = Return h ->
  JSON_parse (TextDecoder_decode rawPayload) = Return p ->
  match p with JArray _ | JObject _ => False | _ => True end ->
  parseJWT token = Return None.
Proof.
  intros Hsplit H0 H1 Hh Hp Hprimitive. unfold parseJWT.
  rewrite Hsplit, H0, H1. cbn [bindR]. rewrite Hh. cbn [bindR].
  destruct (negb (typeof (Some h) === "object") || is_null h); [reflexivity|].
  destruct (negb (has_property "alg" h)
            || negb (isValidAlgorithm (get_property "alg" h))); [reflexivity|].
  destruct (has_property "typ" h && differs_from (get_property "typ" h) "JWT");
    [reflexivity|].
  rewrite Hp. cbn [bindR].
  destruct p; try contradiction; reflexivity.
Qed.

(** A payload that is an array passes the guard: with a header that
    passes, the token is returned with the array for payload and every
    claim field [null]. *)
Lemma parseJWT_accepts_any_array_payload
  (token part0 part1 part2 : string) (rawHeader rawPayload : bytes)
  (h : json) (items : list json) (alg : string) :
  split_dot token = [part0; part1; part2] ->
  base64url_decode part0 = Return rawHeader ->
  base64url_decode part1 = Return rawPayload ->
  JSON_parse (TextDecoder_decode rawHeader) = Return h ->
  get_property "alg" h = Some (JString alg) ->
  In alg JWTAlgorithms ->
  has_property "typ" h = false ->
  JSON_parse (TextDecoder_decode rawPayload) = Return (JArray items) ->
  parseJWT token
  = Return (Some (mkJWT token h (JArray items) (part0, part1, part2) alg
                        None None None None None None None)).
Proof.
  intros Hsplit H0 H1 Hh Halg Hin Htyp Hp. unfold parseJWT.
  rewrite Hsplit, H0, H1. cbn [bindR]. rewrite Hh. cbn [bindR].
  rewrite (get_property_has _ _ _ Halg), Halg, Htyp, Hp. cbn [bindR].
  assert (Hvalid : isValidAlgorithm (Some (JString alg)) = true).
  { apply existsb_exists. exists alg. split; [exact Hin | apply String.eqb_refl]. }
  rewrite Hvalid, claims_array.
  destruct h; try discriminate Halg; reflexivity.
Qed.

(** ** Exceptions of the collaborators pass through *)

Lemma parseJWT_header_not_JSON
  (token part0 part1 part2 : string) (rawHeader rawPayload : bytes) (e : Exception) :
  split_dot token = [part0; part1; part2] ->
  base64url_decode part0 = Return rawHeader ->
  base64url_decode part1 = Return rawPayload ->
  JSON_parse (TextDecoder_decode rawHeader) = Throw e ->
  parseJWT token = Throw e.
Proof.
  intros Hsplit H0 H1 Hh. unfold parseJWT.
  rewrite Hsplit, H0, H1. cbn [bindR]. now rewrite Hh.
Qed.

Lemma validateJWT_rethrows
  (algorithm0 : string) (key : bytes) (jwt : string) (e : Exception) (w : World) :
  parseJWT jwt = Throw e ->
  validateJWT algorithm0 key jwt w = (Throw e, w).
Proof. intros H. unfold validateJWT, bind, lift. now rewrite H. Qed.

(** What [createJWT] went through to return a token. *)
Lemma createJWT_Some (key : bytes) (h p : json) (token : string) (w w' : World) :
  createJWT key h p w = (Return token, w') ->
  exists (alg : string) (a : SigningAlgorithm) (signature : bytes),
    let headerPart := base64url_encode (TextEncoder_encode (JSON_stringify h)) in
    let payloadPart := base64url_encode (TextEncoder_encode (JSON_stringify p)) in
    let data := TextEncoder_encode (headerPart ++ "." ++ payloadPart) in
    get_property "alg" h = Some (JString alg)
    /\ In alg JWTAlgorithms
    /\ getAlgorithm alg = Return a
    /\ sign a key data = Return signature
    /\ token = join_dot [headerPart; payloadPart; base64url_encode signature]
    /\ w' = logged (CallSign a key data) w.
Proof.
  unfold createJWT, bind, lift, ret, await_sign. intros H.
  destruct (get_property "alg" h) as [[| | |alg| |]|]; try discriminate.
  destruct (getAlgorithm alg) as [a|] eqn:Ha; [|discriminate].
  match type of H with
  | context [sign a key ?d] =>
      destruct (sign a key d) as [signature|] eqn:Hs; [|discriminate]
  end.
  injection H as <- <-. exists alg, a, signature. cbv zeta.
  repeat split; auto.
  destruct (in_dec string_dec alg JWTAlgorithms) as [Hin|Hnot]; [exact Hin|].
  revert Ha. unfold getAlgorithm, JWTAlgorithms in *. cbn [In] in Hnot.
  repeat match goal with
  | |- context [?x === ?y] =>
      destruct (String.eqb_spec x y) as [->|]; [tauto|]
  end.
  discriminate.
Qed.

(** X4. When [createJWT] of [jwt.ts] returns a token: the header's
    [alg] is one of the twelve tags; the one call made is [sign] of
    that tag's primitive, on the key and the bytes of the header
    segment, a dot and the payload segment; and the token is those two
    segments and the base64url of the signature that call returned,
    joined with dots. *)
Theorem createJWT_signs_with_header_alg
  (key : bytes) (h p : json) (token : string) (w w' : World) :
  createJWT key h p w = (Return token, w') ->
  let headerPart := base64url_encode (TextEncoder_encode (JSON_stringify h)) in
  let payloadPart := base64url_encode (TextEncoder_encode (JSON_stringify p)) in
  let data := TextEncoder_encode (headerPart ++ "." ++ payloadPart) in
  exists (alg : string) (a : SigningAlgorithm) (signature : bytes),
    get_property "alg" h = Some (JString alg)
    /\ In alg JWTAlgorithms
    /\ getAlgorithm alg = Return a
    /\ sign a key data = Return signature
    /\ w' = logged (CallSign a key data) w
    /\ token = join_dot [headerPart; payloadPart; base64url_encode signature].
Proof.
  intros H. cbv zeta.
  destruct (createJWT_Some key h p token w w' H)
    as (alg & a & signature & Halg & Hin & Hget & Hsign & Htoken & Hworld).
  exists alg, a, signature. auto 10.
Qed.

(** ** Further properties of the spec

    The spec's testable properties that no claim above covers. *)

(** X1. A string that does not split on dots into exactly three parts
    makes [parseJWT] return [null]. *)
Theorem parseJWT_segment_count (token : string) :
  length (split_dot token) <> 3%nat -> parseJWT token = Return None.
Proof.
  unfold parseJWT. intros H.
  destruct (split_dot token) as [|part0 [|part1 [|part2 [|]]]]; try reflexivity.
  now destruct H.
Qed.

(** X2. A header whose [alg] is missing or is not one of the twelve
    tags makes [parseJWT] return [null]. *)
Theorem parseJWT_unsupported_alg
  (token part0 part1 part2 : string) (rawHeader rawPayload : bytes) (h : json) :
  split_dot token = [part0; part1; part2] ->
  base64url_decode part0 = Return rawHeader ->
  base64url_decode part1 = Return rawPayload ->
  JSON_parse (TextDecoder_decode rawHeader) = Return h ->
  (forall alg, get_property "alg" h = Some (JString alg) -> ~ In alg JWTAlgorithms) ->
  parseJWT token = Return None.
Proof.
  intros Hsplit H0 H1 Hh Hnot. unfold parseJWT.
  rewrite Hsplit, H0, H1. cbn [bindR]. rewrite Hh. cbn [bindR].
  destruct (negb (typeof (Some h) === "object") || is_null h); [reflexivity|].
  assert (Hvalid : isValidAlgorithm (get_property "alg" h) = false).
  { unfold isValidAlgorithm.
    destruct (get_property "alg" h) as [[| | |alg| |]|]; try reflexivity.
    destruct (existsb (String.eqb alg) JWTAlgorithms) eqn:E; [|reflexivity].
    apply existsb_eqb_In in E. now destruct (Hnot alg eq_refl). }
  rewrite Hvalid. now rewrite orb_true_r.
Qed.

(** X3. A parsed token of the expected algorithm that has not expired
    and whose [nbf] is after the current time makes [validateJWT]
    throw "Inactive JWT"; no signing primitive is called. *)
Theorem validateJWT_not_before
  (algorithm0 : string) (key : bytes) (jwt : string) (t : JWT) (date : Date)
  (w : World) :
  within_spec ->
  parseJWT jwt = Return (Some t) ->
  algorithm t = algorithm0 ->
  (forall d, expiresAt t = Some d -> number_ltb (now w) (getTime d) = true) ->
  notBefore t = Some date ->
  number_ltb (now (after_exp t w)) (getTime date) = true ->
  validateJWT algorithm0 key jwt w
  = (Throw (Error "Inactive JWT"), tick (after_exp t w))
  /\ calls (tick (after_exp t w)) = calls w.
Proof.
  intros Hwithin Hparse Halg Hexp Hnbf Hfuture. split.
  - unfold validateJWT, bind, lift, ret, throw, Date_now, after_exp in *.
    rewrite Hparse. subst algorithm0. rewrite String.eqb_refl. cbv beta iota.
    cbn [negb]. rewrite Hnbf.
    destruct (expiresAt t) as [d|].
    + rewrite Hwithin, (Hexp d eq_refl). cbn [negb]. now rewrite Hfuture.
    + now rewrite Hfuture.
  - unfold after_exp. now destruct (expiresAt t).
Qed.

(** X6. Whatever the token, the header of a token that [parseJWT]
    returns has no [typ], or has the string "JWT" for [typ]. *)
Theorem parseJWT_header_typ (token : string) (t : JWT) :
  parseJWT token = Return (Some t) ->
  has_property "typ" (header t) = false
  \/ get_property "typ" (header t) = Some (JString "JWT").
Proof.
  unfold parseJWT. intros H.
  destruct (split_dot token) as [|part0 [|part1 [|part2 [|]]]]; try discriminate.
  destruct (base64url_decode part0) as [rawHeader|]; [|discriminate].
  destruct (base64url_decode part1) as [rawPayload|]; [|discriminate].
  cbn [bindR] in H.
  destruct (JSON_parse (TextDecoder_decode rawHeader)) as [h|]; [|discriminate].
  cbn [bindR] in H.
  destruct (negb (typeof (Some h) === "object") || is_null h); [discriminate|].
  destruct (negb (has_property "alg" h)
            || negb (isValidAlgorithm (get_property "alg" h))); [discriminate|].
  destruct (has_property "typ" h) eqn:Htyp;
    destruct (differs_from (get_property "typ" h) "JWT") eqn:Hdiff;
    try discriminate H; cbn [andb] in H;
    (destruct (JSON_parse (TextDecoder_decode rawPayload)) as [p|]; [|discriminate]);
    cbn [bindR] in H;
    (destruct (negb (typeof (Some p) === "object") || is_null p); [discriminate|]);
    (destruct (get_property "alg" h) as [[| | |alg| |]|]; try discriminate);
    injection H as H; rewrite (claims_result _ _ _ H); cbn [header];
    rewrite ?Htyp; auto.
  right. unfold differs_from in Hdiff.
  destruct (get_property "typ" h) as [[|b|n|x|items|props]|]; try discriminate.
  apply negb_false_iff, String.eqb_eq in Hdiff. now subst x.
Qed.

(** X5. The algorithm table: each tag has its primitive with its hash
    (and curve), and any other string is refused. *)
Theorem getAlgorithm_table (alg : string) :
  getAlgorithm "HS256" = Return (HMAC "SHA-256")
  /\ getAlgorithm "HS384" = Return (HMAC "SHA-384")
  /\ getAlgorithm "HS512" = Return (HMAC "SHA-512")
  /\ getAlgorithm "RS256" = Return (RSASSAPKCS1v1_5 "SHA-256")
  /\ getAlgorithm "RS384" = Return (RSASSAPKCS1v1_5 "SHA-384")
  /\ getAlgorithm "RS512" = Return (RSASSAPKCS1v1_5 "SHA-512")
  /\ getAlgorithm "ES256" = Return (ECDSA "SHA-256" "P-256")
  /\ getAlgorithm "ES384" = Return (ECDSA "SHA-384" "P-384")
  /\ getAlgorithm "ES512" = Return (ECDSA "SHA-512" "P-521")
  /\ getAlgorithm "PS256" = Return (RSASSAPSS "SHA-256")
  /\ getAlgorithm "PS384" = Return (RSASSAPSS "SHA-384")
  /\ getAlgorithm "PS512" = Return (RSASSAPSS "SHA-512")
  /\ (In alg JWTAlgorithms \/ getAlgorithm alg = Throw (TypeError "Invalid algorithm")).
Proof.
  repeat (split; [reflexivity|]).
  unfold getAlgorithm, JWTAlgorithms. cbn [In].
  repeat match goal with
  | |- context [?a === ?b] =>
      destruct (String.eqb_spec a b) as [->|]; [tauto|]
  end.
  now right.
Qed.

End properties.

(** * The rest of the module

    [validateJWT] past its time checks; the claim types [parseJWT]
    enforces; [createJWTHeader] and [createJWTPayload]; and the older
    form of the module in [part_003]. *)

(** ** Objects: reading what was assigned *)

Lemma assoc_replace (key k : string) (v : json) (props : list (string * json)) :
  assoc k (replace key v props)
  = if key === k then match assoc key props with Some _ => Some v | None => None end
    else assoc k props.
Proof.
  induction props as [|[k0 x] props IH]; simpl.
  - now destruct (key === k).
  - destruct (String.eqb_spec k0 key) as [->|Hk0]; simpl.
    + now destruct (key === k).
    + rewrite IH. destruct (String.eqb_spec key k) as [->|Hk]; [|reflexivity].
      now apply String.eqb_neq in Hk0 as ->.
Qed.

Lemma assoc_insert (key k : string) (v : json) (props : list (string * json)) :
  assoc key props = None ->
  assoc k (insert key v props) = if key === k then Some v else assoc k props.
Proof.
  induction props as [|[k0 x] props IH]; simpl; intros Hnone.
  - reflexivity.
  - destruct (String.eqb_spec k0 key) as [->|Hk0]; [discriminate|].
    specialize (IH Hnone).
    assert (Hstep : assoc k ((k0, x) :: insert key v props)
                    = if key === k then Some v
                      else if k0 === k then Some x else assoc k props).
    { simpl. rewrite IH. destruct (String.eqb_spec k0 k) as [->|]; [|reflexivity].
      now apply String.eqb_neq in Hk0; rewrite String.eqb_sym, Hk0. }
    destruct (array_index key) as [i|]; [destruct (array_index k0) as [j|]|];
      try destruct (i <? j); try exact Hstep; reflexivity.
Qed.

(** Reading [k] after [object[key] = v]. *)
Lemma assoc_set_property (key k : string) (v : json) (props : list (string * json)) :
  assoc k (set_property key v props) = if key === k then Some v else assoc k props.
Proof.
  unfold set_property. destruct (assoc key props) as [x|] eqn:E.
  - rewrite assoc_replace, E. reflexivity.
  - now apply assoc_insert.
Qed.

Lemma assoc_app (k : string) (l1 l2 : list (string * json)) :
  assoc k (l1 ++ l2) = match assoc k l1 with Some v => Some v | None => assoc k l2 end.
Proof.
  induction l1 as [|[k1 y] l1 IH]; simpl; [reflexivity|].
  destruct (k1 === k); [reflexivity | exact IH].
Qed.

(** Reading [k] in [{ ...target, ...source }]: the last value [source]
    has for [k], or that of [target]. *)
Lemma assoc_spread (k : string) (source target : list (string * json)) :
  assoc k (part_003.spread source target)
  = match assoc k (rev source) with
    | Some v => Some v
    | None => assoc k target
    end.
Proof.
  unfold part_003.spread. revert target.
  induction source as [|[k0 x] source IH]; intros target; simpl; [reflexivity|].
  rewrite IH, assoc_set_property, assoc_app. simpl.
  destruct (assoc k (rev source)); [reflexivity|].
  now destruct (k0 === k).
Qed.

(** In a list without a repeated key, the last value is the first. *)
Lemma assoc_rev (k : string) (props : list (string * json)) :
  NoDup (map fst props) -> assoc k (rev props) = assoc k props.
Proof.
  induction props as [|[k0 x] props IH]; simpl; intros Hnodup; [reflexivity|].
  inversion Hnodup as [|? ? Hnotin Hrest]; subst.
  rewrite assoc_app, (IH Hrest). simpl.
  destruct (String.eqb_spec k0 k) as [->|].
  - assert (Hnone : assoc k props = None).
    { clear -Hnotin. induction props as [|[k1 y] props IHp]; simpl in *; [reflexivity|].
      destruct (String.eqb_spec k1 k) as [->|]; [tauto|]. apply IHp. tauto. }
    now rewrite Hnone.
  - now destruct (assoc k props).
Qed.

(** A key that the list does not have is not in the reversed list. *)
Lemma assoc_rev_None (k : string) (props : list (string * json)) :
  assoc k props = None -> assoc k (rev props) = None.
Proof.
  induction props as [|[k0 x] props IH]; simpl; [reflexivity|].
  destruct (k0 === k) eqn:E; [discriminate|]. intros H.
  rewrite assoc_app, (IH H). simpl. now rewrite E.
Qed.

(** ** Whole seconds *)

Lemma whole_seconds_of_Z (t : Z) : whole_seconds (number_of_Z t) = number_of_Z (t / 1000).
Proof.
  unfold whole_seconds, number_div1000, number_of_Z, Math_floor. reflexivity.
Qed.

Lemma denotes_of_Z (z : Z) : denotes (number_of_Z z) z.
Proof. unfold denotes, number_of_Z. cbn. lia. Qed.


(** ** The pieces of a split *)

Lemma split_dot_dotless (s : string) : Forall dotless (split_dot s).
Proof.
  induction s as [|c s IH]; simpl.
  - constructor; [reflexivity | constructor].
  - destruct (Ascii.eqb c ".") eqn:Hc.
    + constructor; [reflexivity | exact IH].
    + destruct (split_dot s) as [|piece pieces].
      * constructor; [|constructor]. unfold dotless. simpl. now rewrite Hc.
      * inversion IH as [|? ? Hpiece Hrest]; subst.
        constructor; [|exact Hrest].
        now apply base64url_facts.dotless_String.
Qed.

(** X22. [getJWTParts] of [part_003] returns the three parts [a], [b],
    [c] exactly when the string is [a], [b] and [c] joined with dots
    and none of them has a dot; any other string gives [null]. *)
Theorem getJWTParts_three (jwt a b c : string) :
  part_003_parse.getJWTParts jwt = Some (a, b, c)
  <-> jwt = a ++ "." ++ b ++ "." ++ c /\ dotless a /\ dotless b /\ dotless c.
Proof.
  unfold part_003_parse.getJWTParts. split.
  - intros H. pose proof (join_split_dot jwt) as Hjoin.
    pose proof (split_dot_dotless jwt) as Hdot.
    destruct (split_dot jwt) as [|p0 [|p1 [|p2 [|]]]]; try discriminate.
    injection H as -> -> ->. rewrite <- Hjoin. clear Hjoin.
    inversion Hdot as [|? ? Ha Hdot1]; subst.
    inversion Hdot1 as [|? ? Hb Hdot2]; subst.
    inversion Hdot2 as [|? ? Hc _]; subst.
    repeat split; assumption.
  - intros (-> & Ha & Hb & Hc).
    change (a ++ "." ++ b ++ "." ++ c) with (join_dot [a; b; c]).
    now rewrite split_dot_three.
Qed.

Ltac block_typed E key p :=
  unfold typed; claim_block E key p; reflexivity.

Ltac read_options :=
  cbn [optional payload_options.expiresIn payload_options.issuer
       payload_options.subject payload_options.audiences payload_options.notBefore
       payload_options.includeIssuedTimestamp payload_options.jwtId
       entry when_true count app ticks] in *.

Ltac each_option options :=
  let e := fresh "e" in let i := fresh "i" in let s := fresh "s" in
  let a := fresh "a" in let n := fresh "n" in let j := fresh "j" in
  destruct options as [[e i s a n [[|]|] j]|];
  try (destruct e, i, s, a, n, j).

Ltac each_old_option options :=
  let h := fresh "h" in
  let e := fresh "e" in let i := fresh "i" in let s := fresh "s" in
  let a := fresh "a" in let n := fresh "n" in let j := fresh "j" in
  destruct options as [[h e i s a n [[|]|] j]|];
  try (destruct e, i, s, a, n, j).

Section coverage.
Context {codec : Base64url} {host : Host} {crypto : Crypto} {index : Index}.

(** [TimeSpan] and its [seconds()], of [../index.js]. *)
Variable TimeSpan : Type.
Variable seconds : TimeSpan -> number.

(** ** [validateJWT], past the time checks *)

(** What [validateJWT] went through to return a token. *)
Lemma validateJWT_Some
  (algorithm0 : string) (key : bytes) (jwt : string) (t : JWT) (w w' : World) :
  validateJWT algorithm0 key jwt w = (Return t, w') ->
  parseJWT jwt = Return (Some t)
  /\ algorithm t = algorithm0
  /\ exists (w1 w2 : World) (call : Event),
       match expiresAt t with
       | Some date => isWithinExpirationDate date w = (Return true, w1)
       | None => w1 = w
       end
       /\ match notBefore t with
          | Some date => number_ltb (now w1) (getTime date) = false /\ w2 = tick w1
          | None => w2 = w1
          end
       /\ verification key t true call
       /\ w' = logged call w2.
Proof.
  unfold validateJWT, bind, lift, ret, throw, Date_now, await_verify. intros H.
  destruct (parseJWT jwt) as [[t0|]|] eqn:Hparse; try discriminate.
  destruct (String.eqb_spec (algorithm t0) algorithm0) as [Halg|]; [|discriminate].
  cbn [negb] in H. unfold verification.
  destruct (expiresAt t0) as [date|] eqn:Hexp;
    [ destruct (isWithinExpirationDate date w) as [[[|]|] w1] eqn:Hw;
      try discriminate H
    | ];
    cbn [negb] in H; cbv beta iota in H;
    (destruct (notBefore t0) as [date'|] eqn:Hnbf; cbv beta iota in H;
     [ match type of H with
       | context [number_ltb ?a ?b] =>
           destruct (number_ltb a b) eqn:Hlt; cbv beta iota in H;
           try discriminate H
       end
     | ]);
    destruct (parts t0) as [[part0 part1] part2] eqn:Hparts;
    (destruct (base64url_decode part2) as [signature|] eqn:Hsig; [|discriminate]);
    (destruct (getAlgorithm (algorithm t0)) as [alg|] eqn:Hget; [|discriminate]);
    (destruct (verify alg key signature (TextEncoder_encode (part0 ++ "." ++ part1)))
       as [[|]|] eqn:Hverify; cbn [negb] in H; cbv beta iota in H;
     try discriminate H);
    injection H as <- <-;
    (split; [reflexivity|]); (split; [exact Halg|]);
    rewrite Hparts, Hexp, Hnbf;
    eexists; eexists; eexists;
    (split; [first [exact Hw | reflexivity]|]);
    (split; [first [split; [exact Hlt | reflexivity] | reflexivity]|]);
    (split; [exists signature, alg; auto | reflexivity]).
Qed.

(** X7. [validateJWT] returns a token only after its signature has
    verified: the token is the one [parseJWT] gives, its algorithm is
    the expected one, the signature segment decoded, and the last thing
    done was the call of the algorithm's [verify] on the key, that
    signature and the first two segments, which answered [true].  With
    the clock helper as the spec has it, [validateJWT] returns [t]
    exactly when [parseJWT] gives [t], its algorithm is the expected
    one, the clock is before its [expiresAt] and not before its
    [notBefore] (where it has them), and that call answered [true]. *)
Theorem validateJWT_returns_verified
  (algorithm0 : string) (key : bytes) (jwt : string) (t : JWT) (w w' : World) :
  (validateJWT algorithm0 key jwt w = (Return t, w') ->
   parseJWT jwt = Return (Some t)
   /\ algorithm t = algorithm0
   /\ exists (call : Event) (w0 : World),
        verification key t true call /\ w' = logged call w0)
  /\ (within_spec ->
      (validateJWT algorithm0 key jwt w = (Return t, w')
       <-> parseJWT jwt = Return (Some t)
           /\ algorithm t = algorithm0
           /\ (forall date, expiresAt t = Some date ->
                            number_ltb (now w) (getTime date) = true)
           /\ (forall date, notBefore t = Some date ->
                            number_ltb (now (after_exp t w)) (getTime date) = false)
           /\ exists call : Event,
                verification key t true call
                /\ w' = logged call (after_nbf t (after_exp t w)))).
Proof.
  split.
  - intros H. apply validateJWT_Some in H
      as (Hparse & Halg & w1 & w2 & call & _ & _ & Hcall & Hw').
    repeat split; auto. now exists call, w2.
  - intros Hwithin. split.
    + intros H. apply validateJWT_Some in H
        as (Hparse & Halg & w1 & w2 & call & Hexp & Hnbf & Hcall & Hw').
      split; [exact Hparse|]. split; [exact Halg|].
      unfold after_nbf, after_exp.
      destruct (expiresAt t) as [date|].
      * rewrite Hwithin in Hexp. injection Hexp as Hlt <-.
        split; [now intros d [= <-]|].
        destruct (notBefore t) as [date'|].
        -- destruct Hnbf as (Hnot & ->).
           split; [now intros d [= <-]|]. now exists call.
        -- subst w2. split; [discriminate|]. now exists call.
      * subst w1. split; [discriminate|].
        destruct (notBefore t) as [date'|].
        -- destruct Hnbf as (Hnot & ->).
           split; [now intros d [= <-]|]. now exists call.
        -- subst w2. split; [discriminate|]. now exists call.
    + intros (Hparse & Halg & Hexp & Hnbf & call & Hcall & ->).
      unfold verification in Hcall.
      destruct (parts t) as [[part0 part1] part2] eqn:Hparts.
      destruct Hcall as (signature & alg & Hsig & Hget & Hverify & ->).
      now apply (validateJWT_accepts algorithm0 key jwt t w part0 part1 part2).
Qed.

(** X8. For a parsed token of the expected algorithm inside its time
    window: a signature segment that the codec refuses makes
    [validateJWT] throw the codec's exception, no primitive called; a
    signature on which [verify] answers [false] makes it throw "Invalid
    signature"; an exception of [verify] passes through. *)
Theorem validateJWT_signature_rejected
  (algorithm0 : string) (key : bytes) (jwt : string) (t : JWT) (w : World) :
  within_spec ->
  parseJWT jwt = Return (Some t) ->
  algorithm t = algorithm0 ->
  (forall date, expiresAt t = Some date ->
                number_ltb (now w) (getTime date) = true) ->
  (forall date, notBefore t = Some date ->
                number_ltb (now (after_exp t w)) (getTime date) = false) ->
  let w0 := after_nbf t (after_exp t w) in
  let '(part0, part1, part2) := parts t in
  let data := TextEncoder_encode (part0 ++ "." ++ part1) in
  (forall e : Exception,
     base64url_decode part2 = Throw e ->
     validateJWT algorithm0 key jwt w = (Throw e, w0))
  /\ (forall (signature : bytes) (alg : SigningAlgorithm),
        base64url_decode part2 = Return signature ->
        getAlgorithm (algorithm t) = Return alg ->
        (verify alg key signature data = Return false ->
         validateJWT algorithm0 key jwt w
         = (Throw (Error "Invalid signature"),
            logged (CallVerify alg key signature data) w0))
        /\ (forall e : Exception,
              verify alg key signature data = Throw e ->
              validateJWT algorithm0 key jwt w
              = (Throw e, logged (CallVerify alg key signature data) w0))).
Proof.
  intros Hwithin Hparse Halg Hexp Hnbf.
  assert (Hrun : validateJWT algorithm0 key jwt w
                 = (let '(part0, part1, part2) := parts t in
                    signature <- lift (base64url_decode part2) ;;
                    alg <- lift (getAlgorithm (algorithm t)) ;;
                    validSignature <- await_verify alg key signature
                                        (TextEncoder_encode (part0 ++ "." ++ part1)) ;;
                    if negb validSignature then throw (Error "Invalid signature")
                    else ret t)%async (after_nbf t (after_exp t w))).
  { unfold validateJWT, bind, lift, ret, throw, Date_now, after_nbf, after_exp in *.
    rewrite Hparse. subst algorithm0. rewrite String.eqb_refl. cbv beta iota.
    cbn [negb].
    destruct (expiresAt t) as [date|].
    - rewrite Hwithin, (Hexp date eq_refl). cbn [negb].
      destruct (notBefore t) as [date'|].
      + rewrite (Hnbf date' eq_refl). now destruct (parts t) as [[? ?] ?].
      + now destruct (parts t) as [[? ?] ?].
    - destruct (notBefore t) as [date'|].
      + rewrite (Hnbf date' eq_refl). now destruct (parts t) as [[? ?] ?].
      + now destruct (parts t) as [[? ?] ?]. }
  rewrite Hrun. clear Hrun.
  destruct (parts t) as [[part0 part1] part2]. cbv zeta.
  unfold bind, lift, ret, throw, await_verify. split.
  - now intros e ->.
  - intros signature alg -> ->. split.
    + now intros ->.
    + now intros e ->.
Qed.

(** X9. The not-before check, in terms of the claim.  For a parsed
    token of the expected algorithm that has not expired and whose
    [nbf] is the integer [z]: when [z * 1000] is a time a [Date] can
    hold and the clock is before it, [validateJWT] throws "Inactive
    JWT"; when the clock has reached [z * 1000], or when [z * 1000] is
    beyond the range of [Date] (the date is invalid and compares
    [false]), the check passes and a token whose signature verifies is
    returned. *)
Theorem validateJWT_not_before_claim
  (algorithm0 : string) (key : bytes) (jwt : string) (t : JWT) (n : number) (z : Z)
  (w : World) :
  within_spec ->
  parseJWT jwt = Return (Some t) ->
  algorithm t = algorithm0 ->
  (forall date, expiresAt t = Some date ->
                number_ltb (now w) (getTime date) = true) ->
  get_property "nbf" (payload t) = Some (JNumber n) ->
  denotes n z ->
  let w1 := after_exp t w in
  (Z.abs (z * 1000) <= maxTime ->
   clock w1 (reads w1) < z * 1000 ->
   validateJWT algorithm0 key jwt w = (Throw (Error "Inactive JWT"), tick w1))
  /\ (z * 1000 <= clock w1 (reads w1) \/ maxTime < Z.abs (z * 1000) ->
      forall call : Event,
        verification key t true call ->
        validateJWT algorithm0 key jwt w = (Return t, logged call (tick w1))).
Proof.
  intros Hwithin Hparse Halg Hexp Hn Hz w1.
  assert (Hdate : notBefore t = Some (new_Date (number_mul n (number_of_Z 1000)))).
  { destruct (parseJWT_fields jwt t Hparse) as (_ & _ & _ & _ & Hfield & _).
    rewrite Hfield. unfold date_claim. now rewrite Hn. }
  split.
  - intros Hrange Hbefore.
    rewrite (new_Date_seconds n z Hz Hrange) in Hdate.
    unfold validateJWT, bind, lift, ret, throw, Date_now.
    rewrite Hparse. subst algorithm0. rewrite String.eqb_refl. cbv beta iota.
    cbn [negb]. rewrite Hdate. subst w1. unfold after_exp in *.
    assert (Hlt : forall w', clock w' (reads w') < z * 1000 ->
                    number_ltb (now w') (getTime (mkDate (number_of_Z (z * 1000)))) = true).
    { intros w' Hw'. unfold now. cbn [getTime]. rewrite number_ltb_of_Z.
      now apply Z.ltb_lt. }
    destruct (expiresAt t) as [d|].
    + rewrite Hwithin, (Hexp d eq_refl). cbn [negb]. now rewrite (Hlt _ Hbefore).
    + now rewrite (Hlt _ Hbefore).
  - intros Hcase call Hcall.
    unfold verification in Hcall.
    destruct (parts t) as [[part0 part1] part2] eqn:Hparts.
    destruct Hcall as (signature & alg & Hsig & Hget & Hverify & ->).
    assert (Hnot : number_ltb (now w1)
                     (getTime (new_Date (number_mul n (number_of_Z 1000)))) = false).
    { destruct (Z.le_gt_cases (Z.abs (z * 1000)) maxTime) as [Hrange|Hrange].
      - rewrite (new_Date_seconds n z Hz Hrange). unfold now. cbn [getTime].
        rewrite number_ltb_of_Z. apply Z.ltb_ge. lia.
      - rewrite (new_Date_out_of_range n z Hz Hrange). reflexivity. }
    rewrite (validateJWT_accepts algorithm0 key jwt t w part0 part1 part2 signature alg);
      auto.
    + unfold after_nbf. now rewrite Hdate.
    + intros date Hd. rewrite Hdate in Hd. now injection Hd as <-.
Qed.

(** ** The claim types [parseJWT] enforces *)

Lemma claims_Some_typed (p : json) (j t : JWT) :
  claims p j = Some t -> JWTPayload_typed p = true.
Proof.
  unfold claims, and_then. intros H.
  destruct (claim_exp p j) as [j1|] eqn:E1; [|discriminate].
  destruct (claim_iss p j1) as [j2|] eqn:E2; [|discriminate].
  destruct (claim_sub p j2) as [j3|] eqn:E3; [|discriminate].
  destruct (claim_aud p j3) as [j4|] eqn:E4; [|discriminate].
  destruct (claim_nbf p j4) as [j5|] eqn:E5; [|discriminate].
  destruct (claim_iat p j5) as [j6|] eqn:E6; [|discriminate].
  unfold JWTPayload_typed. rewrite !andb_true_iff. repeat split.
  - unfold claim_exp in E1. block_typed E1 "exp" p.
  - unfold claim_iss in E2. block_typed E2 "iss" p.
  - unfold claim_aud in E4. unfold typed. claim_block E4 "aud" p; try reflexivity.
    simpl. now destruct (strings_of items).
  - unfold claim_jti in H. block_typed H "jti" p.
  - unfold claim_nbf in E5. block_typed E5 "nbf" p.
  - unfold claim_sub in E3. block_typed E3 "sub" p.
  - unfold claim_iat in E6. block_typed E6 "iat" p.
Qed.

(** The claim blocks go through exactly on a payload typed as
    [JWTPayload] declares, and then set each field from its claim. *)
Lemma claims_spec (p : json) (j : JWT) :
  claims p j
  = if JWTPayload_typed p
    then Some (mkJWT (value j) (header j) (payload j) (parts j) (algorithm j)
                 (date_claim "exp" p (expiresAt j)) (string_claim "iss" p (issuer j))
                 (string_claim "sub" p (subject j)) (aud_claim p (audiences j))
                 (date_claim "nbf" p (notBefore j)) (date_claim "iat" p (issuedAt j))
                 (string_claim "jti" p (jwtId j)))
    else None.
Proof.
  destruct (JWTPayload_typed p) eqn:Htyped.
  - destruct (claims_typed p j Htyped) as (t & Ht).
    rewrite Ht. f_equal. now apply claims_result.
  - destruct (claims p j) as [t|] eqn:Ht; [|reflexivity].
    apply claims_Some_typed in Ht. congruence.
Qed.

(** X10. For a token whose header has a supported [alg] and no [typ]
    other than "JWT" and whose payload is an object: [parseJWT]
    returns a token exactly when every registered claim the payload has
    is of the type [JWTPayload] declares ([exp], [nbf], [iat] numbers;
    [iss], [sub], [jti] strings; [aud] a string or an array of
    strings), and [null] otherwise.  The token returned has the parsed
    header and payload and each field read from its claim. *)
Theorem parseJWT_claim_types
  (token part0 part1 part2 : string) (rawHeader rawPayload : bytes)
  (h : json) (props : list (string * json)) (alg : string) :
  split_dot token = [part0; part1; part2] ->
  base64url_decode part0 = Return rawHeader ->
  base64url_decode part1 = Return rawPayload ->
  JSON_parse (TextDecoder_decode rawHeader) = Return h ->
  JSON_parse (TextDecoder_decode rawPayload) = Return (JObject props) ->
  get_property "alg" h = Some (JString alg) ->
  In alg JWTAlgorithms ->
  has_property "typ" h = false \/ get_property "typ" h = Some (JString "JWT") ->
  let p := JObject props in
  parseJWT token
  = Return (if JWTPayload_typed p
            then Some (mkJWT token h p (part0, part1, part2) alg
                         (date_claim "exp" p None) (string_claim "iss" p None)
                         (string_claim "sub" p None) (aud_claim p None)
                         (date_claim "nbf" p None) (date_claim "iat" p None)
                         (string_claim "jti" p None))
            else None).
Proof.
  intros Hsplit H0 H1 Hh Hp Halg Hin Htyp p. unfold parseJWT.
  rewrite Hsplit, H0, H1. cbn [bindR]. rewrite Hh. cbn [bindR].
  rewrite (get_property_has _ _ _ Halg), Halg, Hp. cbn [bindR].
  assert (Hvalid : isValidAlgorithm (Some (JString alg)) = true).
  { apply existsb_exists. exists alg. split; [exact Hin | apply String.eqb_refl]. }
  rewrite Hvalid.
  assert (Hpass : has_property "typ" h && differs_from (get_property "typ" h) "JWT"
                  = false).
  { destruct Htyp as [-> | ->]; [reflexivity|].
    cbn [differs_from]. now rewrite String.eqb_refl, andb_false_r. }
  rewrite Hpass, claims_spec.
  destruct h; try discriminate Halg; reflexivity.
Qed.

(** X11. For a token that [parseJWT] returns, an [iss], [sub] or [jti]
    that is a string is the token's [issuer], [subject] or [jwtId]; a
    claim the payload does not have leaves the field [null]. *)
Theorem parseJWT_string_claims (token : string) (t : JWT) :
  parseJWT token = Return (Some t) ->
  let stored (key : string) (field : option string) :=
    (forall s : string,
       get_property key (payload t) = Some (JString s) -> field = Some s)
    /\ (has_property key (payload t) = false -> field = None) in
  stored "iss" (issuer t) /\ stored "sub" (subject t) /\ stored "jti" (jwtId t).
Proof.
  intros H.
  destruct (parseJWT_fields token t H) as (_ & Hiss & Hsub & _ & _ & _ & Hjti).
  rewrite Hiss, Hsub, Hjti. unfold string_claim.
  repeat split.
  all: try (intros s ->; reflexivity).
  all: intros Hhas;
    match goal with
    | |- context [get_property ?k ?p] =>
        destruct (get_property k p) eqn:Hget; [|reflexivity];
        apply get_property_has in Hget; congruence
    end.
Qed.

(** X12. [parseJWT] does not look at the signature segment: on two
    tokens with the same first two segments it gives the same outcome,
    and the same token but for [value] and the third part. *)
Theorem parseJWT_ignores_signature (a b c c' : string) :
  dotless a -> dotless b -> dotless c -> dotless c' ->
  parseJWT (join_dot [a; b; c'])
  = (r <- parseJWT (join_dot [a; b; c]) ;;
     Return (option_map (with_signature c') r))%result.
Proof.
  intros Ha Hb Hc Hc'. unfold parseJWT.
  rewrite !split_dot_three by assumption.
  destruct (base64url_decode a) as [rawHeader|]; [|reflexivity].
  destruct (base64url_decode b) as [rawPayload|]; [|reflexivity].
  cbn [bindR].
  destruct (JSON_parse (TextDecoder_decode rawHeader)) as [h|]; [|reflexivity].
  cbn [bindR].
  destruct (negb (typeof (Some h) === "object") || is_null h); [reflexivity|].
  destruct (negb (has_property "alg" h)
            || negb (isValidAlgorithm (get_property "alg" h))); [reflexivity|].
  destruct (has_property "typ" h && differs_from (get_property "typ" h) "JWT");
    [reflexivity|].
  destruct (JSON_parse (TextDecoder_decode rawPayload)) as [p|]; [|reflexivity].
  cbn [bindR].
  destruct (negb (typeof (Some p) === "object") || is_null p); [reflexivity|].
  destruct (get_property "alg" h) as [[| | |alg| |]|]; try reflexivity.
  rewrite !claims_spec. cbn [bindR].
  now destruct (JWTPayload_typed p).
Qed.

(** X28. A header segment that the codec refuses, or a payload segment
    that it refuses after the header segment decoded, makes [parseJWT]
    throw the codec's exception, not return [null], whatever the
    header is; [validateJWT] passes the exception on and leaves the
    world as it was. *)
Theorem parseJWT_segment_not_decoded
  (token part0 part1 part2 : string) (e : Exception)
  (algorithm0 : string) (key : bytes) (w : World) :
  split_dot token = [part0; part1; part2] ->
  base64url_decode part0 = Throw e
  \/ (exists rawHeader, base64url_decode part0 = Return rawHeader
                        /\ base64url_decode part1 = Throw e) ->
  parseJWT token = Throw e
  /\ validateJWT algorithm0 key token w = (Throw e, w).
Proof.
  intros Hsplit Hcase.
  assert (Hparse : parseJWT token = Throw e).
  { unfold parseJWT. rewrite Hsplit.
    destruct Hcase as [-> | (rawHeader & -> & ->)]; reflexivity. }
  split; [exact Hparse|].
  unfold validateJWT, bind, lift. now rewrite Hparse.
Qed.

(** X13. A header that parses to anything but an object (an array, a
    string, a number, a boolean, [null]) makes [parseJWT] return
    [null]. *)
Theorem parseJWT_header_not_object
  (token part0 part1 part2 : string) (rawHeader rawPayload : bytes) (h : json) :
  split_dot token = [part0; part1; part2] ->
  base64url_decode part0 = Return rawHeader ->
  base64url_decode part1 = Return rawPayload ->
  JSON_parse (TextDecoder_decode rawHeader) = Return h ->
  (forall props, h <> JObject props) ->
  parseJWT token = Return None.
Proof.
  intros Hsplit H0 H1 Hh Hnot. unfold parseJWT.
  rewrite Hsplit, H0, H1. cbn [bindR]. rewrite Hh. cbn [bindR].
  destruct h as [| | | |items|props]; try reflexivity.
  now destruct (Hnot props).
Qed.

(** ** The algorithms *)

Lemma getAlgorithm_refuses (alg : string) :
  ~ In alg JWTAlgorithms -> getAlgorithm alg = Throw (TypeError "Invalid algorithm").
Proof.
  unfold getAlgorithm, JWTAlgorithms. cbn [In]. intros Hnot.
  repeat match goal with
  | |- context [?a === ?b] =>
      destruct (String.eqb_spec a b) as [->|]; [tauto|]
  end.
  reflexivity.
Qed.

(** X14. [isValidAlgorithm] accepts exactly the strings for which
    [getAlgorithm] returns a primitive: what [parseJWT] lets through,
    [validateJWT] and [createJWT] can look up. *)
Theorem isValidAlgorithm_getAlgorithm (v : option json) :
  isValidAlgorithm v = true
  <-> exists (alg : string) (a : SigningAlgorithm),
        v = Some (JString alg) /\ getAlgorithm alg = Return a.
Proof.
  split.
  - unfold isValidAlgorithm.
    destruct v as [[| | |alg| |]|]; try discriminate.
    intros H. apply existsb_eqb_In in H.
    destruct (getAlgorithm_supported alg H) as (a & Ha). now exists alg, a.
  - intros (alg & a & -> & Ha). cbn [isValidAlgorithm].
    destruct (existsb (String.eqb alg) JWTAlgorithms) eqn:E; [reflexivity|].
    assert (Hnot : ~ In alg JWTAlgorithms).
    { intros Hin. assert (existsb (String.eqb alg) JWTAlgorithms = true); [|congruence].
      apply existsb_exists. exists alg. split; [exact Hin | apply String.eqb_refl]. }
    rewrite (getAlgorithm_refuses alg Hnot) in Ha. discriminate.
Qed.

(** X15. [createJWT] on a header whose [alg] is missing, not a string,
    or not one of the twelve tags throws a [TypeError], "Invalid
    algorithm", and leaves the world as it was: nothing is signed.
    An exception of the primitive's [sign] passes through. *)
Theorem createJWT_throws
  (key : bytes) (props : list (string * json)) (p : json) (w : World) :
  ((forall alg, get_property "alg" (JObject props) = Some (JString alg) ->
                ~ In alg JWTAlgorithms) ->
   createJWT key (JObject props) p w = (Throw (TypeError "Invalid algorithm"), w))
  /\ (forall (alg : string) (a : SigningAlgorithm) (e : Exception),
        get_property "alg" (JObject props) = Some (JString alg) ->
        getAlgorithm alg = Return a ->
        let data :=
          TextEncoder_encode
            (join_dot
               [base64url_encode (TextEncoder_encode (JSON_stringify (JObject props)));
                base64url_encode (TextEncoder_encode (JSON_stringify p))]) in
        sign a key data = Throw e ->
        createJWT key (JObject props) p w = (Throw e, logged (CallSign a key data) w)).
Proof.
  split.
  - intros Hnot. unfold createJWT, bind, lift.
    destruct (get_property "alg" (JObject props)) as [[| | |alg| |]|]; try reflexivity.
    now rewrite (getAlgorithm_refuses alg (Hnot alg eq_refl)).
  - intros alg a e Halg Hget data Hsign.
    unfold createJWT, bind, lift, await_sign. rewrite Halg, Hget.
    fold data. now rewrite Hsign.
Qed.

(** ** [parseJWT] after [createJWT] *)

(** What [parseJWT] makes of a token that [createJWT] returned. *)
Lemma createJWT_parses
  (key : bytes) (h : json) (props : list (string * json)) (token : string)
  (w w' : World) :
  codec_round_trips ->
  serializes h ->
  serializes (JObject props) ->
  has_property "typ" h = false \/ get_property "typ" h = Some (JString "JWT") ->
  createJWT key h (JObject props) w = (Return token, w') ->
  let p := JObject props in
  let headerPart := base64url_encode (TextEncoder_encode (JSON_stringify h)) in
  let payloadPart := base64url_encode (TextEncoder_encode (JSON_stringify p)) in
  let data := TextEncoder_encode (headerPart ++ "." ++ payloadPart) in
  exists (alg : string) (a : SigningAlgorithm) (signature : bytes),
    get_property "alg" h = Some (JString alg)
    /\ getAlgorithm alg = Return a
    /\ sign a key data = Return signature
    /\ parseJWT token
       = Return (if JWTPayload_typed p
                 then Some (mkJWT token h p
                              (headerPart, payloadPart, base64url_encode signature) alg
                              (date_claim "exp" p None) (string_claim "iss" p None)
                              (string_claim "sub" p None) (aud_claim p None)
                              (date_claim "nbf" p None) (date_claim "iat" p None)
                              (string_claim "jti" p None))
                 else None).
Proof.
  intros Hcodec Hheader Hpayload Htyp Hcreate p headerPart payloadPart data.
  apply createJWT_Some in Hcreate
    as (alg & a & signature & Halg & Hin & Hget & Hsign & -> & _).
  exists alg, a, signature. repeat split; auto.
  unfold parseJWT.
  rewrite split_dot_three by apply Hcodec.
  rewrite !(proj1 (Hcodec _)). cbn [bindR].
  unfold serializes in Hheader, Hpayload. rewrite Hheader. cbn [bindR].
  rewrite (get_property_has _ _ _ Halg), Halg, Hpayload. cbn [bindR].
  assert (Hvalid : isValidAlgorithm (Some (JString alg)) = true).
  { apply existsb_exists. exists alg. split; [exact Hin | apply String.eqb_refl]. }
  rewrite Hvalid.
  assert (Hpass : has_property "typ" h && differs_from (get_property "typ" h) "JWT"
                  = false).
  { destruct Htyp as [-> | ->]; [reflexivity|].
    cbn [differs_from]. now rewrite String.eqb_refl, andb_false_r. }
  rewrite Hpass, claims_spec.
  destruct h; try discriminate Halg; reflexivity.
Qed.

(** X16. [parseJWT] on a token that [createJWT] returned, when the
    codec round-trips and the header and the payload survive
    serialization: with a payload typed as [JWTPayload] declares, the
    token comes back with the header and the payload that were given,
    whatever its [exp] and [nbf]; with a claim of another type, which
    [createJWT] does not check, [parseJWT] returns [null]. *)
Theorem createJWT_parseJWT
  (key : bytes) (h : json) (props : list (string * json)) (token : string)
  (w w' : World) :
  codec_round_trips ->
  serializes h ->
  serializes (JObject props) ->
  has_property "typ" h = false \/ get_property "typ" h = Some (JString "JWT") ->
  createJWT key h (JObject props) w = (Return token, w') ->
  (JWTPayload_typed (JObject props) = true ->
   exists t : JWT,
     parseJWT token = Return (Some t)
     /\ value t = token
     /\ header t = h
     /\ payload t = JObject props
     /\ get_property "alg" h = Some (JString (algorithm t)))
  /\ (JWTPayload_typed (JObject props) = false -> parseJWT token = Return None).
Proof.
  intros Hcodec Hheader Hpayload Htyp Hcreate.
  destruct (createJWT_parses key h props token w w'
              Hcodec Hheader Hpayload Htyp Hcreate)
    as (alg & a & signature & Halg & _ & _ & ->).
  split; intros ->; [|reflexivity].
  eexists. split; [reflexivity|]. cbn. auto.
Qed.

(** ** [createJWTPayload] *)

(** [createJWTPayload] returns, with the payload [payload_entries]
    lists, having read the clock once for [exp] and once for [iat]. *)
Lemma createJWTPayload_returns
  (options : option (payload_options.Options TimeSpan)) (w : World) :
  createJWTPayload TimeSpan seconds options w
  = (Return (JObject (payload_entries seconds options w)),
     ticks (count (when_true (optional TimeSpan options
                              payload_options.includeIssuedTimestamp)))
           (ticks (count (optional TimeSpan options payload_options.expiresIn)) w)).
Proof. each_option options; reflexivity. Qed.

(** The claims that do not depend on the clock. *)
Lemma payload_entries_claims
  (options : option (payload_options.Options TimeSpan)) (w : World) :
  let p := JObject (payload_entries seconds options w) in
  JWTPayload_typed p = true
  /\ get_property "iss" p
     = option_map JString (optional TimeSpan options payload_options.issuer)
  /\ get_property "sub" p
     = option_map JString (optional TimeSpan options payload_options.subject)
  /\ get_property "jti" p
     = option_map JString (optional TimeSpan options payload_options.jwtId)
  /\ get_property "aud" p
     = option_map (fun aud => JArray (map JString aud))
         (optional TimeSpan options payload_options.audiences).
Proof.
  unfold payload_entries.
  each_option options; read_options;
    (split; [unfold JWTPayload_typed, typed;
             cbn [get_property assoc String.eqb Ascii.eqb Bool.eqb
                  is_number is_string is_audience andb];
             rewrite ?strings_of_map; reflexivity|]);
    repeat split; reflexivity.
Qed.

Lemma payload_entries_NoDup (options : option (payload_options.Options TimeSpan))
  (w : World) :
  NoDup (map fst (payload_entries seconds options w)).
Proof.
  unfold payload_entries. each_option options; read_options; cbn [map fst];
    repeat constructor; cbn [In]; intuition discriminate.
Qed.

(** X17. [createJWTPayload] always returns an object, typed as
    [JWTPayload] declares; it calls no signing primitive and reads the
    clock once if [expiresIn] is set and once more if
    [includeIssuedTimestamp] is [true]; [iss], [sub], [jti] and [aud]
    are the options' [issuer], [subject], [jwtId] and [audiences], and
    are absent when the option is. *)
Theorem createJWTPayload_claims
  (options : option (payload_options.Options TimeSpan)) (w : World) :
  exists (props : list (string * json)) (w' : World),
    createJWTPayload TimeSpan seconds options w = (Return (JObject props), w')
    /\ calls w' = calls w
    /\ reads w'
       = (reads w + count (optional TimeSpan options payload_options.expiresIn)
          + count (when_true (optional TimeSpan options
                              payload_options.includeIssuedTimestamp)))%nat
    /\ JWTPayload_typed (JObject props) = true
    /\ get_property "iss" (JObject props)
       = option_map JString (optional TimeSpan options payload_options.issuer)
    /\ get_property "sub" (JObject props)
       = option_map JString (optional TimeSpan options payload_options.subject)
    /\ get_property "jti" (JObject props)
       = option_map JString (optional TimeSpan options payload_options.jwtId)
    /\ get_property "aud" (JObject props)
       = option_map (fun aud => JArray (map JString aud))
           (optional TimeSpan options payload_options.audiences).
Proof.
  rewrite createJWTPayload_returns. eexists. eexists. split; [reflexivity|].
  split; [|split; [|apply payload_entries_claims]].
  - now destruct (optional TimeSpan options payload_options.expiresIn),
      (when_true (optional TimeSpan options payload_options.includeIssuedTimestamp)).
  - destruct (optional TimeSpan options payload_options.expiresIn),
      (when_true (optional TimeSpan options payload_options.includeIssuedTimestamp));
      cbn; lia.
Qed.


(** X19. [nbf] is the whole second at or before [notBefore] (so up to
    999 ms earlier), [NaN] for an invalid [Date], and absent without
    the option; [iat] is the whole second at or before the clock, read
    after the read for [exp], and is absent unless
    [includeIssuedTimestamp] is [true]. *)
Theorem createJWTPayload_nbf_iat
  (options : option (payload_options.Options TimeSpan)) (w w' : World) (p : json) :
  createJWTPayload TimeSpan seconds options w = (Return p, w') ->
  (optional TimeSpan options payload_options.notBefore = None ->
   has_property "nbf" p = false)
  /\ (forall date : Date,
        optional TimeSpan options payload_options.notBefore = Some date ->
        (forall ms : Z,
           getTime date = number_of_Z ms ->
           exists (n : number) (z : Z),
             get_property "nbf" p = Some (JNumber n)
             /\ denotes n z
             /\ z * 1000 <= ms < z * 1000 + 1000)
        /\ (getTime date = NaN -> get_property "nbf" p = Some (JNumber NaN)))
  /\ (optional TimeSpan options payload_options.includeIssuedTimestamp <> Some true ->
      has_property "iat" p = false)
  /\ (optional TimeSpan options payload_options.includeIssuedTimestamp = Some true ->
      let w1 := ticks (count (optional TimeSpan options payload_options.expiresIn)) w in
      exists (n : number) (z : Z),
        get_property "iat" p = Some (JNumber n)
        /\ denotes n z
        /\ z * 1000 <= clock w1 (reads w1) < z * 1000 + 1000).
Proof.
  rewrite createJWTPayload_returns. intros H. injection H as <- _.
  unfold payload_entries. split; [|split; [|split]].
  - intros ->. each_option options; reflexivity.
  - intros date ->.
    match goal with
    | |- context [get_property "nbf" ?p] =>
        assert (Hget : get_property "nbf" p
                       = Some (JNumber (whole_seconds (getTime date))))
          by (each_option options; reflexivity)
    end.
    rewrite Hget. split.
    + intros ms ->. exists (number_of_Z (ms / 1000)), (ms / 1000).
      rewrite whole_seconds_of_Z. split; [reflexivity|]. split; [apply denotes_of_Z|].
      pose proof (Z.mod_pos_bound ms 1000 ltac:(lia)).
      pose proof (Z.div_mod ms 1000 ltac:(lia)). lia.
    + now intros ->.
  - intros Hnot. each_option options; try reflexivity; now destruct Hnot.
  - intros Hiat. cbv zeta. rewrite Hiat.
    set (w1 := ticks (count (optional TimeSpan options payload_options.expiresIn)) w).
    exists (number_of_Z (clock w1 (reads w1) / 1000)), (clock w1 (reads w1) / 1000).
    split; [|split].
    + rewrite <- whole_seconds_of_Z. fold (now w1). subst w1.
      each_option options; reflexivity.
    + apply denotes_of_Z.
    + pose proof (Z.mod_pos_bound (clock w1 (reads w1)) 1000 ltac:(lia)).
      pose proof (Z.div_mod (clock w1 (reads w1)) 1000 ltac:(lia)). lia.
Qed.

(** X20. The builders, then the parser: [parseJWT] on the token that
    [createJWT] makes from [createJWTHeader(alg)] and the payload of
    [createJWTPayload(options)] returns a token with that algorithm,
    header and payload, whose [issuer], [subject], [audiences] and
    [jwtId] are the options' (the codec round-trips, header and
    payload survive serialization). *)
Theorem createJWTPayload_parseJWT
  (alg : string) (key : bytes) (options : option (payload_options.Options TimeSpan))
  (p : json) (token : string) (w w1 w2 : World) :
  codec_round_trips ->
  createJWTPayload TimeSpan seconds options w = (Return p, w1) ->
  createJWT key (createJWTHeader alg) p w1 = (Return token, w2) ->
  serializes (createJWTHeader alg) ->
  serializes p ->
  exists t : JWT,
    parseJWT token = Return (Some t)
    /\ algorithm t = alg
    /\ header t = createJWTHeader alg
    /\ payload t = p
    /\ issuer t = optional TimeSpan options payload_options.issuer
    /\ subject t = optional TimeSpan options payload_options.subject
    /\ audiences t = optional TimeSpan options payload_options.audiences
    /\ jwtId t = optional TimeSpan options payload_options.jwtId.
Proof.
  intros Hcodec Hpayload Hcreate Hheader Hp.
  rewrite createJWTPayload_returns in Hpayload. injection Hpayload as <- <-.
  destruct (payload_entries_claims options w)
    as (Htyped & Hiss & Hsub & Hjti & Haud).
  destruct (createJWT_parses key (createJWTHeader alg) _ token _ w2
              Hcodec Hheader Hp (or_intror eq_refl) Hcreate)
    as (alg' & a & signature & Halg & _ & _ & Hparse).
  injection Halg as <-. rewrite Htyped in Hparse.
  eexists. split; [exact Hparse|].
  cbn [algorithm header payload issuer subject audiences jwtId].
  unfold string_claim, aud_claim. rewrite Hiss, Hsub, Hjti, Haud.
  repeat split.
  - now destruct (optional TimeSpan options payload_options.issuer).
  - now destruct (optional TimeSpan options payload_options.subject).
  - destruct (optional TimeSpan options payload_options.audiences) as [l|];
      [|reflexivity].
    cbn [option_map]. now rewrite strings_of_map.
  - now destruct (optional TimeSpan options payload_options.jwtId).
Qed.


(** X29. A token built from [createJWTHeader(alg)] and
    [createJWTPayload(options)] with [notBefore] a valid date at [ms]
    milliseconds and no [expiresIn] carries [nbf = floor(ms / 1000)]:
    [validateJWT] throws "Inactive JWT" while the clock is before
    [floor(ms / 1000) * 1000] and returns the token from then on,
    which is up to 999 ms before [notBefore] (signatures verify, the
    codec round-trips, header and payload survive serialization). *)
Theorem createJWTPayload_not_before
  (alg : string) (key : bytes) (options : option (payload_options.Options TimeSpan))
  (date : Date) (ms : Z) (p : json) (token : string) (w w1 w2 : World) :
  codec_round_trips ->
  signatures_verify ->
  optional TimeSpan options payload_options.expiresIn = None ->
  optional TimeSpan options payload_options.notBefore = Some date ->
  getTime date = number_of_Z ms ->
  Z.abs ms <= maxTime ->
  createJWTPayload TimeSpan seconds options w = (Return p, w1) ->
  createJWT key (createJWTHeader alg) p w1 = (Return token, w2) ->
  serializes (createJWTHeader alg) ->
  serializes p ->
  let z := ms / 1000 in
  (clock w2 (reads w2) < z * 1000 ->
   validateJWT alg key token w2 = (Throw (Error "Inactive JWT"), tick w2))
  /\ (z * 1000 <= clock w2 (reads w2) ->
      exists (t : JWT) (w3 : World),
        validateJWT alg key token w2 = (Return t, w3) /\ payload t = p).
Proof.
  intros Hcodec Hsigns Hspan Hnbf Hms Hrange Hpayload Hcreate Hheader Hp z.
  rewrite createJWTPayload_returns in Hpayload. injection Hpayload as <- <-.
  destruct (payload_entries_claims options w) as (Htyped & _).
  destruct (createJWT_parses key (createJWTHeader alg) _ token _ w2
              Hcodec Hheader Hp (or_intror eq_refl) Hcreate)
    as (alg' & a & signature & Halg & Hget & Hsign & Hparse).
  injection Halg as <-. rewrite Htyped in Hparse. clear Hcreate.
  set (p := JObject (payload_entries seconds options w)) in *.
  assert (Hzrange : Z.abs (z * 1000) <= maxTime).
  { subst z. unfold maxTime in *.
    pose proof (Z.mod_pos_bound ms 1000 ltac:(lia)).
    pose proof (Z.div_mod ms 1000 ltac:(lia)). lia. }
  assert (Hdate : date_claim "nbf" p None = Some (mkDate (number_of_Z (z * 1000)))).
  { assert (Hn : get_property "nbf" p = Some (JNumber (whole_seconds (getTime date)))).
    { subst p. unfold payload_entries. rewrite Hnbf. clear.
      each_option options; reflexivity. }
    unfold date_claim. rewrite Hn, Hms, whole_seconds_of_Z. f_equal.
    apply new_Date_seconds; [apply denotes_of_Z | exact Hzrange]. }
  assert (Hnone : date_claim "exp" p None = None).
  { assert (Hn : get_property "exp" p = None).
    { subst p. unfold payload_entries. rewrite Hspan. clear.
      each_option options; reflexivity. }
    unfold date_claim. now rewrite Hn. }
  rewrite Hdate, Hnone in Hparse.
  match type of Hparse with
  | _ = Return (Some ?x) => set (t := x) in *
  end.
  split.
  - intros Hbefore.
    unfold validateJWT, bind, lift, ret, Date_now. rewrite Hparse. subst t.
    cbn [algorithm]. rewrite String.eqb_refl. cbn [negb expiresAt notBefore].
    unfold now. cbn [getTime]. rewrite number_ltb_of_Z.
    apply Z.ltb_lt in Hbefore. now rewrite Hbefore.
  - intros Hafter.
    destruct (Hsigns a key
                (TextEncoder_encode
                   (base64url_encode
                      (TextEncoder_encode (JSON_stringify (createJWTHeader alg)))
                    ++ "." ++ base64url_encode (TextEncoder_encode (JSON_stringify p)))))
      as (signature' & Hsign' & Hverify).
    rewrite Hsign in Hsign'. injection Hsign' as <-.
    exists t. eexists. split; [|reflexivity].
    unfold validateJWT, bind, lift, ret, throw, Date_now, await_verify.
    rewrite Hparse. subst t.
    cbn [algorithm]. rewrite String.eqb_refl. cbn [negb expiresAt notBefore parts].
    unfold now. cbn [getTime]. rewrite number_ltb_of_Z.
    apply Z.ltb_ge in Hafter. rewrite Hafter.
    rewrite (proj1 (Hcodec signature)), Hget, Hverify. reflexivity.
Qed.

(** ** The older parser and validator *)

Lemma date_block_typed (key : string) (p : json) :
  part_003_parse.date_block key p
  = if typed is_number key p then Some (date_claim key p None) else None.
Proof.
  unfold part_003_parse.date_block, typed, date_claim.
  destruct (has_property key p) eqn:Hhas.
  - destruct (has_property_get key p Hhas) as (v & ->). now destruct v.
  - destruct (get_property key p) eqn:Hget; [|reflexivity].
    apply get_property_has in Hget. congruence.
Qed.

Lemma string_block_typed (key : string) (p : json) :
  part_003_parse.string_block key p
  = if typed is_string key p then Some (string_claim key p None) else None.
Proof.
  unfold part_003_parse.string_block, typed, string_claim.
  destruct (has_property key p) eqn:Hhas.
  - destruct (has_property_get key p Hhas) as (v & ->). now destruct v.
  - destruct (get_property key p) eqn:Hget; [|reflexivity].
    apply get_property_has in Hget. congruence.
Qed.

Lemma aud_block_typed (p : json) :
  part_003_parse.aud_block p
  = if typed is_audience "aud" p then Some (aud_claim p None) else None.
Proof.
  unfold part_003_parse.aud_block, typed, aud_claim.
  destruct (has_property "aud" p) eqn:Hhas.
  - destruct (has_property_get "aud" p Hhas) as (v & ->).
    destruct v; try reflexivity. simpl. now destruct (strings_of items).
  - destruct (get_property "aud" p) eqn:Hget; [|reflexivity].
    apply get_property_has in Hget. congruence.
Qed.

(** The older [parseJWT] returns what [parseJWT] returns, copied. *)
Lemma parseJWT_as_part_003 (token : string) :
  part_003_parse.parseJWT token
  = (r <- parseJWT token ;; Return (option_map as_part_003 r))%result.
Proof.
  unfold part_003_parse.parseJWT, part_003_parse.getJWTParts, parseJWT.
  destruct (split_dot token) as [|part0 [|part1 [|part2 [|]]]]; try reflexivity.
  destruct (base64url_decode part0) as [rawHeader|]; [|reflexivity].
  destruct (base64url_decode part1) as [rawPayload|]; [|reflexivity].
  cbn [bindR].
  destruct (JSON_parse (TextDecoder_decode rawHeader)) as [h|]; [|reflexivity].
  cbn [bindR].
  destruct (negb (typeof (Some h) === "object") || is_null h); [reflexivity|].
  destruct (negb (has_property "alg" h)
            || negb (isValidAlgorithm (get_property "alg" h))); [reflexivity|].
  destruct (has_property "typ" h && differs_from (get_property "typ" h) "JWT");
    [reflexivity|].
  destruct (JSON_parse (TextDecoder_decode rawPayload)) as [p|]; [|reflexivity].
  cbn [bindR].
  destruct (negb (typeof (Some p) === "object") || is_null p); [reflexivity|].
  destruct (get_property "alg" h) as [[| | |alg| |]|]; try reflexivity.
  rewrite claims_spec, !date_block_typed, !string_block_typed, aud_block_typed.
  unfold JWTPayload_typed. cbn [bindR]. f_equal.
  destruct (typed is_number "exp" p), (typed is_string "iss" p),
    (typed is_string "sub" p), (typed is_audience "aud" p),
    (typed is_number "nbf" p), (typed is_number "iat" p),
    (typed is_string "jti" p); reflexivity.
Qed.

(** X23. The two versions agree.  The [parseJWT] of [part_003] throws,
    returns [null] or returns a token exactly as that of [jwt.ts]
    does, and its token is that of [jwt.ts] with the header and the
    payload copied; [validateJWT] of [part_003] throws the same
    exception or returns that copy, and leaves the same world. *)
Theorem part_003_agrees (algorithm0 : string) (key : bytes) (jwt : string) (w : World) :
  part_003_parse.parseJWT jwt
  = (r <- parseJWT jwt ;; Return (option_map as_part_003 r))%result
  /\ part_003_parse.validateJWT algorithm0 key jwt w
     = (t <- validateJWT algorithm0 key jwt ;; ret (as_part_003 t))%async w.
Proof.
  split; [apply parseJWT_as_part_003|].
  unfold part_003_parse.validateJWT, validateJWT, bind, lift, ret, throw.
  rewrite parseJWT_as_part_003.
  destruct (parseJWT jwt) as [[t|]|]; try reflexivity.
  cbn [bindR option_map]. cbn [as_part_003 algorithm expiresAt notBefore parts].
  destruct (negb (algorithm t === algorithm0)); [reflexivity|].
  destruct (expiresAt t) as [date|];
    [ destruct (isWithinExpirationDate date w) as [[[|]|] w1]; try reflexivity | ];
    cbn [negb]; cbv beta iota;
    (destruct (notBefore t) as [date'|];
     [ unfold Date_now; cbv beta iota;
       match goal with
       | |- context [number_ltb ?a ?b] => destruct (number_ltb a b); try reflexivity
       end
     | ]);
    destruct (parts t) as [[part0 part1] part2];
    (destruct (base64url_decode part2) as [signature|]; [|reflexivity]);
    (destruct (getAlgorithm (algorithm t)) as [alg|]; [|reflexivity]);
    unfold await_verify;
    (destruct (verify alg key signature (TextEncoder_encode (part0 ++ "." ++ part1)))
       as [[|]|]; reflexivity).
Qed.

(** X24. A token that the [parseJWT] of [part_003] returns has a header
    with [alg] the token's algorithm and [typ] "JWT", also when the
    token's header had no [typ], and a payload that is an object, also
    when the token's payload was an array; the other properties of
    the header and those of a payload object read as they do in the
    parsed JSON. *)
Theorem part_003_parseJWT_copies (token : string) (t : JWT) :
  part_003_parse.parseJWT token = Return (Some t) ->
  In (algorithm t) JWTAlgorithms
  /\ get_property "alg" (header t) = Some (JString (algorithm t))
  /\ get_property "typ" (header t) = Some (JString "JWT")
  /\ (exists props, payload t = JObject props)
  /\ exists t0 : JWT,
       parseJWT token = Return (Some t0)
       /\ (forall k : string,
             k <> "alg" -> k <> "typ" ->
             forall props, header t0 = JObject props -> NoDup (map fst props) ->
             get_property k (header t) = get_property k (header t0))
       /\ (forall (k : string) (props : list (string * json)),
             payload t0 = JObject props -> NoDup (map fst props) ->
             get_property k (payload t) = get_property k (payload t0)).
Proof.
  rewrite parseJWT_as_part_003. intros H.
  destruct (parseJWT token) as [[t0|]|] eqn:Hparse; try discriminate.
  injection H as <-.
  destruct (parseJWT_Some token t0 Hparse)
    as (part0 & part1 & part2 & rawH & rawP & h & p & alg
        & _ & _ & _ & _ & _ & Halg & Hin & Hclaims).
  apply claims_result in Hclaims. subst t0.
  cbn [as_part_003 algorithm header payload get_property].
  rewrite !assoc_set_property. cbn [String.eqb Ascii.eqb Bool.eqb].
  repeat split; auto.
  - eexists. reflexivity.
  - eexists. split; [reflexivity|]. cbn [header payload]. split.
    + intros k Hk1 Hk2 props -> Hnodup. cbn [part_003_parse.own_enumerable get_property].
      rewrite !assoc_set_property, assoc_spread, (assoc_rev k props Hnodup).
      apply not_eq_sym, String.eqb_neq in Hk1, Hk2. rewrite Hk1, Hk2.
      now destruct (assoc k props).
    + intros k props -> Hnodup. cbn [part_003_parse.own_enumerable get_property].
      rewrite assoc_spread, (assoc_rev k props Hnodup).
      now destruct (assoc k props).
Qed.

(** ** The older [createJWT] *)

(** The older [createJWT] is [createJWT] on the header
    [{ alg, typ, ...headers }] and the payload
    [{ ...payloadClaims, ...createJWTPayload(options) }], but for the
    algorithm it signs with, which is its argument. *)
Lemma part_003_createJWT_returns
  (algorithm0 : string) (key : bytes) (payloadClaims : list (string * json))
  (options : option (part_003.Options TimeSpan)) (w : World) :
  let header :=
    JObject (part_003.spread (custom_headers options)
               [("alg", JString algorithm0); ("typ", JString "JWT")]) in
  let payload :=
    JObject (part_003.spread
               (payload_entries seconds (option_map without_headers options) w)
               (part_003.spread payloadClaims [])) in
  let headerPart := base64url_encode (TextEncoder_encode (JSON_stringify header)) in
  let payloadPart := base64url_encode (TextEncoder_encode (JSON_stringify payload)) in
  let data := TextEncoder_encode (join_dot [headerPart; payloadPart]) in
  part_003.createJWT TimeSpan seconds algorithm0 key payloadClaims options w
  = (alg <- lift (getAlgorithm algorithm0) ;;
     signature <- await_sign alg key data ;;
     ret (join_dot [headerPart; payloadPart; base64url_encode signature]))%async
      (snd (createJWTPayload TimeSpan seconds (option_map without_headers options) w)).
Proof.
  cbv zeta. rewrite createJWTPayload_returns. cbn [snd].
  each_old_option options; reflexivity.
Qed.

(** What the older [createJWT] went through to return a token. *)
Lemma part_003_createJWT_Some
  (algorithm0 : string) (key : bytes) (payloadClaims : list (string * json))
  (options : option (part_003.Options TimeSpan)) (token : string) (w w' : World) :
  part_003.createJWT TimeSpan seconds algorithm0 key payloadClaims options w
  = (Return token, w') ->
  let header :=
    JObject (part_003.spread (custom_headers options)
               [("alg", JString algorithm0); ("typ", JString "JWT")]) in
  let payload :=
    JObject (part_003.spread
               (payload_entries seconds (option_map without_headers options) w)
               (part_003.spread payloadClaims [])) in
  let headerPart := base64url_encode (TextEncoder_encode (JSON_stringify header)) in
  let payloadPart := base64url_encode (TextEncoder_encode (JSON_stringify payload)) in
  let data := TextEncoder_encode (join_dot [headerPart; payloadPart]) in
  exists (a : SigningAlgorithm) (signature : bytes),
    getAlgorithm algorithm0 = Return a
    /\ sign a key data = Return signature
    /\ token = join_dot [headerPart; payloadPart; base64url_encode signature]
    /\ calls w' = (calls w ++ [CallSign a key data])%list.
Proof.
  rewrite part_003_createJWT_returns, createJWTPayload_returns. cbv zeta. cbn [snd].
  unfold bind, lift, ret, await_sign. intros H.
  destruct (getAlgorithm algorithm0) as [a|]; [|discriminate].
  match type of H with
  | context [sign a key ?d] =>
      destruct (sign a key d) as [signature|] eqn:Hs; [|discriminate]
  end.
  injection H as <- <-. exists a, signature. repeat split; auto.
  now destruct (optional TimeSpan (option_map without_headers options)
                  payload_options.expiresIn),
    (when_true (optional TimeSpan (option_map without_headers options)
                payload_options.includeIssuedTimestamp)).
Qed.

(** X25. The header of the token the older [createJWT] returns: when
    [options.headers] has no [alg], the header's [alg] is the algorithm
    argument, whose primitive is the one that signed; when it has no
    [typ], the header's [typ] is "JWT"; and every custom header is in
    it. *)
Theorem part_003_createJWT_header
  (algorithm0 : string) (key : bytes) (payloadClaims : list (string * json))
  (options : option (part_003.Options TimeSpan)) (token : string) (w w' : World) :
  part_003.createJWT TimeSpan seconds algorithm0 key payloadClaims options w
  = (Return token, w') ->
  exists (header : list (string * json)) (payloadPart : string)
         (a : SigningAlgorithm) (data signature : bytes),
    token
    = join_dot [base64url_encode
                  (TextEncoder_encode (JSON_stringify (JObject header)));
                payloadPart; base64url_encode signature]
    /\ getAlgorithm algorithm0 = Return a
    /\ sign a key data = Return signature
    /\ calls w' = (calls w ++ [CallSign a key data])%list
    /\ (assoc "alg" (custom_headers options) = None ->
        assoc "alg" header = Some (JString algorithm0))
    /\ (assoc "typ" (custom_headers options) = None ->
        assoc "typ" header = Some (JString "JWT"))
    /\ (forall (k : string) (v : json),
          NoDup (map fst (custom_headers options)) ->
          assoc k (custom_headers options) = Some v ->
          assoc k header = Some v).
Proof.
  intros H. apply part_003_createJWT_Some in H.
  cbv zeta in H. destruct H as (a & signature & Hget & Hsign & -> & Hcalls).
  eexists. eexists. exists a. eexists. exists signature.
  split; [reflexivity|]. split; [exact Hget|]. split; [exact Hsign|].
  split; [exact Hcalls|]. split; [|split].
  - intros Hnone. now rewrite assoc_spread, (assoc_rev_None _ _ Hnone).
  - intros Hnone. now rewrite assoc_spread, (assoc_rev_None _ _ Hnone).
  - intros k v Hnodup Hk. now rewrite assoc_spread, (assoc_rev _ _ Hnodup), Hk.
Qed.

(** X26. The payload of the token the older [createJWT] returns is
    [payloadClaims] with the claims of [createJWTPayload(options)]
    assigned over it: an option overrides the claim of the same name,
    every other claim is kept. *)
Theorem part_003_createJWT_payload
  (algorithm0 : string) (key : bytes) (payloadClaims : list (string * json))
  (options : option (part_003.Options TimeSpan)) (token : string) (w w' : World) :
  part_003.createJWT TimeSpan seconds algorithm0 key payloadClaims options w
  = (Return token, w') ->
  NoDup (map fst payloadClaims) ->
  exists (headerPart : string) (payload built : list (string * json))
         (w1 : World) (signature : bytes),
    token
    = join_dot [headerPart;
                base64url_encode
                  (TextEncoder_encode (JSON_stringify (JObject payload)));
                base64url_encode signature]
    /\ createJWTPayload TimeSpan seconds (option_map without_headers options) w
       = (Return (JObject built), w1)
    /\ forall k : string,
         assoc k payload
         = match assoc k built with
           | Some v => Some v
           | None => assoc k payloadClaims
           end.
Proof.
  intros H Hnodup. apply part_003_createJWT_Some in H.
  cbv zeta in H. destruct H as (a & signature & _ & _ & -> & _).
  eexists. eexists. eexists. eexists. exists signature.
  split; [reflexivity|]. split; [apply createJWTPayload_returns|].
  intros k. rewrite !assoc_spread.
  rewrite (assoc_rev k _ (payload_entries_NoDup _ w)), (assoc_rev k _ Hnodup).
  destruct (assoc k (payload_entries seconds (option_map without_headers options) w));
    [reflexivity|].
  now destruct (assoc k payloadClaims).
Qed.

(** X27. When [options.headers] names no [alg], the older [createJWT]
    is the composition of the builders of [jwt.ts]:
    [createJWT(key, { ...createJWTHeader(alg), ...headers },
    { ...payloadClaims, ...createJWTPayload(options) })], with the same
    result and the same world. *)
Theorem part_003_createJWT_composes
  (algorithm0 : string) (key : bytes) (payloadClaims : list (string * json))
  (options : option (part_003.Options TimeSpan)) (w : World) :
  assoc "alg" (custom_headers options) = None ->
  part_003.createJWT TimeSpan seconds algorithm0 key payloadClaims options w
  = (payload <- createJWTPayload TimeSpan seconds
                  (option_map without_headers options) ;;
     createJWT key
       (JObject (part_003.spread (custom_headers options)
                   (part_003_parse.own_enumerable (createJWTHeader algorithm0))))
       (JObject (part_003.spread (part_003_parse.own_enumerable payload)
                   (part_003.spread payloadClaims []))))%async w.
Proof.
  intros Hnone.
  rewrite part_003_createJWT_returns. cbv zeta.
  unfold bind at 3. rewrite createJWTPayload_returns. cbn [snd].
  unfold createJWT.
  cbn [get_property part_003_parse.own_enumerable createJWTHeader].
  rewrite assoc_spread, (assoc_rev_None _ _ Hnone). reflexivity.
Qed.

End coverage.

(** * The models meet what the theorems ask of the collaborators *)

Lemma base64url_round_trips : @codec_round_trips base64url_codec.
Proof.
  intros data. split.
  - apply base64url_facts.decode_encode.
  - apply base64url_facts.encode_dotless.
Qed.

Lemma standin_equal_refl (a : bytes) : standin.equal a a = true.
Proof.
  induction a as [|x a IH]; [reflexivity|]. simpl. rewrite IH.
  now rewrite (Byte.byte_dec_lb eq_refl).
Qed.

Lemma standin_signatures_verify : @signatures_verify standin_crypto.
Proof.
  intros alg key data. exists (standin.tag alg key data).
  split; [reflexivity|]. cbv [verify standin_crypto].
  now rewrite standin_equal_refl.
Qed.

Lemma within_expiration_spec : @within_spec index_model.
Proof. intros date w. reflexivity. Qed.

(** * The theorems at the example tokens *)

Lemma validateJWT_algorithm_mismatch_witness :
  validateJWT "RS256" example.key example.empty example.world
  = (Throw (Error "Invalid algorithm"), example.world).
Proof.
  apply (validateJWT_algorithm_mismatch "RS256" example.key example.empty
           (example.parsed example.HS256 (JObject []) "ew8zIA" "HS256")).
  - vm_compute. reflexivity.
  - vm_compute. discriminate.
Defined.

Lemma parseJWT_invariants_witness :
  let t := example.parsed example.HS256 (JObject []) "ew8zIA" "HS256" in
  In (algorithm t) JWTAlgorithms
  /\ get_property "alg" (header t) = Some (JString (algorithm t))
  /\ value t = example.empty
  /\ (let '(part0, part1, part2) := parts t in
      join_dot [part0; part1; part2] = example.empty).
Proof.
  apply (parseJWT_invariants example.empty
           (example.parsed example.HS256 (JObject []) "ew8zIA" "HS256")).
  vm_compute. reflexivity.
Defined.

Ltac by_computation := vm_compute; reflexivity.





Lemma parseJWT_aud_witness :
  (exists t, parseJWT example.aud_string = Return (Some t)
             /\ audiences t = Some ["svc-a"])
  /\ (exists t, parseJWT example.aud_array = Return (Some t)
                /\ audiences t = Some ["svc-a"; "svc-b"])
  /\ parseJWT example.aud_number = Return None.
Proof.
  pose (h := example.HS256).
  pose (raw := fun v : json => utf8.encode (JSON.stringify v)).
  assert (Hin : In "HS256" JWTAlgorithms) by (vm_compute; tauto).
  split; [|split].
  - pose (p := JObject [("aud", JString "svc-a")]).
    destruct (parseJWT_aud example.aud_string
                "eyJhbGciOiJIUzI1NiIsInR5cCI6IkpXVCJ9" "eyJhdWQiOiJzdmMtYSJ9" "c2ln"
                (raw h) (raw p) h p
                ltac:(by_computation) ltac:(by_computation) ltac:(by_computation)
                ltac:(by_computation) ltac:(by_computation))
      as (Htyped & _).
    destruct (Htyped "HS256" eq_refl Hin (or_intror eq_refl) eq_refl) as (Hstring & _).
    now apply Hstring.
  - pose (p := JObject [("aud", JArray [JString "svc-a"; JString "svc-b"])]).
    destruct (parseJWT_aud example.aud_array
                "eyJhbGciOiJIUzI1NiIsInR5cCI6IkpXVCJ9"
                "eyJhdWQiOlsic3ZjLWEiLCJzdmMtYiJdfQ" "c2ln"
                (raw h) (raw p) h p
                ltac:(by_computation) ltac:(by_computation) ltac:(by_computation)
                ltac:(by_computation) ltac:(by_computation))
      as (Htyped & _).
    destruct (Htyped "HS256" eq_refl Hin (or_intror eq_refl) eq_refl) as (_ & Harray).
    now apply (Harray ["svc-a"; "svc-b"]).
  - pose (p := JObject [("aud", JNumber (Dec 5 0))]).
    destruct (parseJWT_aud example.aud_number
                "eyJhbGciOiJIUzI1NiIsInR5cCI6IkpXVCJ9" "eyJhdWQiOjV9" "c2ln"
                (raw h) (raw p) h p
                ltac:(by_computation) ltac:(by_computation) ltac:(by_computation)
                ltac:(by_computation) ltac:(by_computation))
      as (_ & Hother).
    apply (Hother (JNumber (Dec 5 0))); [reflexivity | discriminate |].
    intros l. destruct l; discriminate.
Defined.

(** C7, as stated, fails.  Under a header segment that is not JSON
    text, a payload whose [aud] is the number 5 makes [parseJWT] throw
    the parser's [SyntaxError], not return [null].  And a payload whose
    [aud] is the string "svc-a" is refused, with no token and no
    audiences returned, when its [iss] is the number 7, or when the
    header's [alg] is "none". *)
Lemma parseJWT_aud_counterexample :
  (exists rawPayload,
     base64url_decode "eyJhdWQiOjV9" = Return rawPayload
     /\ JSON_parse (TextDecoder_decode rawPayload)
        = Return (JObject [("aud", JNumber (Dec 5 0))]))
  /\ parseJWT example.aud_number_header_not_JSON = Throw SyntaxError
  /\ parseJWT example.aud_number_header_not_JSON <> Return None
  /\ (exists rawPayload,
        base64url_decode "eyJhdWQiOiJzdmMtYSIsImlzcyI6N30" = Return rawPayload
        /\ JSON_parse (TextDecoder_decode rawPayload)
           = Return (JObject [("aud", JString "svc-a"); ("iss", JNumber (Dec 7 0))]))
  /\ parseJWT example.aud_string_iss_number = Return None
  /\ (exists rawPayload,
        base64url_decode "eyJhdWQiOiJzdmMtYSJ9" = Return rawPayload
        /\ JSON_parse (TextDecoder_decode rawPayload)
           = Return (JObject [("aud", JString "svc-a")]))
  /\ parseJWT example.aud_string_alg_none = Return None.
Proof.
  split.
  { exists (utf8.encode (JSON.stringify (JObject [("aud", JNumber (Dec 5 0))]))).
    split; by_computation. }
  split; [by_computation|]. split; [vm_compute; discriminate|].
  split.
  { exists (utf8.encode (JSON.stringify
              (JObject [("aud", JString "svc-a"); ("iss", JNumber (Dec 7 0))]))).
    split; by_computation. }
  split; [by_computation|].
  split; [|by_computation].
  exists (utf8.encode (JSON.stringify (JObject [("aud", JString "svc-a")]))).
  split; by_computation.
Qed.

Lemma parseJWT_dates_witness :
  let t := example.dated_JWT in
  expiresAt t = Some (mkDate (number_of_Z 1700003600000))
  /\ notBefore t = Some (mkDate (number_of_Z 1699990000000))
  /\ issuedAt t = Some (mkDate (number_of_Z 1700000000000)).
Proof.
  assert (Hparse : parseJWT example.dated = Return (Some example.dated_JWT))
    by by_computation.
  destruct (parseJWT_dates example.dated example.dated_JWT Hparse)
    as (Hexp & Hnbf & Hiat).
  split; [|split].
  - apply (Hexp (Dec 1700003600 0) eq_refl) with (z := 1700003600);
      [reflexivity | vm_compute; discriminate].
  - apply (Hnbf (Dec 1699990000 0) eq_refl) with (z := 1699990000);
      [reflexivity | vm_compute; discriminate].
  - apply (Hiat (Dec 1700000000 0) eq_refl) with (z := 1700000000);
      [reflexivity | vm_compute; discriminate].
Defined.

(** C9, as stated, fails.  With [exp] the number 10000000000000 the
    token is returned, and its [expiresAt] is an invalid date, not the
    instant 10000000000000000.  With [exp] the number 1.001 the token
    is returned with [expiresAt] at 1000 milliseconds, not at 1001:
    the product of the doubles is 1000.9999999999998863, and the date
    keeps its whole milliseconds. *)
Lemma parseJWT_dates_counterexample :
  (exists t,
     parseJWT example.far = Return (Some t)
     /\ get_property "exp" (payload t) = Some (JNumber (number_of_Z 10000000000000))
     /\ expiresAt t = Some (mkDate NaN)
     /\ expiresAt t <> Some (mkDate (number_of_Z (10000000000000 * 1000))))
  /\ (exists t,
        parseJWT example.fraction = Return (Some t)
        /\ get_property "exp" (payload t) = Some (JNumber (Dec 1001 (-3)))
        /\ number_mul (Dec 1001 (-3)) (number_of_Z 1000)
           = Dec 10009999999999998863131622783839702606201171875 (-43)
        /\ expiresAt t = Some (mkDate (number_of_Z 1000))
        /\ expiresAt t <> Some (mkDate (number_of_Z 1001))).
Proof.
  split.
  - eexists. split; [by_computation|].
    split; [reflexivity|]. split; [reflexivity | discriminate].
  - eexists. split; [by_computation|].
    split; [reflexivity|]. split; [by_computation|].
    split; [reflexivity | discriminate].
Qed.

Lemma validateJWT_expiration_witness :
  validateJWT "HS256" example.key example.past example.world
  = (Throw (Error "Expired JWT"), tick example.world)
  /\ validateJWT "HS256" example.key example.far example.world
     = (Throw (Error "Expired JWT"), tick example.world)
  /\ (exists w',
        validateJWT "HS256" example.key example.future example.world
        = (Return example.future_JWT, w'))
  /\ (exists w',
        validateJWT "HS256" example.key example.half_past example.world
        = (Return example.half_past_JWT, w')).
Proof.
  split; [|split; [|split]].
  - assert (Hparse : parseJWT example.past = Return (Some example.past_JWT))
      by by_computation.
    destruct (validateJWT_expiration "HS256" example.key example.past example.past_JWT
                (Dec 1699999999 0) example.world within_expiration_spec Hparse
                eq_refl eq_refl)
      as (_ & Hpast & _).
    apply Hpast. by_computation.
  - assert (Hparse : parseJWT example.far = Return (Some example.far_JWT))
      by by_computation.
    destruct (validateJWT_expiration "HS256" example.key example.far example.far_JWT
                (Dec 10000000000000 0) example.world within_expiration_spec Hparse
                eq_refl eq_refl)
      as (_ & _ & Hrange & _ & Hinteger).
    apply Hrange. apply (Hinteger 10000000000000); [reflexivity|].
    vm_compute. reflexivity.
  - assert (Hparse : parseJWT example.future = Return (Some example.future_JWT))
      by by_computation.
    destruct (validateJWT_expiration "HS256" example.key example.future example.future_JWT
                (Dec 1700003600 0) example.world within_expiration_spec Hparse
                eq_refl eq_refl)
      as (_ & _ & _ & Hwhole & Hinteger).
    destruct (Hwhole 1700003600000) as (_ & Hfuture).
    { apply (Hinteger 1700003600); [reflexivity|]. vm_compute. discriminate. }
    destruct (Hfuture eq_refl) as (_ & Haccepted).
    apply (Haccepted
             "eyJhbGciOiJIUzI1NiIsInR5cCI6IkpXVCJ9" "eyJleHAiOjE3MDAwMDM2MDB9" "HeyiIw"
             (standin.tag (HMAC "SHA-256") example.key
                (utf8.encode ("eyJhbGciOiJIUzI1NiIsInR5cCI6IkpXVCJ9"
                              ++ "." ++ "eyJleHAiOjE3MDAwMDM2MDB9")))
             (HMAC "SHA-256"));
      try by_computation.
    intros date Hd. discriminate Hd.
  - assert (Hparse : parseJWT example.half_past = Return (Some example.half_past_JWT))
      by by_computation.
    destruct (validateJWT_expiration "HS256" example.key example.half_past
                example.half_past_JWT (Dec 17000036005 (-1)) example.world
                within_expiration_spec Hparse eq_refl eq_refl)
      as (_ & _ & _ & Hwhole & _).
    destruct (Hwhole 1700003600500 ltac:(by_computation)) as (_ & Hfuture).
    destruct (Hfuture eq_refl) as (_ & Haccepted).
    apply (Haccepted
             "eyJhbGciOiJIUzI1NiIsInR5cCI6IkpXVCJ9" "eyJleHAiOjE3MDAwMDM2MDAuNX0" "VFZlZg"
             (standin.tag (HMAC "SHA-256") example.key
                (utf8.encode ("eyJhbGciOiJIUzI1NiIsInR5cCI6IkpXVCJ9"
                              ++ "." ++ "eyJleHAiOjE3MDAwMDM2MDAuNX0")))
             (HMAC "SHA-256"));
      try by_computation.
    intros date Hd. discriminate Hd.
Defined.

(** C6, as stated, fails.  The [exp] of the first token,
    10000000000000 seconds, is after the clock's 1700000000 seconds,
    yet [validateJWT] throws "Expired JWT": the date is invalid.  The
    [exp] of the second, 1700000000.0005 seconds, is half a millisecond
    after the clock, yet [validateJWT] throws "Expired JWT": the date
    keeps the whole milliseconds, which are the clock's. *)
Lemma validateJWT_expiration_counterexample :
  (exists t,
     parseJWT example.far = Return (Some t)
     /\ algorithm t = "HS256"
     /\ get_property "exp" (payload t) = Some (JNumber (number_of_Z 10000000000000))
     /\ number_ltb (now example.world)
          (number_mul (number_of_Z 10000000000000) (number_of_Z 1000)) = true
     /\ validateJWT "HS256" example.key example.far example.world
        = (Throw (Error "Expired JWT"), tick example.world))
  /\ (exists t,
        parseJWT example.same_millisecond = Return (Some t)
        /\ algorithm t = "HS256"
        /\ get_property "exp" (payload t) = Some (JNumber (Dec 17000000000005 (-4)))
        /\ number_ltb (now example.world)
             (number_mul (Dec 17000000000005 (-4)) (number_of_Z 1000)) = true
        /\ expiresAt t = Some (mkDate (now example.world))
        /\ validateJWT "HS256" example.key example.same_millisecond example.world
           = (Throw (Error "Expired JWT"), tick example.world)).
Proof.
  split.
  - eexists. split; [by_computation|]. repeat split; by_computation.
  - eexists. split; [by_computation|]. repeat split; by_computation.
Qed.

Lemma createJWT_validateJWT_witness :
  exists (token : string) (w1 : World) (t : JWT) (w2 : World),
    createJWT example.key example.HS256 (JObject example.claim_set) example.world
    = (Return token, w1)
    /\ validateJWT "HS256" example.key token w1 = (Return t, w2)
    /\ header t = example.HS256
    /\ payload t = JObject example.claim_set
    /\ value t = token.
Proof.
  assert (Hin : In "HS256" JWTAlgorithms) by (vm_compute; tauto).
  assert (Hheader : @serializes host_JSON example.HS256) by by_computation.
  assert (Hpayload : @serializes host_JSON (JObject example.claim_set))
    by by_computation.
  destruct (createJWT_validateJWT "HS256" example.key example.HS256 example.claim_set
              example.world within_expiration_spec base64url_round_trips
              standin_signatures_verify Hheader Hpayload eq_refl Hin
              (or_intror eq_refl) eq_refl)
    as (token & w1 & Hcreate & Haccepted & _).
  assert (Hworld : w1 = snd (createJWT example.key example.HS256
                               (JObject example.claim_set) example.world))
    by now rewrite Hcreate.
  destruct Haccepted as (t & w2 & Hvalid & Hfields).
  - intros n Hn. injection Hn as <-. rewrite Hworld. by_computation.
  - intros n Hn. discriminate Hn.
  - exists token, w1, t, w2.
    split; [exact Hcreate|]. split; [exact Hvalid | exact Hfields].
Defined.

(** C2, as stated, fails.  Signatures verify and the claim set is well
    typed, yet the token built from [{ exp: 1699999999 }] does not
    validate when the clock stands one second later: it has expired.
    Nor does the token built from [{ iss: 7 }], whose [iss] is no
    string, or the one built under the header
    [{ alg: "HS256", typ: "jwt" }]: [parseJWT] refuses them. *)
Lemma createJWT_validateJWT_counterexample :
  @signatures_verify standin_crypto
  /\ JWTPayload_typed (JObject [("exp", JNumber (Dec 1699999999 0))]) = true
  /\ (exists (token : string) (w1 : World),
        createJWT example.key example.HS256
          (JObject [("exp", JNumber (Dec 1699999999 0))]) example.world
        = (Return token, w1)
        /\ validateJWT "HS256" example.key token w1
           = (Throw (Error "Expired JWT"), tick w1))
  /\ (exists (token : string) (w1 : World),
        createJWT example.key example.HS256
          (JObject [("iss", JNumber (Dec 7 0))]) example.world
        = (Return token, w1)
        /\ validateJWT "HS256" example.key token w1
           = (Throw (Error "Invalid JWT"), w1))
  /\ (exists (token : string) (w1 : World),
        createJWT example.key
          (JObject [("alg", JString "HS256"); ("typ", JString "jwt")]) (JObject [])
          example.world
        = (Return token, w1)
        /\ validateJWT "HS256" example.key token w1
           = (Throw (Error "Invalid JWT"), w1)).
Proof.
  split; [exact standin_signatures_verify|]. split; [reflexivity|].
  split; [|split].
  - exists example.past.
    exists (logged (CallSign (HMAC "SHA-256") example.key
                      (utf8.encode
                         "eyJhbGciOiJIUzI1NiIsInR5cCI6IkpXVCJ9.eyJleHAiOjE2OTk5OTk5OTl9"))
                   example.world).
    split; by_computation.
  - exists "eyJhbGciOiJIUzI1NiIsInR5cCI6IkpXVCJ9.eyJpc3MiOjd9.U7u2uA".
    exists (logged (CallSign (HMAC "SHA-256") example.key
                      (utf8.encode "eyJhbGciOiJIUzI1NiIsInR5cCI6IkpXVCJ9.eyJpc3MiOjd9"))
                   example.world).
    split; by_computation.
  - exists "eyJhbGciOiJIUzI1NiIsInR5cCI6Imp3dCJ9.e30.5UUBrw".
    exists (logged (CallSign (HMAC "SHA-256") example.key
                      (utf8.encode "eyJhbGciOiJIUzI1NiIsInR5cCI6Imp3dCJ9.e30"))
                   example.world).
    split; by_computation.
Qed.

(** * Where the code departs from the claims *)

(** C3. The older [createJWT], called with algorithm "HS256" and the
    extra header [{ alg: "HS512" }], signs with HMAC over SHA-256, the
    primitive of "HS256", and returns a token whose header says
    "HS512". *)
Theorem createJWT_header_alg_overridden :
  exists (token : string) (data : bytes) (t : JWT),
    part_003.createJWT number (fun span => span) "HS256" example.key []
      example.override example.world
    = (Return token, logged (CallSign (HMAC "SHA-256") example.key data) example.world)
    /\ getAlgorithm "HS256" = Return (HMAC "SHA-256")
    /\ parseJWT token = Return (Some t)
    /\ get_property "alg" (header t) = Some (JString "HS512")
    /\ algorithm t = "HS512".
Proof.
  exists "eyJhbGciOiJIUzUxMiIsInR5cCI6IkpXVCJ9.e30.PqLk_A".
  exists (utf8.encode "eyJhbGciOiJIUzUxMiIsInR5cCI6IkpXVCJ9.e30").
  exists (mkJWT "eyJhbGciOiJIUzUxMiIsInR5cCI6IkpXVCJ9.e30.PqLk_A"
                (JObject [("alg", JString "HS512"); ("typ", JString "JWT")])
                (JObject []) ("eyJhbGciOiJIUzUxMiIsInR5cCI6IkpXVCJ9", "e30", "PqLk_A")
                "HS512" None None None None None None None).
  repeat split; by_computation.
Qed.

(** C4. On a token whose header segment, or whose payload segment, is
    not JSON text, [parseJWT] does not return [null]: it throws the
    parser's [SyntaxError], and so does [validateJWT] in place of
    "Invalid JWT". *)
Theorem parseJWT_throws_SyntaxError :
  parseJWT example.header_not_JSON = Throw SyntaxError
  /\ parseJWT example.payload_not_JSON = Throw SyntaxError
  /\ validateJWT "HS256" example.key example.header_not_JSON example.world
     = (Throw SyntaxError, example.world)
  /\ validateJWT "HS256" example.key example.payload_not_JSON example.world
     = (Throw SyntaxError, example.world).
Proof. repeat split; by_computation. Qed.

(** C5. On a token whose payload segment is the JSON array [[]],
    [parseJWT] does not return [null]: it returns a token that has the
    array for payload and no claim. *)
Theorem parseJWT_accepts_array_payload :
  parseJWT example.payload_array
  = Return (Some (example.parsed (JObject [("alg", JString "HS256")])
                    (JArray []) "c2ln" "HS256")).
Proof. by_computation. Qed.

(** * The further properties at the example tokens *)

Lemma parseJWT_segment_count_witness :
  parseJWT "a.b" = Return None /\ parseJWT "a.b.c.d" = Return None.
Proof.
  split; apply parseJWT_segment_count; vm_compute; discriminate.
Defined.

Lemma parseJWT_unsupported_alg_witness : parseJWT example.alg_none = Return None.
Proof.
  apply (parseJWT_unsupported_alg example.alg_none "eyJhbGciOiJub25lIn0" "e30" "c2ln"
           (utf8.encode (JSON.stringify (JObject [("alg", JString "none")])))
           (utf8.encode (JSON.stringify (JObject [])))
           (JObject [("alg", JString "none")]));
    try by_computation.
  intros alg H. injection H as <-. vm_compute.
  intros Hin. repeat destruct Hin as [Hin|Hin]; try discriminate Hin. exact Hin.
Defined.

Lemma validateJWT_not_before_witness :
  validateJWT "HS256" example.key example.inactive example.world
  = (Throw (Error "Inactive JWT"), tick example.world)
  /\ calls (tick example.world) = calls example.world.
Proof.
  assert (Hparse : parseJWT example.inactive = Return (Some example.inactive_JWT))
    by by_computation.
  apply (validateJWT_not_before "HS256" example.key example.inactive example.inactive_JWT
           (mkDate (number_of_Z 1700003600000)) example.world
           within_expiration_spec Hparse eq_refl);
    try by_computation.
  intros d Hd. discriminate Hd.
Defined.

Lemma createJWT_signs_with_header_alg_witness :
  let headerPart := base64url_encode (TextEncoder_encode (JSON_stringify example.HS256)) in
  let payloadPart := base64url_encode (TextEncoder_encode (JSON_stringify (JObject []))) in
  let data := TextEncoder_encode (headerPart ++ "." ++ payloadPart) in
  exists (alg : string) (a : SigningAlgorithm) (signature : bytes),
    get_property "alg" example.HS256 = Some (JString alg)
    /\ In alg JWTAlgorithms
    /\ getAlgorithm alg = Return a
    /\ sign a example.key data = Return signature
    /\ logged (CallSign (HMAC "SHA-256") example.key
                 (utf8.encode "eyJhbGciOiJIUzI1NiIsInR5cCI6IkpXVCJ9.e30")) example.world
       = logged (CallSign a example.key data) example.world
    /\ example.empty = join_dot [headerPart; payloadPart; base64url_encode signature].
Proof.
  apply (createJWT_signs_with_header_alg example.key example.HS256 (JObject [])
           example.empty example.world).
  by_computation.
Defined.

Lemma parseJWT_header_typ_witness :
  has_property "typ" (JObject [("alg", JString "HS256")]) = false
  \/ get_property "typ" (JObject [("alg", JString "HS256")]) = Some (JString "JWT").
Proof.
  apply (parseJWT_header_typ example.no_typ
           (example.parsed (JObject [("alg", JString "HS256")]) (JObject [])
              "c2ln" "HS256")).
  by_computation.
Defined.

(** * The rest of the module, on the example tokens *)

Lemma validateJWT_returns_verified_witness :
  parseJWT example.future = Return (Some example.future_JWT)
  /\ algorithm example.future_JWT = "HS256"
  /\ exists (call : Event) (w0 : World),
       verification example.key example.future_JWT true call
       /\ snd (validateJWT "HS256" example.key example.future example.world)
          = logged call w0.
Proof.
  apply (proj1 (validateJWT_returns_verified "HS256" example.key example.future
                  example.future_JWT example.world
                  (snd (validateJWT "HS256" example.key example.future example.world)))).
  by_computation.
Defined.

Lemma validateJWT_signature_rejected_witness :
  validateJWT "HS256" example.key example.forged example.world
  = (Throw (Error "Invalid signature"),
     logged (CallVerify (HMAC "SHA-256") example.key (list_byte_of_string "sig")
               (utf8.encode "eyJhbGciOiJIUzI1NiIsInR5cCI6IkpXVCJ9.e30"))
            example.world)
  /\ validateJWT "HS256" example.key example.garbled example.world
     = (Throw (Error "Invalid character"), example.world).
Proof.
  split.
  - assert (Hparse : parseJWT example.forged
                     = Return (Some (example.parsed example.HS256 (JObject [])
                                       "c2ln" "HS256")))
      by by_computation.
    apply (proj1 (proj2 (validateJWT_signature_rejected "HS256" example.key
                           example.forged _ example.world within_expiration_spec
                           Hparse eq_refl ltac:(discriminate) ltac:(discriminate))
                    (list_byte_of_string "sig") (HMAC "SHA-256")
                    ltac:(by_computation) ltac:(by_computation))).
    by_computation.
  - assert (Hparse : parseJWT example.garbled
                     = Return (Some (example.parsed example.HS256 (JObject [])
                                       "!!" "HS256")))
      by by_computation.
    apply (proj1 (validateJWT_signature_rejected "HS256" example.key example.garbled _
                    example.world within_expiration_spec Hparse eq_refl
                    ltac:(discriminate) ltac:(discriminate))).
    by_computation.
Defined.

Lemma validateJWT_not_before_claim_witness :
  validateJWT "HS256" example.key example.inactive example.world
  = (Throw (Error "Inactive JWT"), tick example.world)
  /\ exists w' : World,
       validateJWT "HS256" example.key example.far_nbf example.world
       = (Return example.far_nbf_JWT, w').
Proof.
  split.
  - assert (Hparse : parseJWT example.inactive = Return (Some example.inactive_JWT))
      by by_computation.
    apply (proj1 (validateJWT_not_before_claim "HS256" example.key example.inactive
                    example.inactive_JWT (Dec 1700003600 0) 1700003600 example.world
                    within_expiration_spec Hparse eq_refl ltac:(discriminate)
                    ltac:(by_computation) ltac:(by_computation))).
    + vm_compute. discriminate.
    + by_computation.
  - assert (Hparse : parseJWT example.far_nbf = Return (Some example.far_nbf_JWT))
      by by_computation.
    eexists.
    apply (proj2 (validateJWT_not_before_claim "HS256" example.key example.far_nbf
                    example.far_nbf_JWT (Dec 10000000000000 0) 10000000000000
                    example.world within_expiration_spec Hparse eq_refl
                    ltac:(discriminate) ltac:(by_computation) ltac:(by_computation))).
    + right. by_computation.
    + exists (standin.tag (HMAC "SHA-256") example.key
                (utf8.encode ("eyJhbGciOiJIUzI1NiIsInR5cCI6IkpXVCJ9"
                              ++ "." ++ "eyJuYmYiOjEwMDAwMDAwMDAwMDAwfQ"))),
        (HMAC "SHA-256").
      repeat split; by_computation.
Defined.

Lemma parseJWT_claim_types_witness :
  parseJWT example.aud_number = Return None
  /\ parseJWT example.named = Return (Some example.named_JWT).
Proof.
  split.
  - etransitivity.
    + apply (parseJWT_claim_types example.aud_number
               "eyJhbGciOiJIUzI1NiIsInR5cCI6IkpXVCJ9" "eyJhdWQiOjV9" "c2ln"
               (utf8.encode (JSON.stringify example.HS256))
               (utf8.encode (JSON.stringify (JObject [("aud", JNumber (Dec 5 0))])))
               example.HS256 [("aud", JNumber (Dec 5 0))] "HS256");
        try by_computation.
      * cbn. tauto.
      * now right.
    + by_computation.
  - etransitivity.
    + apply (parseJWT_claim_types example.named
               "eyJhbGciOiJIUzI1NiIsInR5cCI6IkpXVCJ9"
               "eyJpc3MiOiJhdXRoIiwic3ViIjoiYWxpY2UiLCJqdGkiOiJpZC0xIn0" "c2ln"
               (utf8.encode (JSON.stringify example.HS256))
               (utf8.encode (JSON.stringify example.names))
               example.HS256
               [("iss", JString "auth"); ("sub", JString "alice"); ("jti", JString "id-1")]
               "HS256");
        try by_computation.
      * cbn. tauto.
      * now right.
    + by_computation.
Defined.

Lemma parseJWT_string_claims_witness :
  issuer example.named_JWT = Some "auth"
  /\ subject example.named_JWT = Some "alice"
  /\ jwtId example.named_JWT = Some "id-1".
Proof.
  assert (Hparse : parseJWT example.named = Return (Some example.named_JWT))
    by by_computation.
  destruct (parseJWT_string_claims example.named example.named_JWT Hparse)
    as ((Hiss & _) & (Hsub & _) & (Hjti & _)).
  split; [|split]; [apply Hiss | apply Hsub | apply Hjti]; by_computation.
Defined.

Lemma parseJWT_ignores_signature_witness :
  parseJWT example.forged
  = (r <- parseJWT example.empty ;;
     Return (option_map (with_signature "c2ln") r))%result.
Proof.
  apply (parseJWT_ignores_signature "eyJhbGciOiJIUzI1NiIsInR5cCI6IkpXVCJ9" "e30"
           "ew8zIA" "c2ln");
    by_computation.
Defined.

Lemma parseJWT_header_not_object_witness :
  parseJWT example.header_array = Return None.
Proof.
  apply (parseJWT_header_not_object example.header_array "W10" "e30" "c2ln"
           (utf8.encode (JSON.stringify (JArray [])))
           (utf8.encode (JSON.stringify (JObject []))) (JArray []));
    try by_computation.
  discriminate.
Defined.

Lemma createJWT_throws_witness :
  createJWT example.key (JObject [("alg", JString "none")]) (JObject []) example.world
  = (Throw (TypeError "Invalid algorithm"), example.world).
Proof.
  apply (proj1 (createJWT_throws example.key [("alg", JString "none")] (JObject [])
                  example.world)).
  intros alg H. injection H as <-. vm_compute.
  intros Hin. repeat destruct Hin as [Hin|Hin]; try discriminate Hin. exact Hin.
Defined.

Lemma parseJWT_segment_not_decoded_witness :
  parseJWT example.header_garbled = Throw (Error "Invalid character")
  /\ validateJWT "HS256" example.key example.header_garbled example.world
     = (Throw (Error "Invalid character"), example.world).
Proof.
  apply (parseJWT_segment_not_decoded example.header_garbled "!!" "e30" "c2ln").
  - by_computation.
  - left. by_computation.
Defined.

Lemma createJWT_parseJWT_witness :
  exists t : JWT,
    parseJWT example.signed = Return (Some t)
    /\ value t = example.signed
    /\ header t = example.HS256
    /\ payload t = JObject example.claim_set
    /\ get_property "alg" example.HS256 = Some (JString (algorithm t)).
Proof.
  assert (Hheader : @serializes host_JSON example.HS256) by by_computation.
  assert (Hpayload : @serializes host_JSON (JObject example.claim_set))
    by by_computation.
  assert (Hcreate : createJWT example.key example.HS256 (JObject example.claim_set)
                      example.world
                    = (Return example.signed,
                       snd (createJWT example.key example.HS256
                              (JObject example.claim_set) example.world)))
    by by_computation.
  apply (proj1 (createJWT_parseJWT example.key example.HS256 example.claim_set
                  example.signed example.world _
                  base64url_round_trips Hheader Hpayload (or_intror eq_refl) Hcreate)).
  by_computation.
Defined.


Lemma createJWTPayload_nbf_iat_witness :
  exists (n : number) (z : Z),
    get_property "nbf" (JObject [("nbf", JNumber (Dec 1699999999 0))])
    = Some (JNumber n)
    /\ denotes n z
    /\ z * 1000 <= 1699999999500 < z * 1000 + 1000.
Proof.
  apply (proj1 (proj1 (proj2 (createJWTPayload_nbf_iat number (fun span => span)
                                example.scheduled example.world example.world
                                (JObject [("nbf", JNumber (Dec 1699999999 0))])
                                ltac:(by_computation)))
                  (mkDate (number_of_Z 1699999999500)) eq_refl));
    by_computation.
Defined.

Lemma createJWTPayload_parseJWT_witness :
  exists t : JWT,
    parseJWT example.issued = Return (Some t)
    /\ algorithm t = "HS256"
    /\ header t = createJWTHeader "HS256"
    /\ payload t = example.built
    /\ issuer t = Some "auth"
    /\ subject t = Some "alice"
    /\ audiences t = Some ["svc-a"]
    /\ jwtId t = Some "id-1".
Proof.
  assert (Hheader : @serializes host_JSON (createJWTHeader "HS256"))
    by by_computation.
  assert (Hpayload : @serializes host_JSON example.built) by by_computation.
  assert (Hbuilt : createJWTPayload number (fun span => span) example.options
                     example.world
                   = (Return example.built, tick (tick example.world)))
    by by_computation.
  assert (Hcreate : createJWT example.key (createJWTHeader "HS256") example.built
                      (tick (tick example.world))
                    = (Return example.issued,
                       snd (createJWT example.key (createJWTHeader "HS256")
                              example.built (tick (tick example.world)))))
    by by_computation.
  exact (createJWTPayload_parseJWT number (fun span => span) "HS256" example.key
           example.options example.built example.issued example.world _ _
           base64url_round_trips Hbuilt Hcreate Hheader Hpayload).
Defined.


Lemma part_003_parseJWT_copies_witness :
  let t := as_part_003 (example.parsed (JObject [("alg", JString "HS256")])
                          (JObject []) "c2ln" "HS256") in
  In (algorithm t) JWTAlgorithms
  /\ get_property "alg" (header t) = Some (JString (algorithm t))
  /\ get_property "typ" (header t) = Some (JString "JWT")
  /\ exists props, payload t = JObject props.
Proof.
  intros t.
  assert (Hparse : part_003_parse.parseJWT example.no_typ = Return (Some t))
    by by_computation.
  destruct (part_003_parseJWT_copies example.no_typ t Hparse)
    as (H1 & H2 & H3 & H4 & _).
  auto.
Defined.

Lemma part_003_createJWT_header_witness :
  exists (header : list (string * json)) (payloadPart : string)
         (a : SigningAlgorithm) (data signature : bytes),
    example.legacy_token
    = join_dot [base64url_encode
                  (TextEncoder_encode (JSON_stringify (JObject header)));
                payloadPart; base64url_encode signature]
    /\ getAlgorithm "HS256" = Return a
    /\ sign a example.key data = Return signature
    /\ assoc "alg" header = Some (JString "HS256")
    /\ assoc "typ" header = Some (JString "JWT")
    /\ assoc "kid" header = Some (JString "k1").
Proof.
  assert (Hcreate : part_003.createJWT number (fun span => span) "HS256" example.key
                      example.legacy_claims example.legacy example.world
                    = (Return example.legacy_token,
                       snd (part_003.createJWT number (fun span => span) "HS256"
                              example.key example.legacy_claims example.legacy
                              example.world)))
    by by_computation.
  destruct (part_003_createJWT_header number (fun span => span) "HS256" example.key
              example.legacy_claims example.legacy example.legacy_token example.world
              _ Hcreate)
    as (header & payloadPart & a & data & signature
        & Htoken & Hget & Hsign & _ & Halg & Htyp & Hcustom).
  exists header, payloadPart, a, data, signature.
  repeat split; auto.
  apply Hcustom; [|reflexivity].
  repeat constructor; cbn; intuition discriminate.
Defined.

Lemma part_003_createJWT_payload_witness :
  exists (headerPart : string) (payload : list (string * json)) (signature : bytes),
    example.legacy_token
    = join_dot [headerPart;
                base64url_encode
                  (TextEncoder_encode (JSON_stringify (JObject payload)));
                base64url_encode signature]
    /\ assoc "iss" payload = Some (JString "auth")
    /\ assoc "role" payload = Some (JString "admin").
Proof.
  assert (Hcreate : part_003.createJWT number (fun span => span) "HS256" example.key
                      example.legacy_claims example.legacy example.world
                    = (Return example.legacy_token,
                       snd (part_003.createJWT number (fun span => span) "HS256"
                              example.key example.legacy_claims example.legacy
                              example.world)))
    by by_computation.
  destruct (part_003_createJWT_payload number (fun span => span) "HS256" example.key
              example.legacy_claims example.legacy example.legacy_token example.world
              _ Hcreate
              ltac:(repeat constructor; cbn; intuition discriminate))
    as (headerPart & payload & built & w1 & signature & Htoken & Hbuilt & Hread).
  exists headerPart, payload, signature.
  split; [exact Htoken|].
  vm_compute in Hbuilt. injection Hbuilt as <- _.
  split; rewrite Hread; reflexivity.
Defined.

Lemma part_003_createJWT_composes_witness :
  part_003.createJWT number (fun span => span) "HS256" example.key
    example.legacy_claims example.legacy example.world
  = (payload <- createJWTPayload number (fun span => span)
                  (option_map without_headers example.legacy) ;;
     createJWT example.key
       (JObject (part_003.spread (custom_headers example.legacy)
                   (part_003_parse.own_enumerable (createJWTHeader "HS256"))))
       (JObject (part_003.spread (part_003_parse.own_enumerable payload)
                   (part_003.spread example.legacy_claims []))))%async example.world.
Proof.
  apply part_003_createJWT_composes. by_computation.
Defined.

Lemma createJWTPayload_not_before_witness :
  exists (t : JWT) (w3 : World),
    validateJWT "HS256" example.key example.scheduled_token
      (snd (createJWT example.key (createJWTHeader "HS256")
              (JObject [("nbf", JNumber (Dec 1699999999 0))]) example.world))
    = (Return t, w3)
    /\ payload t = JObject [("nbf", JNumber (Dec 1699999999 0))].
Proof.
  assert (Hheader : @serializes host_JSON (createJWTHeader "HS256"))
    by by_computation.
  assert (Hpayload : @serializes host_JSON
                       (JObject [("nbf", JNumber (Dec 1699999999 0))]))
    by by_computation.
  assert (Hbuilt : createJWTPayload number (fun span => span) example.scheduled
                     example.world
                   = (Return (JObject [("nbf", JNumber (Dec 1699999999 0))]),
                      example.world))
    by by_computation.
  assert (Hcreate : createJWT example.key (createJWTHeader "HS256")
                      (JObject [("nbf", JNumber (Dec 1699999999 0))]) example.world
                    = (Return example.scheduled_token,
                       snd (createJWT example.key (createJWTHeader "HS256")
                              (JObject [("nbf", JNumber (Dec 1699999999 0))])
                              example.world)))
    by by_computation.
  apply (proj2 (createJWTPayload_not_before number (fun span => span) "HS256"
                  example.key example.scheduled
                  (mkDate (number_of_Z 1699999999500)) 1699999999500 _
                  example.scheduled_token example.world _ _
                  base64url_round_trips standin_signatures_verify eq_refl eq_refl
                  eq_refl ltac:(vm_compute; discriminate)
                  Hbuilt Hcreate Hheader Hpayload)).
  vm_compute. discriminate.
Defined.
